(** * CellTutor: a shallow embedding of [celltutor/__init__.py]

    The development follows the Python module top to bottom:
    - [Py]: the fragment of Python's data model the module relies on
      (JSON-like values, exceptions, [str] methods, subscripting);
    - [Ast]: the part of [ast] trees that [Inspector] looks at, with
      [ast.walk];
    - the world the module runs in (SQLite tables, the objects that are
      passed by reference, the [uuid4] and [time.time] sources);
    - [Registry], [Inspector], [CellAgentBuilder], [CellAgentRuntime];
    - the properties checked against the specification.

    A Python [str] is modelled as [string] whose characters are the code
    points below 256; a dict keeps its insertion order and is an
    association list.  Logging and the creation of the database file have no
    bearing on what follows and are left out. *)

From Stdlib Require Import ZArith Ascii Permutation.
From Stdlib Require Import Floats.SpecFloat.
From stdpp Require Import gmap strings pretty list.
From Equations Require Import Equations.

Local Open Scope Z_scope.
Set Warnings "-register-all".

(** ** Python values, exceptions and the string methods in use *)

Module Py.

(** The exception classes that the module or its libraries can raise.  All
    of them derive from [Exception], so a bare [except Exception] catches
    every one. *)
Inductive exn :=
| ValueError (msg : string)
| TypeError
| AttributeError
| KeyError
| IndexError
| SyntaxError
| JSONDecodeError
| IntegrityError
| InterfaceError
| OverflowError
| RuntimeError (msg : string).

(** The outcome of evaluating an expression: a value or a raised exception. *)
Inductive res (A : Type) :=
| Ok (a : A)
| Raise (e : exn).
Arguments Ok {A} a.
Arguments Raise {A} e.

Definition res_bind {A B} (r : res A) (k : A -> res B) : res B :=
  match r with
  | Ok a => k a
  | Raise e => Raise e
  end.

(** [try: r  except Exception: h]. *)
Definition try_except {A} (r : res A) (h : exn -> res A) : res A :=
  match r with
  | Ok a => Ok a
  | Raise e => h e
  end.

Fixpoint res_map {A B} (f : A -> res B) (l : list A) : res (list B) :=
  match l with
  | [] => Ok []
  | a :: l' =>
      res_bind (f a) (fun b => res_bind (res_map f l') (fun bs => Ok (b :: bs)))
  end.

(** JSON-like values: what [json.dumps] accepts and [json.loads] returns. *)
Inductive value :=
| VNone
| VBool (b : bool)
| VInt (z : Z)
| VFloat (f : spec_float)
| VStr (s : string)
| VList (l : list value)
| VDict (d : list (string * value)).

Abbreviation dict := (list (string * value)).

(** [d.get(k)] / [k in d]: the first binding of [k]. *)
Fixpoint dict_get (k : string) (d : dict) : option value :=
  match d with
  | [] => None
  | (k', v) :: d' => if String.eqb k k' then Some v else dict_get k d'
  end.

(** [d[k] = v]: an existing key keeps its place, a new one goes last. *)
Fixpoint dict_set (k : string) (v : value) (d : dict) : dict :=
  match d with
  | [] => [(k, v)]
  | (k', v') :: d' =>
      if String.eqb k k' then (k', v) :: d' else (k', v') :: dict_set k v d'
  end.

(** Truth value of an object, as [if x], [not x] and [x or y] test it. *)
Definition float_is_zero (f : spec_float) : bool :=
  match f with
  | S754_zero _ => true
  | _ => false
  end.

Definition truthy (v : value) : bool :=
  match v with
  | VNone => false
  | VBool b => b
  | VInt z => negb (z =? 0)
  | VFloat f => negb (float_is_zero f)
  | VStr s => negb (String.eqb s "")
  | VList l => match l with [] => false | _ => true end
  | VDict d => match d with [] => false | _ => true end
  end.

(** *** [str] methods *)

Definition code_point (c : ascii) : N := N_of_ascii c.

(** [c.isspace()] on the code points below 256. *)
Definition isspace (c : ascii) : bool :=
  let n := code_point c in
  ((9 <=? n) && (n <=? 13) || (28 <=? n) && (n <=? 32)
   || (n =? 133) || (n =? 160))%N.

(** The line boundaries of [str.splitlines] below code point 256. *)
Definition is_linebreak (c : ascii) : bool :=
  let n := code_point c in
  ((10 <=? n) && (n <=? 13) || (28 <=? n) && (n <=? 30) || (n =? 133))%N.

Definition lower_char (c : ascii) : ascii :=
  let n := code_point c in
  if ((65 <=? n) && (n <=? 90)
      || (192 <=? n) && (n <=? 222) && negb (n =? 215))%N
  then ascii_of_N (n + 32) else c.

(** [s.lower()]. *)
Fixpoint lower (s : string) : string :=
  match s with
  | EmptyString => EmptyString
  | String c s' => String (lower_char c) (lower s')
  end.

(** [s[:n]] for a non-negative [n]. *)
Fixpoint str_take (n : nat) (s : string) : string :=
  match n, s with
  | S n', String c s' => String c (str_take n' s')
  | _, _ => EmptyString
  end.

(** [sub in s]. *)
Fixpoint str_in (sub s : string) : bool :=
  if String.prefix sub s then true
  else match s with
       | EmptyString => false
       | String _ s' => str_in sub s'
       end.

Fixpoint lstrip (s : string) : string :=
  match s with
  | EmptyString => EmptyString
  | String c s' => if isspace c then lstrip s' else s
  end.

(** [s.strip()]. *)
Definition strip (s : string) : string :=
  String.rev (lstrip (String.rev (lstrip s))).

(** [s.splitlines()]: [cur] is the line being read, last character first.
    A carriage return directly followed by a line feed is one boundary, and
    a last line without characters is not a line. *)
Fixpoint splitlines_go (cur : string) (s : string) : list string :=
  match s with
  | EmptyString =>
      match cur with
      | EmptyString => []
      | _ => [String.rev cur]
      end
  | String c s' =>
      if is_linebreak c then
        String.rev cur ::
          match s' with
          | String c' s'' =>
              if ((code_point c =? 13) && (code_point c' =? 10))%N
              then splitlines_go EmptyString s''
              else splitlines_go EmptyString s'
          | EmptyString => splitlines_go EmptyString s'
          end
      else splitlines_go (String c cur) s'
  end.

Definition splitlines (s : string) : list string :=
  splitlines_go EmptyString s.

(** [sep.join(l)]. *)
Fixpoint join (sep : string) (l : list string) : string :=
  match l with
  | [] => ""
  | [s] => s
  | s :: l' => s +:+ sep +:+ join sep l'
  end.

(** Two notions the specification speaks of: a blank line has white space
    only, and [sub] is a substring of [s] when [s] is [sub] with something
    before and after it. *)
Fixpoint blank (s : string) : bool :=
  match s with
  | EmptyString => true
  | String c s' => isspace c && blank s'
  end.

Definition substring_of (sub s : string) : Prop :=
  exists before after, s = before +:+ sub +:+ after.

(** *** Operators on values *)

(** [len(v)]. *)
Definition py_len (v : value) : res Z :=
  match v with
  | VStr s => Ok (Z.of_nat (String.length s))
  | VList l => Ok (Z.of_nat (length l))
  | VDict d => Ok (Z.of_nat (length d))
  | _ => Raise TypeError
  end.

(** [f < n] for a float and an int: the float is [(-1)^s * m * 2^e]. *)
Definition float_lt_int (f : spec_float) (n : Z) : bool :=
  match f with
  | S754_zero _ => 0 <? n
  | S754_infinity negative => negative
  | S754_nan => false
  | S754_finite negative m e =>
      let mz := if negative then Z.neg m else Z.pos m in
      if 0 <=? e then mz * 2 ^ e <? n else mz <? n * 2 ^ (- e)
  end.

(** [v < n] where [n] is an int; a [bool] is an int. *)
Definition py_lt_int (v : value) (n : Z) : res bool :=
  match v with
  | VInt z => Ok (z <? n)
  | VBool b => Ok (Z.b2z b <? n)
  | VFloat f => Ok (float_lt_int f n)
  | _ => Raise TypeError
  end.

(** An object usable as a sequence index. *)
Definition as_index (i : value) : option Z :=
  match i with
  | VInt z => Some z
  | VBool b => Some (Z.b2z b)
  | _ => None
  end.

(** [l[i]] on a sequence: a negative index counts from the end. *)
Definition seq_index {A} (l : list A) (i : Z) : res A :=
  let n := Z.of_nat (length l) in
  let j := if i <? 0 then i + n else i in
  if (0 <=? j) && (j <? n) then
    match l !! Z.to_nat j with
    | Some x => Ok x
    | None => Raise IndexError
    end
  else Raise IndexError.

(** [v[i]]. *)
Definition getitem (v i : value) : res value :=
  match v with
  | VList l =>
      match as_index i with
      | Some z => seq_index l z
      | None => Raise TypeError
      end
  | VStr s =>
      match as_index i with
      | Some z =>
          res_bind (seq_index (String.list_ascii_of_string s) z)
                   (fun c => Ok (VStr (String c EmptyString)))
      | None => Raise TypeError
      end
  | VDict d =>
      match i with
      | VStr k =>
          match dict_get k d with
          | Some x => Ok x
          | None => Raise KeyError
          end
      | VList _ | VDict _ => Raise TypeError
      | _ => Raise KeyError
      end
  | _ => Raise TypeError
  end.

(** [v[:n]] for a non-negative literal [n]. *)
Definition slice_to (n : nat) (v : value) : res value :=
  match v with
  | VStr s => Ok (VStr (str_take n s))
  | VList l => Ok (VList (take n l))
  | _ => Raise TypeError
  end.

(** [v.get(k, default)]: only a dict has the method. *)
Definition get_method (v : value) (k : string) (default : value) : res value :=
  match v with
  | VDict d =>
      match dict_get k d with
      | Some x => Ok x
      | None => Ok default
      end
  | _ => Raise AttributeError
  end.

(** [v.lower()]: only a [str] has the method. *)
Definition lower_method (v : value) : res string :=
  match v with
  | VStr s => Ok (lower s)
  | _ => Raise AttributeError
  end.

(** [sep.join(v)] for a list [v]: every item has to be a [str]. *)
Definition join_values (sep : string) (l : list value) : res string :=
  res_bind
    (res_map (fun v => match v with VStr s => Ok s | _ => Raise TypeError end) l)
    (fun ss => Ok (join sep ss)).

End Py.

(** ** The [ast] trees that [Inspector] inspects *)

Module Ast.

(** [ast.alias]: one name of an import statement. *)
Record alias := Alias { name : string; asname : option string }.

(** The node classes that [extract_summary] tells apart, with the
    attributes it reads; every other class is [Other]. *)
Inductive kind :=
| FunctionDef (name : string)
| For
| While
| Import (names : list alias)
| ImportFrom (modname : option string) (names : list alias)
| Other.

(** A node with its child nodes in the order of [ast.iter_child_nodes]. *)
Inductive node :=
| Node (k : kind) (children : list node).

Definition kind_of (n : node) : kind :=
  match n with Node k _ => k end.

Definition children_of (n : node) : list node :=
  match n with Node _ cs => cs end.

Fixpoint size (n : node) : nat :=
  match n with
  | Node _ cs => S (list_sum (map size cs))
  end.

Definition forest_size (f : list node) : nat := list_sum (map size f).

(** [ast.walk]: a deque of nodes to visit; the node at the front is
    yielded and its children are queued at the back. *)
Equations? walk_queue (todo : list node) : list node
  by wf (forest_size todo) lt :=
walk_queue [] := [];
walk_queue (n :: todo) := n :: walk_queue (todo ++ children_of n).
Proof.
  destruct n as [k cs]. unfold forest_size. simpl.
  rewrite map_app, list_sum_app. lia.
Qed.

Definition walk (tree : node) : list node := walk_queue [tree].

(** What the parser guarantees: an [import] statement names at least one
    module. *)
Fixpoint well_formed (n : node) : bool :=
  match n with
  | Node k cs =>
      match k with
      | Import [] => false
      | _ => true
      end && forallb well_formed cs
  end.

(** *** Notions the specification speaks of *)

(** A node occurs in a tree: it is the tree or occurs in a child. *)
Inductive occurs_in (n : node) : node -> Prop :=
| occurs_here : occurs_in n n
| occurs_below k cs c : c ∈ cs -> occurs_in n c -> occurs_in n (Node k cs).

(** Document order: a node comes before its children, and the children
    follow one another from left to right. *)
Fixpoint document_order (n : node) : list node :=
  match n with
  | Node _ cs => n :: (cs ≫= document_order)
  end.

(** The nodes at depth [d], from left to right. *)
Fixpoint level (d : nat) (n : node) : list node :=
  match d with
  | O => [n]
  | S d' => children_of n ≫= level d'
  end.

Fixpoint height (n : node) : nat :=
  match n with
  | Node _ cs => S (foldr Nat.max O (map height cs))
  end.

Definition forest_height (f : list node) : nat :=
  foldr Nat.max O (map height f).

(** Breadth-first order: depth by depth, each depth in document order. *)
Definition breadth_first (tree : node) : list node :=
  seq 0 (height tree) ≫= (fun d => level d tree).

(** Every module an import statement of the tree names. *)
Definition modules_named (n : node) : list string :=
  match kind_of n with
  | Import names => name <$> names
  | ImportFrom (Some m) _ => [m]
  | _ => []
  end.

Definition imported_modules (tree : node) : list string :=
  document_order tree ≫= modules_named.

End Ast.

Import Py.

(** ** The world the module runs in *)

(** A row of table [cell_agents].  Column [id] has type TEXT, so a bound
    value is stored as text and NULL is [None]; column [manifest] holds
    [json.dumps(manifest)], which [json.loads] turns back into the same
    JSON value, and is kept as that value. *)
Record cell_agent := CellAgent {
  ca_id : option string;
  ca_cell_index : Z;
  ca_manifest : dict;
  ca_created_at : spec_float }.

(** A row of table [attempts]. *)
Record attempt := Attempt {
  at_id : option string;
  at_cell_id : option string;
  at_ts : spec_float;
  at_quiz_result_json : value }.

(** A reference to a dict object that is shared between caller and callee. *)
Abbreviation loc := nat (only parsing).

Record world := World {
  objects : gmap loc dict;
  cell_agents : list cell_agent;
  attempts : list attempt;
  (** what the successive calls of [uuid.uuid4] draw their bits from *)
  random_source : nat -> Z;
  random_count : nat;
  (** what the successive calls of [time.time] return *)
  clock : nat -> spec_float;
  clock_count : nat }.

Definition set_objects (h : gmap loc dict) (w : world) : world :=
  World h (cell_agents w) (attempts w)
        (random_source w) (random_count w) (clock w) (clock_count w).

Definition set_cell_agents (t : list cell_agent) (w : world) : world :=
  World (objects w) t (attempts w)
        (random_source w) (random_count w) (clock w) (clock_count w).

Definition set_attempts (t : list attempt) (w : world) : world :=
  World (objects w) (cell_agents w) t
        (random_source w) (random_count w) (clock w) (clock_count w).

Definition tick_random (w : world) : world :=
  World (objects w) (cell_agents w) (attempts w)
        (random_source w) (S (random_count w)) (clock w) (clock_count w).

Definition tick_clock (w : world) : world :=
  World (objects w) (cell_agents w) (attempts w)
        (random_source w) (random_count w) (clock w) (S (clock_count w)).

(** A computation: it reads and updates the world and returns or raises.
    What was written before an exception stays written. *)
Definition M (A : Type) : Type := world -> res A * world.

Definition ret {A} (a : A) : M A := fun w => (Ok a, w).

Definition raise {A} (e : exn) : M A := fun w => (Raise e, w).

Definition bind {A B} (c : M A) (k : A -> M B) : M B :=
  fun w =>
    match c w with
    | (Ok a, w') => k a w'
    | (Raise e, w') => (Raise e, w')
    end.

Definition lift {A} (r : res A) : M A := fun w => (r, w).

Notation "'let*' x ':=' c 'in' k" := (bind c (fun x => k))
  (at level 10, x name, c at level 100, k at level 200).

Notation "'do' c 'then' k" := (bind c (fun _ => k))
  (at level 10, c at level 100, k at level 200).

(** Reading and assigning through a reference.  A Python reference always
    designates a live object; the model reports one that does not as a
    [RuntimeError]. *)
Definition load (l : loc) : M dict :=
  fun w =>
    match objects w !! l with
    | Some d => (Ok d, w)
    | None => (Raise (RuntimeError "no such object"), w)
    end.

Definition store (l : loc) (d : dict) : M unit :=
  fun w => (Ok tt, set_objects (<[l := d]> (objects w)) w).

(** A dict display [{...}] creates a new object. *)
Definition alloc (d : dict) : M loc :=
  fun w =>
    let l := fresh (dom (objects w)) in
    (Ok l, set_objects (<[l := d]> (objects w)) w).

(** *** [now_ts] and [gen_id] *)

Definition now_ts : M spec_float :=
  fun w => (Ok (clock w (clock_count w)), tick_clock w).

(** [uuid.uuid4().int]: 128 random bits with the version and variant
    fields set. *)
Definition uuid4_int (random : Z) : Z :=
  let i := random mod 2 ^ 128 in
  let i := Z.ldiff i (Z.shiftl 0xc000 48) in
  let i := Z.lor i (Z.shiftl 0x8000 48) in
  let i := Z.ldiff i (Z.shiftl 0xf000 64) in
  Z.lor i (Z.shiftl 4 76).

Definition hex_digit (d : Z) : ascii :=
  nth (Z.to_nat d)
      ["0"; "1"; "2"; "3"; "4"; "5"; "6"; "7";
       "8"; "9"; "a"; "b"; "c"; "d"; "e"; "f"]%char "0"%char.

(** The [digits] low hexadecimal digits of [i] in front of [acc]. *)
Fixpoint hex_go (digits : nat) (i : Z) (acc : string) : string :=
  match digits with
  | O => acc
  | S k => hex_go k (i / 16) (String (hex_digit (i mod 16)) acc)
  end.

Fixpoint str_drop (n : nat) (s : string) : string :=
  match n, s with
  | S n', String _ s' => str_drop n' s'
  | _, _ => s
  end.

(** [s[a:b]]. *)
Definition str_slice (a b : nat) (s : string) : string :=
  str_take (b - a) (str_drop a s).

(** [str(u)] for a UUID [u] with [u.int = i]. *)
Definition uuid_str (i : Z) : string :=
  let h := hex_go 32 i "" in
  str_slice 0 8 h +:+ "-" +:+ str_slice 8 12 h +:+ "-" +:+
  str_slice 12 16 h +:+ "-" +:+ str_slice 16 20 h +:+ "-" +:+ str_drop 20 h.

Definition uuid4 : M Z :=
  fun w => (Ok (uuid4_int (random_source w (random_count w))), tick_random w).

Definition gen_id : M string :=
  let* u := uuid4 in
  ret (str_take 8 (uuid_str u)).

Arguments uuid4_int : simpl never.
Arguments uuid_str : simpl never.

(** ** Collaborators *)

(** [LLMInterface]: the text generator, swappable at construction time. *)
Class LLMInterface := {
  generate : string -> res string }.

(** The visualizer: each method returns the path of the artifact. *)
Class Visualizer := {
  make_diagram : string -> string -> res string;
  make_animation : string -> list string -> res string }.

Section CellTutor.

(** Library behaviour the module depends on and that is not recomputed
    here: the text SQLite stores for a REAL in a TEXT column (NULL for a
    NaN), what an f-string inserts for a value that is not a [str],
    [ast.parse] and [json.loads]. *)
Variable real_text : spec_float -> option string.
Variable repr : value -> string.
Variable ast_parse : string -> res Ast.node.
Variable json_loads : string -> res value.

Context {llm : LLMInterface} {visualizer : Visualizer}.

(** ** [Registry] *)

(** What [sqlite3] binds a Python object to and column type TEXT stores:
    [None] is NULL, numbers are stored as their text, an [int] has to fit
    64 bits, and a list or dict cannot be bound. *)
Definition sql_text (v : value) : res (option string) :=
  match v with
  | VNone => Ok None
  | VBool b => Ok (Some (if b then "1" else "0"))
  | VInt z =>
      if (- 2 ^ 63 <=? z) && (z <? 2 ^ 63) then Ok (Some (pretty z))
      else Raise OverflowError
  | VFloat f => Ok (real_text f)
  | VStr s => Ok (Some s)
  | VList _ | VDict _ => Raise InterfaceError
  end.

Definition sql_integer (z : Z) : res Z :=
  if (- 2 ^ 63 <=? z) && (z <? 2 ^ 63) then Ok z else Raise OverflowError.

(** [id] is the PRIMARY KEY: no two rows hold the same text (NULLs do not
    count). *)
Definition key_taken {R} (key_of : R -> option string) (k : option string)
    (table : list R) : bool :=
  match k with
  | None => false
  | Some s =>
      existsb (fun r => match key_of r with
                        | Some s' => String.eqb s s'
                        | None => false
                        end) table
  end.

(** [SELECT ... WHERE id=?] followed by [fetchone]. *)
Definition select_by_id {R} (key_of : R -> option string) (k : option string)
    (table : list R) : option R :=
  match k with
  | None => None
  | Some s =>
      find (fun r => match key_of r with
                     | Some s' => String.eqb s s'
                     | None => false
                     end) table
  end.

Definition insert_cell_agent (row : cell_agent) : M unit :=
  fun w =>
    if key_taken ca_id (ca_id row) (cell_agents w)
    then (Raise IntegrityError, w)
    else (Ok tt, set_cell_agents (cell_agents w ++ [row]) w).

Definition insert_attempt (row : attempt) : M unit :=
  fun w =>
    if key_taken at_id (at_id row) (attempts w)
    then (Raise IntegrityError, w)
    else (Ok tt, set_attempts (attempts w ++ [row]) w).

Definition register (cell_index : Z) (manifest : loc) : M value :=
  let* m := load manifest in
  let* cid :=
    (let v := default VNone (dict_get "id" m) in
     if truthy v then ret v
     else let* g := gen_id in ret (VStr g)) in
  do store manifest (dict_set "id" cid m) then
  let* payload := load manifest in
  let* created_at := now_ts in
  let* id := lift (sql_text cid) in
  let* index := lift (sql_integer cell_index) in
  do insert_cell_agent (CellAgent id index payload created_at) then
  ret cid.

Definition get_manifest (cell_id : value) : M value :=
  let* id := lift (sql_text cell_id) in
  fun w =>
    match select_by_id ca_id id (cell_agents w) with
    | None => (Ok VNone, w)
    | Some r => (Ok (VDict (ca_manifest r)), w)
    end.

Definition store_attempt (cell_id : value) (result : value) : M string :=
  let* aid := gen_id in
  let* ts := now_ts in
  let* id := lift (sql_text (VStr aid)) in
  let* cell := lift (sql_text cell_id) in
  do insert_attempt (Attempt id cell ts result) then
  ret aid.

(** ** [Inspector] *)

Definition function_name (n : Ast.node) : option string :=
  match Ast.kind_of n with
  | Ast.FunctionDef name => Some name
  | _ => None
  end.

Definition is_loop (n : Ast.node) : bool :=
  match Ast.kind_of n with
  | Ast.For | Ast.While => true
  | _ => false
  end.

(** [n.names[0].name] of the [Import] nodes. *)
Definition import_first_name (n : Ast.node) : option (res string) :=
  match Ast.kind_of n with
  | Ast.Import names =>
      Some (match names with
            | a :: _ => Ok (Ast.name a)
            | [] => Raise IndexError
            end)
  | _ => None
  end.

(** [n.module] of the [ImportFrom] nodes whose module is truthy. *)
Definition import_from_module (n : Ast.node) : option string :=
  match Ast.kind_of n with
  | Ast.ImportFrom (Some m) _ => if String.eqb m "" then None else Some m
  | _ => None
  end.

Definition functions_of (tree : Ast.node) : list string :=
  omap function_name (Ast.walk tree).

Definition has_loop_of (tree : Ast.node) : bool :=
  existsb is_loop (Ast.walk tree).

Definition imports_of (tree : Ast.node) : res (list string) :=
  res_bind (res_map (fun r => r) (omap import_first_name (Ast.walk tree)))
    (fun imports =>
       Ok (imports ++ omap import_from_module (Ast.walk tree))).

(** [list(set(l))]: the elements of [l] without repetition.  Python leaves
    their order open; the model lists each element where it occurs last,
    and no property below depends on the order. *)
Definition list_set (l : list string) : list string := remove_dups l.

Definition nonblank_lines (code : string) : list string :=
  filter (fun ln => negb (String.eqb (strip ln) "") = true) (splitlines code).

Definition extract_summary (code : string) : res dict :=
  match ast_parse code with
  | Raise e =>
      Ok [("error", VStr "not python or parse error");
          ("raw_code", VStr (str_take 200 code))]
  | Ok tree =>
      let funcs := functions_of tree in
      let loops := has_loop_of tree in
      res_bind (imports_of tree) (fun imports =>
      Ok [("functions", VList (VStr <$> funcs));
          ("has_loop", VBool loops);
          ("imports",
           VList (VStr <$> list_set
                    (filter (fun i => negb (String.eqb i "") = true) imports)));
          ("lines", VList (VStr <$> nonblank_lines code))])
  end.

(** ** [CellAgentBuilder] *)

(** What an f-string inserts for a value. *)
Definition format_value (v : value) : string :=
  match v with
  | VStr s => s
  | _ => repr v
  end.

(** [sep.join(v)]: [v] is iterated, a [str] character by character. *)
Definition join_method (sep : string) (v : value) : res string :=
  match v with
  | VList l => join_values sep l
  | VStr s =>
      Ok (join sep ((fun c => String c EmptyString) <$>
                      String.list_ascii_of_string s))
  | VDict d => Ok (join sep (fst <$> d))
  | _ => Raise TypeError
  end.

Definition default_quiz : value :=
  VList [VDict [("q", VStr "What does the code do?");
                ("type", VStr "short");
                ("answer_hint", VStr "describe")]].

Definition summary_prompt (code : string) : string :=
  "Summary:\nCode:\n" +:+ code +:+ "\n\nProvide a concise summary.".

Definition line_prompt (joined : string) : string :=
  "Line-by-line explanation:\n" +:+ joined.

Definition vis_prompt (code : string) : string :=
  "Visualize the following code:\n\n" +:+ code +:+
  "\n\nSuggest a diagram and steps.".

Definition frames : list string :=
  (fun i : Z => "State " +:+ pretty (i + 1) +:+ ": explain variable changes")
    <$> [0; 1; 2].

Definition quiz_prompt : string :=
  "Generate a 1-3 question quiz based on this code. Return JSON list of questions.".

Definition build_for_cell (cell_index : Z) (code : string)
    (title : option string) : M loc :=
  let* inspect := lift (extract_summary code) in
  let name :=
    match title with
    | Some t => if String.eqb t "" then "CellAgent_" +:+ pretty cell_index else t
    | None => "CellAgent_" +:+ pretty cell_index
    end in
  let* summary := lift (generate (summary_prompt code)) in
  let* lines20 :=
    lift (slice_to 20 (default (VList []) (dict_get "lines" inspect))) in
  let* joined := lift (join_method "\n" lines20) in
  let* line_by_line := lift (generate (line_prompt joined)) in
  let* vis_instructions := lift (generate (vis_prompt code)) in
  let* diagram_id := gen_id in
  let* diagram_path := lift (make_diagram diagram_id vis_instructions) in
  let* anim_id := gen_id in
  let* anim_path := lift (make_animation anim_id frames) in
  let* quiz_json := lift (generate quiz_prompt) in
  let* quiz :=
    lift (try_except (json_loads quiz_json) (fun _ => Ok default_quiz)) in
  let* created_at := now_ts in
  let* manifest :=
    alloc [("name", VStr name);
           ("cell_index", VInt cell_index);
           ("code_sample", VStr code);
           ("inspection", VDict inspect);
           ("summary", VStr summary);
           ("line_by_line", VStr line_by_line);
           ("diagram", VStr diagram_path);
           ("animation", VStr anim_path);
           ("quiz", quiz);
           ("created_at", VFloat created_at)] in
  let* cid := register cell_index manifest in
  let* m := load manifest in
  do store manifest (dict_set "id" cid m) then
  ret manifest.

(** ** [CellAgentRuntime] *)

Definition explain (cell_id : value) (depth : string) : M value :=
  let* manifest := get_manifest cell_id in
  if negb (truthy manifest) then raise (ValueError "Cell agent not found")
  else if String.eqb depth "summary" then
    lift (getitem manifest (VStr "summary"))
  else if String.eqb depth "line" then
    lift (getitem manifest (VStr "line_by_line"))
  else lift (get_method manifest "summary" VNone).

Definition get_visuals (cell_id : value) : M value :=
  let* m := get_manifest cell_id in
  let* diagram := lift (get_method m "diagram" VNone) in
  let* animation := lift (get_method m "animation" VNone) in
  ret (VDict [("diagram", diagram); ("animation", animation)]).

Definition ask_question (cell_id : value) (user_question : string) : M string :=
  let* m := get_manifest cell_id in
  let* code_sample := lift (getitem m (VStr "code_sample")) in
  let* context := lift (slice_to 2000 code_sample) in
  let prompt :=
    "User question: " +:+ user_question +:+ "\nContext:\n" +:+
    format_value context +:+ "\nProvide a clear, concise answer." in
  lift (generate prompt).

(** The body of the loop of [run_quiz]: the entry of [results] for [ans]. *)
Definition grade (quiz : value) (ans : value) : res value :=
  res_bind (getitem ans (VStr "q_index")) (fun idx =>
  res_bind (getitem ans (VStr "answer")) (fun user_ans =>
  res_bind (py_len quiz) (fun n =>
  res_bind (py_lt_int idx n) (fun in_range =>
  res_bind
    (if in_range : bool then
       res_bind (getitem quiz idx) (fun q =>
       res_bind (get_method q "answer_hint" (VStr "")) (fun hint =>
       lower_method hint))
     else Ok "") (fun expected_hint =>
  res_bind
    (if negb (String.eqb expected_hint "") then
       res_bind (lower_method user_ans) (fun a =>
       Ok (str_in expected_hint a))
     else Ok true) (fun correct =>
  Ok (VDict [("index", idx);
             ("user_answer", user_ans);
             ("correct", VBool correct)]))))))).

(** [r["correct"]] of an entry built by [grade]. *)
Definition is_correct (r : value) : bool :=
  match r with
  | VDict d => truthy (default VNone (dict_get "correct" d))
  | _ => false
  end.

Definition run_quiz (cell_id : value) (user_answers : list value) : M value :=
  let* manifest := get_manifest cell_id in
  let* quiz := lift (get_method manifest "quiz" (VList [])) in
  let* results := lift (res_map (grade quiz) user_answers) in
  let summary :=
    VDict [("score",
            VInt (Z.of_nat
                    (length (filter (fun r => is_correct r = true) results))));
           ("total", VInt (Z.of_nat (length results)));
           ("details", VList results)] in
  do store_attempt cell_id summary then
  ret summary.

End CellTutor.

(** ** Notions used to state the properties *)

(** What the next call of [gen_id] returns. *)
Definition next_id (w : world) : string :=
  str_take 8 (uuid_str (uuid4_int (random_source w (random_count w)))).

Arguments next_id : simpl never.

(** The id [register] settles on, the dict it leaves in the caller's
    object, and the world at the moment of the INSERT. *)
Definition chosen_id (d : dict) (w : world) : value :=
  let v := default VNone (dict_get "id" d) in
  if truthy v then v else VStr (next_id w).

Definition stamped (d : dict) (w : world) : dict :=
  dict_set "id" (chosen_id d w) d.

Definition before_insert (manifest : loc) (d : dict) (w : world) : world :=
  let w1 := if truthy (default VNone (dict_get "id" d)) then w
            else tick_random w in
  tick_clock (set_objects (<[manifest := stamped d w]> (objects w1)) w1).

(** The first name of an import statement. *)
Definition first_name (n : Ast.node) : option string :=
  match Ast.kind_of n with
  | Ast.Import (a :: _) => Some (Ast.name a)
  | _ => None
  end.

(** The outcome of [ast.parse] is an exception or a tree the grammar
    allows. *)
Definition parse_well_formed (r : res Ast.node) : bool :=
  match r with
  | Ok tree => Ast.well_formed tree
  | Raise _ => true
  end.

(** Collaborators that do not fail. *)
Definition always_answers (llm : LLMInterface) : Prop :=
  forall prompt, exists text, generate prompt = Ok text.

Definition always_renders (visualizer : Visualizer) : Prop :=
  (forall cell_id text, exists path, make_diagram cell_id text = Ok path)
  /\ (forall cell_id texts, exists path, make_animation cell_id texts = Ok path).

(** A decoded quiz has the shape of a sequence of questions when it is a
    list of dicts. *)
Definition question_sequence (quiz : value) : bool :=
  match quiz with
  | VList qs => forallb (fun q => match q with VDict _ => true | _ => false end) qs
  | _ => false
  end.

(** A client calls the methods of the registry in any order, on dicts it
    builds and assigns to itself; in between it may draw ids and read the
    clock, as the builder and the runtime do. *)
Inductive call :=
| CallRegister (cell_index : Z) (manifest : loc)
| CallGetManifest (cell_id : value)
| CallStoreAttempt (cell_id : value) (result : value)
| CallNewDict (d : dict)
| CallSetItem (l : loc) (k : string) (v : value)
| CallGenId
| CallNowTs.

Section Clients.

Variable real_text : spec_float -> option string.

(** Running the calls one after the other; a call that raises does not
    stop the client.  The result lists the ids that [register] returned. *)
Fixpoint run_calls (calls : list call) (w : world) : list value * world :=
  match calls with
  | [] => ([], w)
  | CallRegister cell_index manifest :: calls' =>
      match register real_text cell_index manifest w with
      | (Ok cid, w') =>
          let '(ids, w'') := run_calls calls' w' in (cid :: ids, w'')
      | (Raise _, w') => run_calls calls' w'
      end
  | CallGetManifest cell_id :: calls' =>
      run_calls calls' (snd (get_manifest real_text cell_id w))
  | CallStoreAttempt cell_id result :: calls' =>
      run_calls calls' (snd (store_attempt real_text cell_id result w))
  | CallNewDict d :: calls' =>
      run_calls calls' (snd (alloc d w))
  | CallSetItem l k v :: calls' =>
      run_calls calls'
        (snd ((let* d := load l in store l (dict_set k v d)) w))
  | CallGenId :: calls' => run_calls calls' (snd (gen_id w))
  | CallNowTs :: calls' => run_calls calls' (snd (now_ts w))
  end.

(** The id [cid] is stored under the text [s]. *)
Definition binds_to (s : string) (cid : value) : bool :=
  match sql_text real_text cid with
  | Ok (Some k) => String.eqb k s
  | _ => false
  end.

End Clients.

(** Quizzes and answers of the expected shape: a question is a dict whose
    [answer_hint], if it has one, is a [str]; an answer is a dict with an
    int [q_index] between [0] and the number of questions and a [str]
    [answer]. *)
Definition hinted (q : value) : bool :=
  match q with
  | VDict qd =>
      match dict_get "answer_hint" qd with
      | None | Some (VStr _) => true
      | _ => false
      end
  | _ => false
  end.

Definition answer_ok (questions : nat) (ans : value) : bool :=
  match getitem ans (VStr "q_index"), getitem ans (VStr "answer") with
  | Ok (VInt i), Ok (VStr _) => (0 <=? i) && (i <? Z.of_nat questions)
  | _, _ => false
  end.

(** The lowercased hint of question [i], empty when the question has none. *)
Definition expected_hint_of (qs : list value) (i : Z) : string :=
  match qs !! Z.to_nat i with
  | Some (VDict qd) =>
      match dict_get "answer_hint" qd with
      | Some (VStr h) => lower h
      | _ => ""
      end
  | _ => ""
  end.

(** What the specification asks of the entry [r] of [details] for the
    answer [ans]: it repeats the index and the answer, and it is marked
    correct exactly when the hint is empty or is a substring of the
    lowercased answer. *)
Definition graded (qs : list value) (ans r : value) : Prop :=
  exists i a,
    getitem ans (VStr "q_index") = Ok (VInt i)
    /\ getitem ans (VStr "answer") = Ok (VStr a)
    /\ r = VDict [("index", VInt i);
                  ("user_answer", VStr a);
                  ("correct", VBool (is_correct r))]
    /\ (is_correct r = true <->
        expected_hint_of qs i = ""
        \/ substring_of (expected_hint_of qs i) (lower a)).

(** ** Worlds and collaborators to run the definitions on *)

(** The database after [_init_db] has created its two empty tables, no
    object allocated yet. *)
Definition initial_world (random : nat -> Z) (time : nat -> spec_float) : world :=
  World ∅ [] [] random O time O.

(** Collaborators and library behaviour to run the definitions on:
    successive random numbers, a clock that stands still, a generator that
    always answers [text], a visualizer that names the file after the id,
    a rendering of floats that is never needed. *)
Definition demo_world : world :=
  initial_world (fun n => 0x0123456789abcdef0123456789abcdef * Z.of_nat (S n))
                (fun _ => S754_zero false).

Definition constant_llm (text : string) : LLMInterface :=
  {| generate := fun _ => Ok text |}.

Definition demo_visualizer : Visualizer :=
  {| make_diagram := fun cell_id _ => Ok (cell_id +:+ "_diagram.png");
     make_animation := fun cell_id _ => Ok (cell_id +:+ "_anim.gif") |}.

Definition no_real_text (f : spec_float) : option string := None.

(** A database holding one manifest, registered under the id [cell] it
    carries, with a quiz of two questions. *)
Definition demo_quiz : list value :=
  [VDict [("q", VStr "What does the function return?");
          ("type", VStr "short");
          ("answer_hint", VStr "It returns an int")];
   VDict [("q", VStr "Is there a loop in the code?");
          ("type", VStr "mcq");
          ("options", VList [VStr "Yes"; VStr "No"]);
          ("answer_hint", VStr "Yes")]].

Definition demo_manifest : dict :=
  [("id", VStr "cell"); ("quiz", VList demo_quiz)].

Definition quiz_world : world :=
  snd (register no_real_text 1 0%nat (snd (alloc demo_manifest demo_world))).

Definition answer_entry (q_index : Z) (answer : string) : value :=
  VDict [("q_index", VInt q_index); ("answer", VStr answer)].

Definition no_repr (v : value) : string := "".

(** [json.loads] on the two texts the examples below feed it: [42] is the
    JSON text of an int, [not json] is malformed. *)
Definition demo_json_loads (text : string) : res value :=
  if String.eqb text "42" then Ok (VInt 42) else Raise JSONDecodeError.

(** [ast.parse] on input that is not Python. *)
Definition parse_fails (code : string) : res Ast.node := Raise SyntaxError.

(** The source of a module with a nested function and an import of two
    modules, and its tree: [arguments], [Pass] and [alias] nodes are
    [Other]. *)
Definition nested_code : string :=
  "def a():
    def b(): pass
def c(): pass
import os, sys".

Definition nested_tree : Ast.node :=
  let leaf := Ast.Node Ast.Other [] in
  Ast.Node Ast.Other
    [Ast.Node (Ast.FunctionDef "a")
       [leaf; Ast.Node (Ast.FunctionDef "b") [leaf; leaf]];
     Ast.Node (Ast.FunctionDef "c") [leaf; leaf];
     Ast.Node (Ast.Import [Ast.Alias "os" None; Ast.Alias "sys" None])
       [leaf; leaf]].

(** ** Any use of the module *)

(** The public operations of the module, and what a caller does to the
    dicts it owns. *)
Inductive operation :=
| OpRegister (cell_index : Z) (manifest : loc)
| OpGetManifest (cell_id : value)
| OpStoreAttempt (cell_id : value) (result : value)
| OpBuildForCell (cell_index : Z) (code : string) (title : option string)
| OpExplain (cell_id : value) (depth : string)
| OpGetVisuals (cell_id : value)
| OpAskQuestion (cell_id : value) (user_question : string)
| OpRunQuiz (cell_id : value) (user_answers : list value)
| OpNewDict (d : dict)
| OpSetItem (l : loc) (k : string) (v : value).

Section Operations.

Variable real_text : spec_float -> option string.
Variable repr : value -> string.
Variable ast_parse : string -> res Ast.node.
Variable json_loads : string -> res value.
Context {llm : LLMInterface} {visualizer : Visualizer}.

(** The world after an operation, whether it returned or raised. *)
Definition perform (op : operation) (w : world) : world :=
  match op with
  | OpRegister cell_index manifest =>
      snd (register real_text cell_index manifest w)
  | OpGetManifest cell_id => snd (get_manifest real_text cell_id w)
  | OpStoreAttempt cell_id result =>
      snd (store_attempt real_text cell_id result w)
  | OpBuildForCell cell_index code title =>
      snd (build_for_cell real_text ast_parse json_loads cell_index code title w)
  | OpExplain cell_id depth => snd (explain real_text cell_id depth w)
  | OpGetVisuals cell_id => snd (get_visuals real_text cell_id w)
  | OpAskQuestion cell_id user_question =>
      snd (ask_question real_text repr cell_id user_question w)
  | OpRunQuiz cell_id user_answers =>
      snd (run_quiz real_text cell_id user_answers w)
  | OpNewDict d => snd (alloc d w)
  | OpSetItem l k v =>
      snd ((let* d := load l in store l (dict_set k v d)) w)
  end.

Definition run_operations (ops : list operation) (w : world) : world :=
  foldl (fun w op => perform op w) w ops.

(** The payload of a row carries, under [id], the id the row is stored
    under. *)
Definition payload_has_key (row : cell_agent) : Prop :=
  exists cid,
    dict_get "id" (ca_manifest row) = Some cid
    /\ truthy cid = true
    /\ sql_text real_text cid = Ok (ca_id row).

(** The ways in which the two tables change: not at all, or by a row at
    the end whose key no earlier row has. *)
Inductive grows : world -> world -> Prop :=
| grows_same w w' :
    cell_agents w' = cell_agents w -> attempts w' = attempts w ->
    grows w w'
| grows_cell_agent w w1 w' row :
    grows w w1 ->
    cell_agents w' = cell_agents w1 ++ [row] -> attempts w' = attempts w1 ->
    key_taken ca_id (ca_id row) (cell_agents w1) = false ->
    payload_has_key row ->
    grows w w'
| grows_attempt w w1 w' row :
    grows w w1 ->
    cell_agents w' = cell_agents w1 -> attempts w' = attempts w1 ++ [row] ->
    key_taken at_id (at_id row) (attempts w1) = false ->
    grows w w'.

End Operations.

(** The non-NULL keys of a table are pairwise distinct. *)
Definition keys_distinct {R} (key_of : R -> option string) (table : list R) : Prop :=
  NoDup (omap key_of table).

(** The characters of the ids that [gen_id] makes. *)
Definition is_hex_digit (c : ascii) : bool :=
  let n := code_point c in
  ((48 <=? n) && (n <=? 57) || (97 <=? n) && (n <=? 102))%N.

Definition all_hex (s : string) : bool :=
  forallb is_hex_digit (String.list_ascii_of_string s).

(** An answer whose index is an int at or past the end of a quiz of
    [questions] questions, whatever its [answer] is. *)
Definition past_end (questions : nat) (ans : value) : bool :=
  match getitem ans (VStr "q_index"), getitem ans (VStr "answer") with
  | Ok (VInt i), Ok _ => Z.of_nat questions <=? i
  | _, _ => false
  end.

(** The name [build_for_cell] gives a cell: the title, or
    [CellAgent_<index>] when there is none or it is empty. *)
Definition cell_name (title : option string) (cell_index : Z) : string :=
  match title with
  | Some t => if String.eqb t "" then "CellAgent_" +:+ pretty cell_index else t
  | None => "CellAgent_" +:+ pretty cell_index
  end.

(** The lines [build_for_cell] finds in the inspection of the code: its
    non-blank lines when it parses, none when it does not, since the error
    dict has no [lines]. *)
Definition inspected_lines (ast_parse : string -> res Ast.node)
    (code : string) : list string :=
  match ast_parse code with
  | Ok _ => nonblank_lines code
  | Raise _ => []
  end.

(** The manifest [build_for_cell] assembles, with the id in it. *)
Definition built_manifest (name : string) (cell_index : Z) (code : string)
    (inspect : dict) (summary line_by_line diagram animation : string)
    (quiz : value) (created_at : spec_float) (id : string) : dict :=
  [("name", VStr name);
   ("cell_index", VInt cell_index);
   ("code_sample", VStr code);
   ("inspection", VDict inspect);
   ("summary", VStr summary);
   ("line_by_line", VStr line_by_line);
   ("diagram", VStr diagram);
   ("animation", VStr animation);
   ("quiz", quiz);
   ("created_at", VFloat created_at);
   ("id", VStr id)].

(** The prompt of [ask_question]. *)
Definition question_prompt (user_question context : string) : string :=
  "User question: " +:+ user_question +:+ "\nContext:\n" +:+
  context +:+ "\nProvide a clear, concise answer.".

(** The hint of a question as it is written, empty when there is none,
    and the answers of a user who answers every question with its hint. *)
Definition hint_of (q : value) : string :=
  match q with
  | VDict qd =>
      match dict_get "answer_hint" qd with
      | Some (VStr h) => h
      | _ => ""
      end
  | _ => ""
  end.

Definition hint_answers (qs : list value) : list value :=
  imap (fun i q => answer_entry (Z.of_nat i) (hint_of q)) qs.

(** ** [MockLLM]

    The generator the demo runs with.  The other stand-in of the module,
    [MockVisualizer], draws with Pillow and writes files under the agents
    directory; that is outside this model, and the builder sees it through
    [Visualizer] only. *)

(** [s.split()]: the maximal runs of characters that are not white space;
    [cur] is the word being read, last character first. *)
Fixpoint split_go (cur : string) (s : string) : list string :=
  match s with
  | EmptyString =>
      match cur with
      | EmptyString => []
      | _ => [String.rev cur]
      end
  | String c s' =>
      if isspace c then
        match cur with
        | EmptyString => split_go EmptyString s'
        | _ => String.rev cur :: split_go EmptyString s'
        end
      else split_go (String c cur) s'
  end.

Definition split (s : string) : list string := split_go EmptyString s.

(** [enumerate(l, start)]. *)
Fixpoint enumerate {A} (start : Z) (l : list A) : list (Z * A) :=
  match l with
  | [] => []
  | a :: l' => (start, a) :: enumerate (start + 1) l'
  end.

(** [json.dumps] with its default arguments.  In a str the quote and the
    backslash are escaped, and so is every code point outside 32..126: by
    its short form where JSON has one, by [\uXXXX] otherwise. *)
Definition quote : string := String "034"%char EmptyString.
Definition backslash : string := String "092"%char EmptyString.

Definition json_escape (c : ascii) : string :=
  let n := code_point c in
  if (n =? 34)%N then backslash +:+ quote
  else if (n =? 92)%N then backslash +:+ backslash
  else if (n =? 10)%N then backslash +:+ "n"
  else if (n =? 13)%N then backslash +:+ "r"
  else if (n =? 9)%N then backslash +:+ "t"
  else if (n =? 12)%N then backslash +:+ "f"
  else if (n =? 8)%N then backslash +:+ "b"
  else if ((32 <=? n) && (n <=? 126))%N then String c EmptyString
  else backslash +:+ "u" +:+ hex_go 4 (Z.of_N n) "".

Fixpoint json_escape_all (s : string) : string :=
  match s with
  | EmptyString => EmptyString
  | String c s' => json_escape c +:+ json_escape_all s'
  end.

Definition json_string (s : string) : string :=
  quote +:+ json_escape_all s +:+ quote.

Section JsonDumps.

(** [repr] gives the text of a finite float. *)
Variable repr : value -> string.

Fixpoint json_dumps (v : value) : string :=
  match v with
  | VNone => "null"
  | VBool b => if b then "true" else "false"
  | VInt z => pretty z
  | VFloat f =>
      match f with
      | S754_nan => "NaN"
      | S754_infinity negative => if negative then "-Infinity" else "Infinity"
      | _ => repr (VFloat f)
      end
  | VStr s => json_string s
  | VList l => "[" +:+ join ", " (List.map json_dumps l) +:+ "]"
  | VDict d =>
      "{" +:+
      join ", " (List.map (fun kv => match kv with
                                     | (k, v') =>
                                         json_string k +:+ ": " +:+ json_dumps v'
                                     end) d)
      +:+ "}"
  end.

(** The quiz [MockLLM] hands out. *)
Definition mock_quiz : list value :=
  [VDict [("q", VStr "What does the function return?");
          ("type", VStr "short");
          ("answer_hint", VStr "It returns an int")];
   VDict [("q", VStr "Is there a loop in the code?");
          ("type", VStr "mcq");
          ("options", VList [VStr "Yes"; VStr "No"]);
          ("answer_hint", VStr "Yes")]].

Definition mock_line (numbered : Z * string) : string :=
  "Line " +:+ pretty numbered.1 +:+ ": " +:+ str_take 80 numbered.2 +:+
  " -> Explanation: This line ...".

(** [MockLLM.generate]. *)
Definition mock_generate (prompt : string) : res string :=
  let p := lower prompt in
  if str_in "summary:" p || str_in "summarize" p then
    let s := str_take 200 (join " " (split (strip prompt))) in
    Ok ("Quick summary: " +:+ s)
  else if str_in "explain line" p || str_in "line-by-line" p then
    let lines :=
      strip <$> filter (fun l => negb (String.eqb (strip l) "") = true)
                       (splitlines prompt) in
    let out := mock_line <$> enumerate 1 (take 10 lines) in
    Ok (join "\n" out)
  else if str_in "generate quiz" p || str_in "quiz" p then
    Ok (json_dumps (VList mock_quiz))
  else if str_in "visualize" p || str_in "diagram" p then
    Ok "visual_instructions: draw a control-flow box for the function and label variables x, y"
  else Ok ("MOCK_LLM_REPLY: " +:+ str_take 180 (strip prompt)).

Definition MockLLM : LLMInterface := {| generate := mock_generate |}.

End JsonDumps.

(** Text in which the only white space is a single space between two
    words; [at_start] tells that no word has been read yet or that the
    last character was a space. *)
Fixpoint single_spaced (at_start : bool) (s : string) : bool :=
  match s with
  | EmptyString => true
  | String c s' =>
      if isspace c
      then Ascii.eqb c " " && negb at_start && single_spaced true s'
      else single_spaced false s'
  end.

(** A word: text without white space. *)
Fixpoint spaceless (s : string) : bool :=
  match s with
  | EmptyString => true
  | String c s' => negb (isspace c) && spaceless s'
  end.

(** A quiz decoder that knows the text of the mock quiz. *)
Definition mock_json_loads (text : string) : res value :=
  if String.eqb text (json_dumps no_repr (VList mock_quiz))
  then Ok (VList mock_quiz)
  else Raise JSONDecodeError.

(** ** [GeminiAdapter] ([gemini_adapter.py]) *)

Record GeminiAdapter := {
  api_key : string;
  model : string }.

(** [GeminiAdapter(api_key, model)], where [env] is what
    [os.environ.get] finds under [GEMINI_API_KEY]. *)
Definition gemini_init (key : option string) (model_name : string)
    (env : option string) : res GeminiAdapter :=
  let chosen :=
    match key with
    | Some k => if String.eqb k "" then env else Some k
    | None => env
    end in
  match chosen with
  | Some k =>
      if String.eqb k ""
      then Raise (ValueError "GEMINI_API_KEY not set in environment. Provide a valid API key or use MockLLM for testing.")
      else Ok {| api_key := k; model := model_name |}
  | None =>
      Raise (ValueError "GEMINI_API_KEY not set in environment. Provide a valid API key or use MockLLM for testing.")
  end.

(** [GeminiAdapter.generate]. *)
Definition gemini_generate (self : GeminiAdapter) (prompt : string) : res string :=
  Ok ("[GeminiAdapter invoked with model=" +:+ model self +:+ "] " +:+
      (str_take 100 prompt +:+ "...")).

Definition gemini_llm (self : GeminiAdapter) : LLMInterface :=
  {| generate := gemini_generate self |}.

(** * Properties *)

(** ** The definitions on small inputs *)

Example splitlines_ex :
  splitlines "a
  b

c
" = ["a"; "  b"; ""; "c"].
Proof. reflexivity. Qed.

Example strip_ex : strip "  x = 1 " = "x = 1" /\ strip "   " = "".
Proof. split; reflexivity. Qed.

Example lower_ex : lower "It Returns an INT" = "it returns an int".
Proof. reflexivity. Qed.

Example str_in_ex :
  str_in "yes" "oh yes!" = true /\ str_in "yes" "no" = false
  /\ str_in "" "no" = true.
Proof. split_and!; reflexivity. Qed.

Example seq_index_ex :
  seq_index [10; 20] 1 = Ok 20 /\ seq_index [10; 20] (-1) = Ok 20
  /\ seq_index [10; 20] 2 = Raise IndexError
  /\ seq_index [10; 20] (-3) = Raise IndexError.
Proof. split_and!; reflexivity. Qed.

Example uuid_str_ex :
  uuid_str (uuid4_int 0x123456789abcdef0123456789abcdef0)
  = "12345678-9abc-4ef0-9234-56789abcdef0".
Proof. vm_compute. reflexivity. Qed.

Example gen_id_ex : fst (gen_id demo_world) = Ok "01234567".
Proof. vm_compute. reflexivity. Qed.

Example walk_ex :
  omap function_name (Ast.walk nested_tree) = ["a"; "c"; "b"]
  /\ omap function_name (Ast.breadth_first nested_tree) = ["a"; "c"; "b"]
  /\ omap function_name (Ast.document_order nested_tree) = ["a"; "b"; "c"].
Proof. split_and!; vm_compute; reflexivity. Qed.

(** ** [ast.walk] *)

Section WalkFacts.

Import Ast.

Lemma node_forall_ind (P : node -> Prop) :
  (forall k cs, Forall P cs -> P (Node k cs)) -> forall n, P n.
Proof.
  intros step. fix IH 1. intros [k cs]. apply step.
  induction cs as [|c cs IHcs]; constructor; [apply IH | exact IHcs].
Qed.

Lemma document_order_head n : n ∈ document_order n.
Proof. destruct n; simpl. apply list_elem_of_here. Qed.

Lemma occurs_in_document_order n tree :
  occurs_in n tree <-> n ∈ document_order tree.
Proof.
  split.
  - induction 1 as [|k cs c Hc _ IH].
    + apply document_order_head.
    + simpl. apply list_elem_of_further, list_elem_of_bind. eauto.
  - revert n. induction tree as [k cs IH] using node_forall_ind.
    intros n. simpl. rewrite elem_of_cons, list_elem_of_bind.
    intros [->|(c & Hn & Hc)]; [constructor|].
    rewrite Forall_forall in IH. eapply occurs_below; eauto.
Qed.

(** The queue is emptied in some order: nothing is lost or repeated. *)
Lemma walk_queue_permutation todo :
  walk_queue todo ≡ₚ todo ≫= document_order.
Proof.
  funelim (walk_queue todo); simp walk_queue; [done|].
  match goal with IH : walk_queue _ ≡ₚ _ |- _ => rewrite IH end.
  rewrite bind_app, bind_cons. destruct n as [k cs]; simpl.
  constructor. apply Permutation_app_comm.
Qed.

Lemma walk_permutation tree : walk tree ≡ₚ document_order tree.
Proof.
  unfold walk. rewrite walk_queue_permutation, bind_singleton. done.
Qed.

Lemma elem_of_walk n tree : n ∈ walk tree <-> occurs_in n tree.
Proof. rewrite walk_permutation. symmetry. apply occurs_in_document_order. Qed.

(** The queue is emptied depth by depth. *)
Lemma height_le_forest c cs :
  c ∈ cs -> (height c <= forest_height cs)%nat.
Proof.
  unfold forest_height. induction 1; simpl; lia.
Qed.

Lemma forest_height_app f g :
  forest_height (f ++ g) = Nat.max (forest_height f) (forest_height g).
Proof.
  unfold forest_height. induction f as [|n f IH]; simpl; [done|].
  rewrite IH. lia.
Qed.

Lemma level_beyond_height d :
  forall n, (height n <= d)%nat -> level d n = [].
Proof.
  induction d as [|d IH]; intros [k cs] Hh; simpl in *; [lia|].
  assert (Hcs : forall c, c ∈ cs -> level d c = []).
  { intros c Hc. apply IH. pose proof (height_le_forest c cs Hc) as Hle.
    unfold forest_height in Hle. lia. }
  clear Hh. induction cs as [|c cs IHcs]; [done|].
  rewrite bind_cons, (Hcs c), IHcs; [done | | ].
  - intros c' Hc'. apply Hcs. by apply list_elem_of_further.
  - apply list_elem_of_here.
Qed.

Lemma bind_all_nil {A B} (l : list A) : l ≫= (fun _ => @nil B) = [].
Proof. induction l; [done|]. by rewrite bind_cons. Qed.

Lemma interleave_shift {A} (a b : nat -> list A) h :
  (seq 0 h ≫= (fun d => a d ++ b d)) ++ a h
  = a O ++ (seq 0 h ≫= (fun d => b d ++ a (S d))).
Proof.
  induction h as [|h IH].
  - simpl. by rewrite app_nil_r.
  - rewrite seq_S, !bind_app, !bind_singleton. simpl.
    rewrite <- !app_assoc. rewrite (app_assoc _ (a h)), IH.
    by rewrite <- !app_assoc.
Qed.

Lemma walk_queue_levels todo :
  forall h, (forest_height todo <= h)%nat ->
  walk_queue todo = seq 0 h ≫= (fun d => todo ≫= level d).
Proof.
  funelim (walk_queue todo); intros h Hh; simp walk_queue.
  - symmetry. apply (bind_all_nil (seq 0 h)).
  - match goal with IH : forall h, _ -> walk_queue _ = _ |- _ =>
      rewrite (IH h) end.
    + pose proof (interleave_shift (fun d => level d n)
                    (fun d => todo ≫= level d) h) as Hshift.
      simpl in Hshift.
      rewrite level_beyond_height, app_nil_r in Hshift.
      * rewrite (list_bind_ext (fun d => (n :: todo) ≫= level d)
                   (fun d => level d n ++ (todo ≫= level d))
                   (seq 0 h) (seq 0 h));
          [ | intros d; apply bind_cons | reflexivity].
        rewrite Hshift. f_equal.
        apply list_bind_ext; [|done]. intros d. by rewrite bind_app.
      * unfold forest_height in Hh. simpl in Hh. lia.
    + rewrite forest_height_app. unfold forest_height in *. simpl in Hh.
      destruct n as [k cs]. simpl in *. lia.
Qed.

Lemma walk_breadth_first tree : walk tree = breadth_first tree.
Proof.
  unfold walk, breadth_first.
  rewrite (walk_queue_levels [tree] (height tree)).
  - apply list_bind_ext; [|done]. intros d. by rewrite bind_singleton.
  - unfold forest_height. simpl. lia.
Qed.

End WalkFacts.

(** ** [str] methods *)

Section StrFacts.

Lemma app_empty_l s : "" +:+ s = s.
Proof. reflexivity. Qed.

Lemma app_String c s t : String c s +:+ t = String c (s +:+ t).
Proof. reflexivity. Qed.

Lemma str_take_length n s : (String.length (str_take n s) <= n)%nat.
Proof.
  revert s. induction n as [|n IH]; intros [|c s]; simpl; try lia.
  specialize (IH s). lia.
Qed.

Lemma str_take_drop n s : s = str_take n s +:+ str_drop n s.
Proof.
  revert s. induction n as [|n IH]; intros [|c s]; try reflexivity.
  simpl. rewrite app_String. f_equal. apply IH.
Qed.

Lemma prefix_app p s :
  String.prefix p s = true <-> exists after, s = p +:+ after.
Proof.
  revert s. induction p as [|a p IH]; intros s.
  - split; [by exists s|by destruct s].
  - destruct s as [|b s]; simpl.
    + split; [done|]. intros [after H]. rewrite app_String in H. done.
    + destruct (ascii_dec a b) as [->|Hab].
      * rewrite IH. split; intros [after H]; exists after.
        -- rewrite app_String. by f_equal.
        -- rewrite app_String in H. by injection H.
      * split; [done|]. intros [after H]. rewrite app_String in H.
        injection H as ? ?. congruence.
Qed.

Lemma str_in_empty sub :
  str_in sub "" = String.prefix sub "".
Proof. by destruct sub. Qed.

Lemma str_in_String sub c s :
  str_in sub (String c s) =
  if String.prefix sub (String c s) then true else str_in sub s.
Proof. reflexivity. Qed.

Lemma str_in_substring sub s : str_in sub s = true <-> substring_of sub s.
Proof.
  unfold substring_of. split.
  - induction s as [|c s IH].
    + rewrite str_in_empty.
      intros [after ->]%prefix_app. by exists "", after.
    + rewrite str_in_String.
      destruct (String.prefix sub (String c s)) eqn:Hp.
      * intros _. apply prefix_app in Hp as [after ->]. by exists "", after.
      * intros (before & after & ->)%IH. by exists (String c before), after.
  - intros (before & after & ->).
    induction before as [|c before IH].
    + rewrite app_empty_l.
      assert (Hp : String.prefix sub (sub +:+ after) = true)
        by (apply prefix_app; eauto).
      destruct (sub +:+ after);
        [by rewrite str_in_empty | by rewrite str_in_String, Hp].
    + rewrite app_String, str_in_String, IH.
      by destruct (String.prefix _ _).
Qed.

Lemma lstrip_empty s : lstrip s = "" <-> blank s = true.
Proof.
  induction s as [|c s IH]; simpl; [done|].
  destruct (isspace c); simpl; [done|]. split; done.
Qed.

Lemma rev_app_empty s t : String.rev_app s t = "" -> s = "" /\ t = "".
Proof.
  revert t. induction s as [|c s IH]; intros t; simpl; [done|].
  intros [_ ?]%IH. done.
Qed.

Lemma blank_rev_app s t :
  blank (String.rev_app s t) = blank s && blank t.
Proof.
  revert t. induction s as [|c s IH]; intros t; simpl; [done|].
  rewrite IH. simpl. destruct (isspace c), (blank s), (blank t); done.
Qed.

(** [ln.strip()] is empty exactly for a blank line. *)
Lemma strip_empty s : strip s = "" <-> blank s = true.
Proof.
  unfold strip, String.rev. split.
  - intros [H _]%rev_app_empty. apply lstrip_empty in H.
    rewrite blank_rev_app, andb_true_r in H.
    apply lstrip_empty. revert H. clear.
    induction s as [|c s IH]; simpl; [done|].
    destruct (isspace c) eqn:Hc; [done|]. simpl. by rewrite Hc.
  - intros H%lstrip_empty. by rewrite H.
Qed.

End StrFacts.

(** ** The monad *)

Section MonadFacts.

Lemma bind_Ok {A B} (c : M A) (k : A -> M B) w a w' :
  c w = (Ok a, w') -> bind c k w = k a w'.
Proof. unfold bind. by intros ->. Qed.

Lemma bind_Raise {A B} (c : M A) (k : A -> M B) w e w' :
  c w = (Raise e, w') -> bind c k w = (Raise e, w').
Proof. unfold bind. by intros ->. Qed.

Lemma gen_id_next w : gen_id w = (Ok (next_id w), tick_random w).
Proof. reflexivity. Qed.

Lemma load_Some l d w : objects w !! l = Some d -> load l w = (Ok d, w).
Proof. unfold load. by intros ->. Qed.

Lemma load_stored l d w :
  load l (set_objects (<[l := d]> (objects w)) w)
  = (Ok d, set_objects (<[l := d]> (objects w)) w).
Proof. apply load_Some. simpl. apply lookup_insert_eq. Qed.

End MonadFacts.

(** ** [Registry] *)

Section RegistryFacts.

Variable real_text : spec_float -> option string.

Lemma key_taken_select {R} (key_of : R -> option string) k table :
  key_taken key_of k table = false -> select_by_id key_of k table = None.
Proof.
  destruct k as [s|]; simpl; [|done].
  induction table as [|r table IH]; simpl; [done|].
  destruct (match key_of r with Some s' => String.eqb s s' | None => false end);
    simpl; [done|exact IH].
Qed.

Lemma get_manifest_absent w s :
  key_taken ca_id (Some s) (cell_agents w) = false ->
  get_manifest real_text (VStr s) w = (Ok VNone, w).
Proof.
  intros H%key_taken_select. unfold get_manifest, bind, lift. simpl in *.
  by rewrite H.
Qed.

Lemma register_unfold cell_index manifest d w :
  objects w !! manifest = Some d ->
  register real_text cell_index manifest w =
  match sql_text real_text (chosen_id d w) with
  | Raise e => (Raise e, before_insert manifest d w)
  | Ok id =>
      match sql_integer cell_index with
      | Raise e => (Raise e, before_insert manifest d w)
      | Ok index =>
          if key_taken ca_id id (cell_agents w)
          then (Raise IntegrityError, before_insert manifest d w)
          else (Ok (chosen_id d w),
                set_cell_agents
                  (cell_agents w ++
                     [CellAgent id index (stamped d w) (clock w (clock_count w))])
                  (before_insert manifest d w))
      end
  end.
Proof.
  intros Hd. unfold register, before_insert, stamped, chosen_id.
  rewrite (bind_Ok _ _ w d w) by by apply load_Some.
  set (v := default VNone (dict_get "id" d)).
  assert (Hrest : forall cid w1,
    (do store manifest (dict_set "id" cid d) then
     let* payload := load manifest in
     let* created_at := now_ts in
     let* id := lift (sql_text real_text cid) in
     let* index := lift (sql_integer cell_index) in
     do insert_cell_agent (CellAgent id index payload created_at) then
     ret cid) w1 =
    let w2 := tick_clock
                (set_objects (<[manifest := dict_set "id" cid d]> (objects w1)) w1) in
    match sql_text real_text cid with
    | Raise e => (Raise e, w2)
    | Ok id =>
        match sql_integer cell_index with
        | Raise e => (Raise e, w2)
        | Ok index =>
            if key_taken ca_id id (cell_agents w1)
            then (Raise IntegrityError, w2)
            else (Ok cid,
                  set_cell_agents
                    (cell_agents w1 ++
                       [CellAgent id index (dict_set "id" cid d)
                          (clock w1 (clock_count w1))]) w2)
        end
    end).
  { intros cid w1.
    erewrite bind_Ok by reflexivity.
    erewrite bind_Ok by apply load_stored.
    erewrite bind_Ok by reflexivity.
    unfold bind, lift, ret, insert_cell_agent.
    destruct (sql_text real_text cid) as [id|e]; [|done].
    destruct (sql_integer cell_index) as [index|e]; [|done]. simpl.
    by destruct (key_taken ca_id id (cell_agents w1)). }
  destruct (truthy v) eqn:Hid.
  - rewrite (bind_Ok _ _ w v w) by done. apply Hrest.
  - rewrite (bind_Ok _ _ w (VStr (next_id w)) (tick_random w)) by done.
    rewrite Hrest. reflexivity.
Qed.

Lemma dict_get_set_eq k v d : dict_get k (dict_set k v d) = Some v.
Proof.
  induction d as [|[k' v'] d IH]; simpl.
  - by rewrite String.eqb_refl.
  - destruct (String.eqb k k') eqn:Hk; simpl; rewrite Hk; [done|exact IH].
Qed.

Lemma dict_get_set_ne k k' v d :
  k <> k' -> dict_get k' (dict_set k v d) = dict_get k' d.
Proof.
  intros Hne. induction d as [|[k0 v0] d IH]; simpl.
  - by rewrite (proj2 (String.eqb_neq k' k)).
  - destruct (String.eqb k k0) eqn:Hk; simpl; [|by rewrite IH].
    apply String.eqb_eq in Hk as <-.
    by rewrite (proj2 (String.eqb_neq k' k)).
Qed.

Lemma dict_set_twice k v d :
  dict_set k v (dict_set k v d) = dict_set k v d.
Proof.
  induction d as [|[k' v'] d IH]; simpl.
  - by rewrite String.eqb_refl.
  - destruct (String.eqb k k') eqn:Hk; simpl; rewrite Hk; [done|].
    by rewrite IH.
Qed.

Lemma hex_go_length k i acc :
  String.length (hex_go k i acc) = (k + String.length acc)%nat.
Proof.
  revert i acc. induction k as [|k IH]; intros i acc; simpl; [done|].
  rewrite IH. simpl. lia.
Qed.

Lemma str_take_full_length n s :
  (n <= String.length s)%nat -> String.length (str_take n s) = n.
Proof.
  revert s. induction n as [|n IH]; intros [|c s]; simpl; try lia.
  intros H. rewrite IH; lia.
Qed.

Lemma str_take_app n a b :
  String.length a = n -> str_take n (a +:+ b) = a.
Proof.
  intros <-. induction a as [|c a IH]; [reflexivity|].
  rewrite app_String. simpl. by rewrite IH.
Qed.

(** [gen_id] returns eight characters. *)
Lemma next_id_length w : String.length (next_id w) = 8%nat.
Proof.
  unfold next_id, uuid_str.
  set (h := hex_go 32 _ "").
  assert (Hh : String.length h = 32%nat) by apply hex_go_length.
  clearbody h. unfold str_slice at 1. simpl str_drop. simpl Nat.sub.
  rewrite str_take_app; apply str_take_full_length; lia.
Qed.

Lemma next_id_nonempty w : next_id w <> "".
Proof.
  intros H. pose proof (next_id_length w) as Hl. by rewrite H in Hl.
Qed.

Opaque next_id.

Lemma chosen_id_truthy d w : truthy (chosen_id d w) = true.
Proof.
  unfold chosen_id.
  destruct (truthy (default VNone (dict_get "id" d))) eqn:Hid; [done|].
  cbn [truthy]. apply negb_true_iff, String.eqb_neq, next_id_nonempty.
Qed.

Lemma select_by_id_last {R} (key_of : R -> option string) s table r :
  key_taken key_of (Some s) table = false ->
  key_of r = Some s ->
  select_by_id key_of (Some s) (table ++ [r]) = Some r.
Proof.
  simpl. intros Hfree Hr.
  induction table as [|r' table IH]; simpl in *.
  - by rewrite Hr, String.eqb_refl.
  - destruct (match key_of r' with Some s' => String.eqb s s' | None => false end);
      simpl in *; [done|auto].
Qed.

(** C10: when the dict passed to [register] carries no id (none at all, or
    a falsy one), [register] assigns the generated id to key [id] of the
    caller's own dict object before it inserts the row.  Whether or not the
    call then returns, the object holds the generated id, every other key
    of it reads as before, no other object is touched, and a row that is
    written holds the dict with the id in it. *)
Theorem register_stamps_caller_dict cell_index manifest d w :
  objects w !! manifest = Some d ->
  truthy (default VNone (dict_get "id" d)) = false ->
  let r := fst (register real_text cell_index manifest w) in
  let w' := snd (register real_text cell_index manifest w) in
  let d' := dict_set "id" (VStr (next_id w)) d in
  objects w' !! manifest = Some d'
  /\ dict_get "id" d' = Some (VStr (next_id w))
  /\ next_id w <> ""
  /\ (forall k, k <> "id" -> dict_get k d' = dict_get k d)
  /\ (forall l, l <> manifest -> objects w' !! l = objects w !! l)
  /\ (forall cid, r = Ok cid ->
       cid = VStr (next_id w) /\
       exists row, cell_agents w' = cell_agents w ++ [row] /\
                   ca_manifest row = d').
Proof.
  intros Hd Hid. cbv zeta. rewrite (register_unfold _ _ d) by done.
  assert (Hc : chosen_id d w = VStr (next_id w))
    by (unfold chosen_id; by rewrite Hid).
  assert (Hobj : objects (before_insert manifest d w)
                 = <[manifest := dict_set "id" (VStr (next_id w)) d]> (objects w)).
  { unfold before_insert, stamped. by rewrite Hid, Hc. }
  unfold stamped. rewrite Hc.
  set (outcome := match sql_text _ _ with Ok _ => _ | Raise _ => _ end).
  assert (Hw' : objects (snd outcome)
                = <[manifest := dict_set "id" (VStr (next_id w)) d]> (objects w)).
  { unfold outcome. destruct (sql_text _ _) as [id|e]; [|exact Hobj].
    destruct (sql_integer _) as [index|e]; [|exact Hobj].
    destruct (key_taken _ _ _); exact Hobj. }
  split_and!.
  - rewrite Hw'. apply lookup_insert_eq.
  - apply dict_get_set_eq.
  - apply next_id_nonempty.
  - intros k Hk. by apply dict_get_set_ne.
  - intros l Hl. rewrite Hw'. by apply lookup_insert_ne.
  - intros cid. unfold outcome.
    destruct (sql_text _ _) as [id|e]; [|done].
    destruct (sql_integer _) as [index|e]; [|done].
    destruct (key_taken _ _ _); [done|]. simpl.
    intros [= <-]. split; [done|]. eauto.
Qed.

Lemma register_cell_agents cell_index manifest w :
  let r := fst (register real_text cell_index manifest w) in
  let w' := snd (register real_text cell_index manifest w) in
  match r with
  | Ok cid =>
      exists row, cell_agents w' = cell_agents w ++ [row]
                  /\ sql_text real_text cid = Ok (ca_id row)
  | Raise _ => cell_agents w' = cell_agents w
  end.
Proof.
  cbv zeta. destruct (objects w !! manifest) as [d|] eqn:Hd.
  - rewrite (register_unfold _ _ d) by done.
    destruct (sql_text _ _) as [id|e] eqn:Hid;
      [|unfold before_insert; by destruct (truthy _)].
    destruct (sql_integer _) as [index|e];
      [|unfold before_insert; by destruct (truthy _)].
    destruct (key_taken _ _ _);
      [unfold before_insert; by destruct (truthy _)|].
    simpl. eexists. split; [reflexivity|]. done.
  - unfold register. erewrite bind_Raise; [done|].
    unfold load. by rewrite Hd.
Qed.

Lemma get_manifest_world cell_id w :
  snd (get_manifest real_text cell_id w) = w.
Proof.
  unfold get_manifest, bind, lift.
  destruct (sql_text _ _) as [id|e]; [|done].
  by destruct (select_by_id _ _ _).
Qed.

Lemma store_attempt_unfold cell_id result w :
  store_attempt real_text cell_id result w =
  let w1 := tick_clock (tick_random w) in
  match sql_text real_text cell_id with
  | Raise e => (Raise e, w1)
  | Ok cell =>
      if key_taken at_id (Some (next_id w)) (attempts w)
      then (Raise IntegrityError, w1)
      else (Ok (next_id w),
            set_attempts
              (attempts w ++
                 [Attempt (Some (next_id w)) cell (clock w (clock_count w)) result])
              w1)
  end.
Proof.
  unfold store_attempt.
  rewrite (bind_Ok _ _ _ _ _ (gen_id_next w)).
  erewrite bind_Ok by reflexivity.
  erewrite bind_Ok by reflexivity.
  unfold bind, lift, ret, insert_attempt.
  destruct (sql_text real_text cell_id) as [cell|e]; [|done]. simpl.
  by destruct (existsb _ _).
Qed.

Lemma store_attempt_cell_agents cell_id result w :
  cell_agents (snd (store_attempt real_text cell_id result w)) = cell_agents w.
Proof.
  rewrite store_attempt_unfold. cbv zeta.
  destruct (sql_text _ _) as [cell|e]; [|done].
  by destruct (key_taken _ _ _).
Qed.

(** Every key of [cell_agents] was put there by a call of [register] that
    returned the id stored under it. *)
Lemma run_calls_keys calls : forall w ids w' k,
  run_calls real_text calls w = (ids, w') ->
  key_taken ca_id (Some k) (cell_agents w') = true ->
  key_taken ca_id (Some k) (cell_agents w) = true
  \/ existsb (binds_to real_text k) ids = true.
Proof.
  induction calls as [|c calls IH]; intros w ids w' k Hrun Hk.
  - simpl in Hrun. injection Hrun as <- <-. by left.
  - destruct c as [cell_index manifest|cell_id|cell_id result|d|l key v| |];
      cbn [run_calls] in Hrun.
    + pose proof (register_cell_agents cell_index manifest w) as Hreg.
      cbv zeta in Hreg.
      destruct (register real_text cell_index manifest w) as [[cid|e] w1].
      * destruct (run_calls real_text calls w1) as [ids1 w2] eqn:Hrest.
        injection Hrun as <- <-.
        destruct (IH _ _ _ _ Hrest Hk) as [Hin|Hin].
        -- destruct Hreg as (row & Hrows & Hbind). simpl in Hrows, Hbind.
           rewrite Hrows in Hin. simpl in Hin.
           rewrite existsb_app in Hin. apply orb_true_iff in Hin as [Hin|Hin].
           ++ by left.
           ++ right. simpl. unfold binds_to at 1. rewrite Hbind.
              simpl in Hin. rewrite orb_false_r in Hin.
              destruct (ca_id row) as [k'|]; [|done].
              rewrite String.eqb_sym in Hin. by rewrite Hin.
        -- right. simpl. by rewrite Hin, orb_true_r.
      * simpl in Hreg. destruct (IH _ _ _ _ Hrun Hk) as [Hin|Hin];
          [left; by rewrite <- Hreg | by right].
    + rewrite get_manifest_world in Hrun. eauto.
    + destruct (IH _ _ _ _ Hrun Hk) as [Hin|Hin]; [left|by right].
      by rewrite store_attempt_cell_agents in Hin.
    + destruct (IH _ _ _ _ Hrun Hk) as [Hin|Hin]; [left|by right]. done.
    + destruct (IH _ _ _ _ Hrun Hk) as [Hin|Hin]; [left|by right].
      revert Hin. unfold bind, load, store.
      by destruct (objects w !! l).
    + destruct (IH _ _ _ _ Hrun Hk) as [Hin|Hin]; [left; exact Hin|by right].
    + destruct (IH _ _ _ _ Hrun Hk) as [Hin|Hin]; [left; exact Hin|by right].
Qed.

Lemma select_by_id_app {R} (key_of : R -> option string) k table more r :
  select_by_id key_of k table = Some r ->
  select_by_id key_of k (table ++ more) = Some r.
Proof.
  destruct k as [s|]; simpl; [|done].
  induction table as [|r' table IH]; simpl; [done|].
  by destruct (match key_of r' with Some s' => String.eqb s s' | None => false end).
Qed.

(** A stored row stays the one that is found, whatever the client does
    afterwards: rows are only appended, and a stored payload is a copy that
    later assignments to the caller's dict do not reach. *)
Lemma run_calls_select calls : forall w k row,
  select_by_id ca_id k (cell_agents w) = Some row ->
  select_by_id ca_id k (cell_agents (snd (run_calls real_text calls w)))
  = Some row.
Proof.
  induction calls as [|c calls IH]; intros w k row Hrow; [done|].
  destruct c as [cell_index manifest|cell_id|cell_id result|d|l key v| |];
    cbn [run_calls].
  - pose proof (register_cell_agents cell_index manifest w) as Hreg.
    cbv zeta in Hreg.
    destruct (register real_text cell_index manifest w) as [[cid|e] w1];
      simpl in Hreg.
    + destruct Hreg as (row' & Hrows & _).
      specialize (IH w1 k row). rewrite Hrows in IH.
      specialize (IH (select_by_id_app _ _ _ _ _ Hrow)).
      by destruct (run_calls real_text calls w1).
    + apply IH. by rewrite Hreg.
  - rewrite get_manifest_world. by apply IH.
  - apply IH. by rewrite store_attempt_cell_agents.
  - by apply IH.
  - apply IH. unfold bind, load, store. by destruct (objects w !! l).
  - by apply IH.
  - by apply IH.
Qed.

(** C4, amended: when the id of a manifest (the truthy id it carries, else
    the generated one) can be stored as a text key that no row of
    [cell_agents] has yet, and the cell index fits an SQLite INTEGER,
    [register] returns that id, the id is non-empty, and [get_manifest]
    called with it afterwards, at once or after any further use of the
    registry, returns a payload whose [id] field is the returned id. *)
Theorem register_then_get_manifest cell_index manifest d w key :
  objects w !! manifest = Some d ->
  sql_integer cell_index = Ok cell_index ->
  sql_text real_text (chosen_id d w) = Ok (Some key) ->
  key_taken ca_id (Some key) (cell_agents w) = false ->
  exists w1 payload,
    register real_text cell_index manifest w = (Ok (chosen_id d w), w1)
    /\ truthy (chosen_id d w) = true
    /\ dict_get "id" payload = Some (chosen_id d w)
    /\ forall calls,
         let w2 := snd (run_calls real_text calls w1) in
         get_manifest real_text (chosen_id d w) w2 = (Ok (VDict payload), w2).
Proof.
  intros Hd Hindex Hkey Hfree.
  rewrite (register_unfold _ _ d) by done. rewrite Hkey, Hindex, Hfree.
  eexists _, (stamped d w).
  split_and!; [done|apply chosen_id_truthy|apply dict_get_set_eq|].
  intros calls w2.
  assert (Hrow : select_by_id ca_id (Some key) (cell_agents w2)
                 = Some (CellAgent (Some key) cell_index (stamped d w)
                           (clock w (clock_count w)))).
  { apply run_calls_select. cbn [cell_agents set_cell_agents].
    by apply select_by_id_last. }
  unfold get_manifest.
  erewrite bind_Ok by (unfold lift; by rewrite Hkey).
  by rewrite Hrow.
Qed.

(** Ids that SQLite cannot take as a key, and a cell index beyond 64 bits:
    the statement raises before any row is written. *)
Example register_unstorable :
  let w := snd (alloc [("id", VList [VInt 1])] demo_world) in
  let w' := snd (alloc [("name", VStr "demo")] demo_world) in
  fst (register real_text 1 0%nat w) = Raise InterfaceError
  /\ fst (register real_text (2 ^ 63) 0%nat w') = Raise OverflowError.
Proof. split; vm_compute; reflexivity. Qed.

(** C9: however the registry has been used since its tables were created,
    [get_manifest] called with an id under which no call of [register] has
    stored a manifest returns [None]: it does not raise, and it returns no
    payload. *)
Theorem get_manifest_never_registered calls w s :
  cell_agents w = [] ->
  existsb (binds_to real_text s) (fst (run_calls real_text calls w)) = false ->
  get_manifest real_text (VStr s) (snd (run_calls real_text calls w))
  = (Ok VNone, snd (run_calls real_text calls w)).
Proof.
  intros Hempty Hnever. apply get_manifest_absent.
  destruct (run_calls real_text calls w) as [ids w'] eqn:Hrun. simpl in *.
  destruct (key_taken ca_id (Some s) (cell_agents w')) eqn:Hk; [|done].
  destruct (run_calls_keys _ _ _ _ _ Hrun Hk) as [Hin|Hin].
  - by rewrite Hempty in Hin.
  - by rewrite Hin in Hnever.
Qed.

End RegistryFacts.

(** A client that builds a dict without id and registers it. *)
Lemma register_stamps_caller_dict_witness :
  let d := [("name", VStr "demo")] in
  let w := snd (alloc d demo_world) in
  (objects w !! 0%nat = Some d
   /\ truthy (default VNone (dict_get "id" d)) = false)
  /\ objects (snd (register no_real_text 7 0%nat w)) !! 0%nat
     = Some [("name", VStr "demo"); ("id", VStr (next_id w))].
Proof.
  cbv zeta.
  assert (H1 : objects (snd (alloc [("name", VStr "demo")] demo_world)) !! 0%nat
               = Some [("name", VStr "demo")]) by reflexivity.
  assert (H2 : truthy (default VNone (dict_get "id" [("name", VStr "demo")]))
               = false) by reflexivity.
  split; [by split|].
  exact (proj1 (register_stamps_caller_dict no_real_text 7 0%nat _ _ H1 H2)).
Defined.

Lemma register_then_get_manifest_witness :
  let d := [("name", VStr "demo")] in
  let w := snd (alloc d demo_world) in
  (objects w !! 0%nat = Some d
   /\ sql_integer 7 = Ok 7
   /\ sql_text no_real_text (chosen_id d w) = Ok (Some "01234567")
   /\ key_taken ca_id (Some "01234567") (cell_agents w) = false)
  /\ exists w1 payload,
       register no_real_text 7 0%nat w = (Ok (VStr "01234567"), w1)
       /\ get_manifest no_real_text (VStr "01234567") w1 = (Ok (VDict payload), w1)
       /\ dict_get "id" payload = Some (VStr "01234567").
Proof.
  cbv zeta.
  assert (H1 : objects (snd (alloc [("name", VStr "demo")] demo_world)) !! 0%nat
               = Some [("name", VStr "demo")]) by reflexivity.
  assert (H2 : sql_integer 7 = Ok 7) by reflexivity.
  assert (H3 : sql_text no_real_text
                 (chosen_id [("name", VStr "demo")]
                    (snd (alloc [("name", VStr "demo")] demo_world)))
               = Ok (Some "01234567")) by (vm_compute; reflexivity).
  assert (H4 : key_taken ca_id (Some "01234567")
                 (cell_agents (snd (alloc [("name", VStr "demo")] demo_world)))
               = false) by reflexivity.
  split; [by split_and!|].
  pose proof (register_then_get_manifest no_real_text 7 0%nat _ _ _ H1 H2 H3 H4)
    as H.
  assert (Hc : chosen_id [("name", VStr "demo")]
                 (snd (alloc [("name", VStr "demo")] demo_world))
               = VStr "01234567") by (vm_compute; reflexivity).
  rewrite Hc in H. destruct H as (w1 & payload & Hreg & _ & Hid & Hget).
  exists w1, payload. split_and!; [exact Hreg|exact (Hget [])|exact Hid].
Defined.

(** Registering under an id that is already a key of [cell_agents]: the
    PRIMARY KEY rejects the second row and [register] returns no id. *)
Lemma register_duplicate_id_raises :
  let w := snd (alloc [("id", VStr "a")] demo_world) in
  let w1 := snd (register no_real_text 1 0%nat w) in
  fst (register no_real_text 1 0%nat w) = Ok (VStr "a")
  /\ fst (register no_real_text 2 0%nat w1) = Raise IntegrityError
  /\ forall cid, fst (register no_real_text 2 0%nat w1) <> Ok cid.
Proof.
  cbv zeta.
  assert (H : fst (register no_real_text 2 0%nat
                     (snd (register no_real_text 1 0%nat
                             (snd (alloc [("id", VStr "a")] demo_world)))))
              = Raise IntegrityError) by (vm_compute; reflexivity).
  split_and!; [vm_compute; reflexivity | exact H | ].
  intros cid. by rewrite H.
Qed.

(** A client that registers one manifest, which gets id [01234567], and
    then asks for id [nope]. *)
Lemma get_manifest_never_registered_witness :
  let calls := [CallNewDict [("name", VStr "demo")];
                CallRegister 7 0%nat;
                CallStoreAttempt (VStr "01234567") (VDict [])] in
  (cell_agents demo_world = []
   /\ existsb (binds_to no_real_text "nope")
        (fst (run_calls no_real_text calls demo_world)) = false)
  /\ fst (run_calls no_real_text calls demo_world) = [VStr "01234567"]
  /\ fst (get_manifest no_real_text (VStr "nope")
            (snd (run_calls no_real_text calls demo_world))) = Ok VNone.
Proof.
  cbv zeta.
  assert (H1 : cell_agents demo_world = []) by reflexivity.
  assert (H2 : existsb (binds_to no_real_text "nope")
                 (fst (run_calls no_real_text
                         [CallNewDict [("name", VStr "demo")];
                          CallRegister 7 0%nat;
                          CallStoreAttempt (VStr "01234567") (VDict [])]
                         demo_world)) = false) by (vm_compute; reflexivity).
  split; [by split|]. split; [vm_compute; reflexivity|].
  by rewrite (get_manifest_never_registered no_real_text _ _ _ H1 H2).
Defined.

(** ** [CellAgentRuntime] *)

Section RuntimeFacts.

Variable real_text : spec_float -> option string.
Variable repr : value -> string.
Context {llm : LLMInterface}.

(** C1, amended: for an id that no row of [cell_agents] is stored under,
    none of the four operations returns a result.  [explain] raises
    [ValueError] with message [Cell agent not found]; [get_visuals],
    [ask_question] and [run_quiz] raise when they use the missing manifest,
    and nothing is written. *)
Theorem absent_manifest_raises w s :
  key_taken ca_id (Some s) (cell_agents w) = false ->
  (forall depth,
     explain real_text (VStr s) depth w
     = (Raise (ValueError "Cell agent not found"), w))
  /\ get_visuals real_text (VStr s) w = (Raise AttributeError, w)
  /\ (forall user_question,
       ask_question real_text repr (VStr s) user_question w
       = (Raise TypeError, w))
  /\ (forall user_answers,
       run_quiz real_text (VStr s) user_answers w
       = (Raise AttributeError, w)).
Proof.
  intros Habsent%(get_manifest_absent real_text). split_and!.
  - intros depth. unfold explain. by rewrite (bind_Ok _ _ _ _ _ Habsent).
  - unfold get_visuals. by rewrite (bind_Ok _ _ _ _ _ Habsent).
  - intros q. unfold ask_question. by rewrite (bind_Ok _ _ _ _ _ Habsent).
  - intros answers. unfold run_quiz. by rewrite (bind_Ok _ _ _ _ _ Habsent).
Qed.

Lemma res_map_length {A B} (f : A -> res B) l rs :
  res_map f l = Ok rs -> length rs = length l.
Proof.
  revert rs. induction l as [|a l IH]; intros rs; simpl.
  - by intros [= <-].
  - destruct (f a) as [b|e]; [|done]. simpl.
    destruct (res_map f l) as [bs|e]; [|done]. simpl.
    intros [= <-]. simpl. by rewrite (IH bs).
Qed.

(** The computation of [run_quiz], branch by branch. *)
Lemma run_quiz_unfold cell_id user_answers w :
  run_quiz real_text cell_id user_answers w =
  match get_manifest real_text cell_id w with
  | (Raise e, _) => (Raise e, w)
  | (Ok manifest, _) =>
      match get_method manifest "quiz" (VList []) with
      | Raise e => (Raise e, w)
      | Ok quiz =>
          match res_map (grade quiz) user_answers with
          | Raise e => (Raise e, w)
          | Ok results =>
              let summary :=
                VDict [("score",
                        VInt (Z.of_nat
                                (length (filter (fun r => is_correct r = true)
                                           results))));
                       ("total", VInt (Z.of_nat (length results)));
                       ("details", VList results)] in
              match store_attempt real_text cell_id summary w with
              | (Ok _, w') => (Ok summary, w')
              | (Raise e, w') => (Raise e, w')
              end
          end
      end
  end.
Proof.
  unfold run_quiz, bind, lift, ret.
  pose proof (get_manifest_world real_text cell_id w) as Hw.
  destruct (get_manifest real_text cell_id w) as [[manifest|e] w1];
    simpl in Hw; subst w1; [|done].
  destruct (get_method manifest "quiz" (VList [])) as [quiz|e]; [|done].
  by destruct (res_map (grade quiz) user_answers) as [results|e].
Qed.

(** C8, amended: a call of [run_quiz] that returns a result has appended
    exactly one row to [attempts], the row holds the result, and the
    result's [total] is the length of the answers list; a call that raises
    has written no row.  Table [cell_agents] is never written. *)
Theorem run_quiz_attempt_written cell_id user_answers w :
  let r := fst (run_quiz real_text cell_id user_answers w) in
  let w' := snd (run_quiz real_text cell_id user_answers w) in
  cell_agents w' = cell_agents w
  /\ match r with
     | Ok summary =>
         (exists row, attempts w' = attempts w ++ [row]
                      /\ at_quiz_result_json row = summary)
         /\ getitem summary (VStr "total")
            = Ok (VInt (Z.of_nat (length user_answers)))
     | Raise _ => attempts w' = attempts w
     end.
Proof.
  cbv zeta. rewrite run_quiz_unfold.
  destruct (get_manifest real_text cell_id w) as [[manifest|e] w1]; [|done].
  destruct (get_method manifest "quiz" (VList [])) as [quiz|e]; [|done].
  destruct (res_map (grade quiz) user_answers) as [results|e] eqn:Hres; [|done].
  apply res_map_length in Hres. cbv zeta.
  rewrite store_attempt_unfold. cbv zeta.
  destruct (sql_text real_text cell_id) as [cell|e]; [|done].
  destruct (key_taken at_id (Some (next_id w)) (attempts w)); [done|].
  cbn [fst snd cell_agents attempts set_attempts tick_clock tick_random].
  split_and!; [done|eauto|]. by rewrite <- Hres.
Qed.

Lemma get_manifest_present w s row :
  select_by_id ca_id (Some s) (cell_agents w) = Some row ->
  get_manifest real_text (VStr s) w = (Ok (VDict (ca_manifest row)), w).
Proof.
  intros H. unfold get_manifest, bind, lift. cbn [sql_text]. by rewrite H.
Qed.

Lemma seq_index_lookup {A} (l : list A) i x :
  0 <= i -> l !! Z.to_nat i = Some x -> seq_index l i = Ok x.
Proof.
  intros Hi Hx. unfold seq_index.
  apply lookup_lt_Some in Hx as Hlt.
  rewrite (proj2 (Z.ltb_ge i 0)) by lia.
  rewrite (proj2 (Z.leb_le 0 i)) by lia.
  rewrite (proj2 (Z.ltb_lt i (Z.of_nat (length l)))) by lia.
  simpl. by rewrite Hx.
Qed.

(** The entry that [grade] builds for an answer of the expected shape. *)
Lemma grade_answer qs ans :
  forallb hinted qs = true ->
  answer_ok (length qs) ans = true ->
  exists i a,
    getitem ans (VStr "q_index") = Ok (VInt i)
    /\ getitem ans (VStr "answer") = Ok (VStr a)
    /\ grade (VList qs) ans
       = Ok (VDict [("index", VInt i);
                    ("user_answer", VStr a);
                    ("correct",
                     VBool (if String.eqb (expected_hint_of qs i) "" then true
                            else str_in (expected_hint_of qs i) (lower a)))]).
Proof.
  intros Hqs Hans. unfold answer_ok in Hans. unfold grade.
  destruct (getitem ans (VStr "q_index")) as [[| | i | | | |]|]; try done.
  destruct (getitem ans (VStr "answer")) as [[| | | | a | |]|]; try done.
  apply andb_true_iff in Hans as [Hlo%Z.leb_le Hhi%Z.ltb_lt].
  exists i, a. split_and!; [done..|].
  cbn [res_bind py_len py_lt_int]. rewrite (proj2 (Z.ltb_lt _ _) Hhi).
  cbn [getitem as_index].
  destruct (qs !! Z.to_nat i) as [q|] eqn:Hq;
    [|apply lookup_ge_None in Hq; lia].
  rewrite (seq_index_lookup qs i q Hlo Hq). cbn [res_bind].
  unfold expected_hint_of. rewrite Hq.
  rewrite forallb_forall in Hqs.
  assert (Hq' : hinted q = true).
  { apply Hqs, list_elem_of_In. eapply list_elem_of_lookup_2. exact Hq. }
  destruct q as [| | | | | |qd]; try done. cbn [get_method hinted] in *.
  destruct (dict_get "answer_hint" qd) as [[| | | |h| |]|]; try done;
    cbn [res_bind lower_method lower String.eqb negb]; try done.
  by destruct (String.eqb (lower h) "").
Qed.

Lemma grade_graded qs ans :
  forallb hinted qs = true ->
  answer_ok (length qs) ans = true ->
  exists r, grade (VList qs) ans = Ok r /\ graded qs ans r.
Proof.
  intros Hqs Hans.
  destruct (grade_answer qs ans Hqs Hans) as (i & a & Hi & Ha & Hg).
  eexists. split; [exact Hg|]. exists i, a. split_and!; [done..|].
  change (is_correct (VDict _)) with
    (if String.eqb (expected_hint_of qs i) "" then true
     else str_in (expected_hint_of qs i) (lower a)).
  destruct (String.eqb (expected_hint_of qs i) "") eqn:Hh.
  - apply String.eqb_eq in Hh. split; [by left|done].
  - apply String.eqb_neq in Hh. rewrite str_in_substring.
    split; [by right|]. by intros [?|?].
Qed.

Lemma res_map_graded qs answers :
  forallb hinted qs = true ->
  forallb (answer_ok (length qs)) answers = true ->
  exists details,
    res_map (grade (VList qs)) answers = Ok details
    /\ Forall2 (graded qs) answers details.
Proof.
  intros Hqs. induction answers as [|ans answers IH]; simpl.
  - intros _. exists []. by split.
  - intros [Hans Hrest]%andb_true_iff.
    destruct (grade_graded qs ans Hqs Hans) as (r & -> & Hr).
    destruct (IH Hrest) as (details & -> & Hdetails).
    exists (r :: details). split; [done|]. by constructor.
Qed.

(** C5: for a stored manifest whose quiz is a list of questions, and
    answers that are dicts with an index between [0] and the number of
    questions and a [str] answer, [run_quiz] returns a result (the id
    drawn for the attempt being free).  Its [details] hold one entry per
    answer, in order; an entry is correct exactly when the lowercased hint
    of its question is a substring of the lowercased answer or the hint is
    empty; and [score] is the number of correct entries. *)
Theorem run_quiz_grades w s row qs user_answers :
  select_by_id ca_id (Some s) (cell_agents w) = Some row ->
  dict_get "quiz" (ca_manifest row) = Some (VList qs) ->
  forallb hinted qs = true ->
  forallb (answer_ok (length qs)) user_answers = true ->
  key_taken at_id (Some (next_id w)) (attempts w) = false ->
  exists w' details,
    run_quiz real_text (VStr s) user_answers w
    = (Ok (VDict
             [("score",
               VInt (Z.of_nat
                       (length (filter (fun r => is_correct r = true) details))));
              ("total", VInt (Z.of_nat (length user_answers)));
              ("details", VList details)]), w')
    /\ Forall2 (graded qs) user_answers details.
Proof.
  intros Hrow Hquiz Hqs Hanswers Hfree.
  destruct (res_map_graded qs user_answers Hqs Hanswers)
    as (details & Hmap & Hdetails).
  rewrite run_quiz_unfold, (get_manifest_present _ _ row Hrow).
  cbn [get_method]. rewrite Hquiz, Hmap. cbv zeta.
  rewrite store_attempt_unfold. cbv zeta. cbn [sql_text]. rewrite Hfree.
  rewrite (res_map_length _ _ _ Hmap). eauto.
Qed.

(** What [grade] does with an index at or beyond the end of the quiz:
    the hint is empty and the entry is correct. *)
Lemma grade_index_beyond_end qs ans i user_ans :
  getitem ans (VStr "q_index") = Ok (VInt i) ->
  getitem ans (VStr "answer") = Ok user_ans ->
  Z.of_nat (length qs) <= i ->
  grade (VList qs) ans
  = Ok (VDict [("index", VInt i);
               ("user_answer", user_ans);
               ("correct", VBool true)]).
Proof.
  intros Hi Ha Hge. unfold grade. rewrite Hi, Ha.
  cbn [res_bind py_len py_lt_int].
  by rewrite (proj2 (Z.ltb_ge _ _) Hge).
Qed.

End RuntimeFacts.

(** Asking for an id that the fresh database does not hold. *)
Lemma absent_manifest_raises_witness :
  key_taken ca_id (Some "nope") (cell_agents demo_world) = false
  /\ explain no_real_text (VStr "nope") "summary" demo_world
     = (Raise (ValueError "Cell agent not found"), demo_world).
Proof.
  assert (H : key_taken ca_id (Some "nope") (cell_agents demo_world) = false)
    by reflexivity.
  split; [exact H|].
  exact (proj1 (absent_manifest_raises no_real_text no_repr
                  (llm := constant_llm "") demo_world "nope" H) "summary").
Defined.

(** [get_visuals] for an absent id: the lookup returns [None], and the
    call raises instead of returning a structure with empty fields. *)
Lemma get_visuals_absent_not_partial :
  fst (get_manifest no_real_text (VStr "nope") demo_world) = Ok VNone
  /\ fst (get_visuals no_real_text (VStr "nope") demo_world)
     = Raise AttributeError
  /\ forall partial,
       fst (get_visuals no_real_text (VStr "nope") demo_world) <> Ok partial.
Proof.
  assert (H : fst (get_visuals no_real_text (VStr "nope") demo_world)
              = Raise AttributeError) by reflexivity.
  split_and!; [reflexivity|exact H|]. intros partial. by rewrite H.
Qed.

(** The session of the specification: the first answer contains the hint
    of question 0, the second does not contain the hint of question 1. *)
Lemma run_quiz_grades_witness :
  let row := CellAgent (Some "cell") 1 demo_manifest (S754_zero false) in
  let answers := [answer_entry 0 "It returns an INT, I think";
                  answer_entry 1 "No"] in
  (select_by_id ca_id (Some "cell") (cell_agents quiz_world) = Some row
   /\ dict_get "quiz" (ca_manifest row) = Some (VList demo_quiz)
   /\ forallb hinted demo_quiz = true
   /\ forallb (answer_ok (length demo_quiz)) answers = true
   /\ key_taken at_id (Some (next_id quiz_world)) (attempts quiz_world) = false)
  /\ exists w' details,
       run_quiz no_real_text (VStr "cell") answers quiz_world
       = (Ok (VDict
                [("score",
                  VInt (Z.of_nat
                          (length (filter (fun r => is_correct r = true)
                                     details))));
                 ("total", VInt 2);
                 ("details", VList details)]), w')
       /\ Forall2 (graded demo_quiz) answers details.
Proof.
  cbv zeta.
  set (row := CellAgent (Some "cell") 1 demo_manifest (S754_zero false)).
  set (answers := [answer_entry 0 "It returns an INT, I think";
                   answer_entry 1 "No"]).
  assert (H1 : select_by_id ca_id (Some "cell") (cell_agents quiz_world)
               = Some row) by reflexivity.
  assert (H2 : dict_get "quiz" (ca_manifest row) = Some (VList demo_quiz))
    by reflexivity.
  assert (H3 : forallb hinted demo_quiz = true) by reflexivity.
  assert (H4 : forallb (answer_ok (length demo_quiz)) answers = true)
    by reflexivity.
  assert (H5 : key_taken at_id (Some (next_id quiz_world)) (attempts quiz_world)
               = false) by reflexivity.
  split; [by split_and!|].
  exact (run_quiz_grades no_real_text quiz_world "cell" row demo_quiz answers
           H1 H2 H3 H4 H5).
Defined.

Example run_quiz_session :
  fst (run_quiz no_real_text (VStr "cell")
         [answer_entry 0 "It returns an INT, I think"; answer_entry 1 "No"]
         quiz_world)
  = Ok (VDict
          [("score", VInt 1);
           ("total", VInt 2);
           ("details",
            VList [VDict [("index", VInt 0);
                          ("user_answer", VStr "It returns an INT, I think");
                          ("correct", VBool true)];
                   VDict [("index", VInt 1);
                          ("user_answer", VStr "No");
                          ("correct", VBool false)]])]).
Proof. vm_compute. reflexivity. Qed.

(** C6: an index below the first question.  The quiz has two questions and
    the answer refers to index [-3]: the guard [idx < len(quiz)] lets it
    through, [quiz[idx]] raises [IndexError], and no attempt is stored. *)
Lemma run_quiz_negative_index_raises :
  fst (run_quiz no_real_text (VStr "cell") [answer_entry (-3) "x"] quiz_world)
  = Raise IndexError
  /\ attempts (snd (run_quiz no_real_text (VStr "cell")
                      [answer_entry (-3) "x"] quiz_world)) = [].
Proof. split; vm_compute; reflexivity. Qed.

(** The same quiz with an index past the last question: no error, an empty
    hint, the entry is correct. *)
Example run_quiz_index_past_end :
  fst (run_quiz no_real_text (VStr "cell") [answer_entry 2 "x"] quiz_world)
  = Ok (VDict
          [("score", VInt 1);
           ("total", VInt 1);
           ("details",
            VList [VDict [("index", VInt 2);
                          ("user_answer", VStr "x");
                          ("correct", VBool true)]])]).
Proof. vm_compute. reflexivity. Qed.

(** A call of [run_quiz] for an id without manifest: it raises and leaves
    [attempts] empty. *)
Lemma run_quiz_absent_writes_nothing :
  attempts demo_world = []
  /\ fst (run_quiz no_real_text (VStr "nope") [answer_entry 0 "x"] demo_world)
     = Raise AttributeError
  /\ attempts (snd (run_quiz no_real_text (VStr "nope") [answer_entry 0 "x"]
                      demo_world)) = [].
Proof. split_and!; vm_compute; reflexivity. Qed.

(** ** [Inspector] *)

Section InspectorFacts.

Variable ast_parse : string -> res Ast.node.

Lemma well_formed_occurs n tree :
  Ast.occurs_in n tree ->
  Ast.well_formed tree = true -> Ast.well_formed n = true.
Proof.
  induction 1 as [|k cs c Hc _ IH]; [done|]. simpl.
  intros [_ Hcs]%andb_true_iff. apply IH.
  rewrite forallb_forall in Hcs. by apply Hcs, list_elem_of_In.
Qed.

Lemma first_names_Ok nodes :
  Forall (fun n => Ast.well_formed n = true) nodes ->
  res_map (fun r => r) (omap import_first_name nodes)
  = Ok (omap first_name nodes).
Proof.
  induction 1 as [|n nodes Hn _ IH]; [done|].
  change (omap import_first_name (n :: nodes)) with
    (match import_first_name n with
     | Some r => r :: omap import_first_name nodes
     | None => omap import_first_name nodes
     end).
  change (omap first_name (n :: nodes)) with
    (match first_name n with
     | Some m => m :: omap first_name nodes
     | None => omap first_name nodes
     end).
  destruct n as [k cs]. unfold import_first_name, first_name in *.
  destruct k as [name| | |[|a names]|m names|];
    cbn [Ast.kind_of res_map res_bind]; rewrite ?IH; done.
Qed.

Lemma imports_of_well_formed tree :
  Ast.well_formed tree = true ->
  imports_of tree
  = Ok (omap first_name (Ast.walk tree)
        ++ omap import_from_module (Ast.walk tree)).
Proof.
  intros Hwf. unfold imports_of. rewrite first_names_Ok; [done|].
  apply Forall_forall. intros n Hn%elem_of_walk.
  by apply (well_formed_occurs n tree).
Qed.

Lemma extract_summary_Ok code :
  parse_well_formed (ast_parse code) = true ->
  exists summary, extract_summary ast_parse code = Ok summary.
Proof.
  unfold extract_summary, parse_well_formed.
  destruct (ast_parse code) as [tree|e]; [|by eexists].
  intros Hwf. rewrite (imports_of_well_formed tree Hwf). by eexists.
Qed.

(** C2: [extract_summary] never raises, whatever the input: [ast.parse]
    either raises, and the exception is caught, or returns a tree that the
    grammar allows.  When [ast.parse] raises, the result is the dict with
    the [error] tag and, under [raw_code], the first 200 characters of the
    input (the whole input if it is shorter). *)
Theorem extract_summary_never_raises code :
  parse_well_formed (ast_parse code) = true ->
  exists summary,
    extract_summary ast_parse code = Ok summary
    /\ forall e, ast_parse code = Raise e ->
         summary = [("error", VStr "not python or parse error");
                    ("raw_code", VStr (str_take 200 code))]
         /\ (String.length (str_take 200 code) <= 200)%nat
         /\ code = str_take 200 code +:+ str_drop 200 code.
Proof.
  intros Hwf. destruct (extract_summary_Ok code Hwf) as (summary & Hsummary).
  exists summary. split; [done|]. intros e He.
  unfold extract_summary in Hsummary. rewrite He in Hsummary.
  injection Hsummary as <-.
  split_and!; [done|apply str_take_length|apply str_take_drop].
Qed.

Lemma has_loop_occurs tree :
  has_loop_of tree = true <->
  exists n, Ast.occurs_in n tree /\ is_loop n = true.
Proof.
  unfold has_loop_of. rewrite existsb_exists. split.
  - intros (n & Hn%list_elem_of_In%elem_of_walk & Hloop). eauto.
  - intros (n & Hn%elem_of_walk%list_elem_of_In & Hloop). eauto.
Qed.

Lemma nonblank_lines_blank code :
  nonblank_lines code = filter (fun ln => blank ln = false) (splitlines code).
Proof.
  unfold nonblank_lines. apply list_filter_iff. intros ln.
  rewrite negb_true_iff. pose proof (strip_empty ln) as Hstrip.
  destruct (String.eqb (strip ln) "") eqn:Heq.
  - apply String.eqb_eq in Heq. apply Hstrip in Heq. by rewrite Heq.
  - apply String.eqb_neq in Heq. destruct (blank ln); [|done].
    exfalso. by apply Heq, Hstrip.
Qed.

Lemma first_name_imported n tree m :
  Ast.occurs_in n tree -> first_name n = Some m ->
  m ∈ Ast.imported_modules tree.
Proof.
  intros Hn%occurs_in_document_order Hm. unfold Ast.imported_modules.
  apply list_elem_of_bind. exists n. split; [|done].
  unfold first_name, Ast.modules_named in *.
  destruct (Ast.kind_of n) as [| | |[|a names]| |]; try done.
  injection Hm as <-. simpl. apply list_elem_of_here.
Qed.

Lemma from_module_imported n tree m :
  Ast.occurs_in n tree -> import_from_module n = Some m ->
  m ∈ Ast.imported_modules tree.
Proof.
  intros Hn%occurs_in_document_order Hm. unfold Ast.imported_modules.
  apply list_elem_of_bind. exists n. split; [|done].
  unfold import_from_module, Ast.modules_named in *.
  destruct (Ast.kind_of n) as [| | | |[m'|] names|]; try done.
  destruct (String.eqb m' ""); [done|]. injection Hm as <-.
  apply list_elem_of_here.
Qed.

(** C3, amended: for parseable input the result holds
    - under [functions], the names of the function definitions in the
      order of [ast.walk], which is breadth first: by depth, in document
      order within one depth; each definition is listed once;
    - under [has_loop], whether a [For] or [While] node occurs in the tree;
    - under [imports], a list without repetition and without empty name;
      each of its names is a module that the tree imports, and it holds
      the module of every from-import and the first module of every import
      statement;
    - under [lines], the lines of the input that are not blank, in order
      and as they are. *)
Theorem extract_summary_parsed code tree :
  ast_parse code = Ok tree ->
  Ast.well_formed tree = true ->
  exists imports,
    extract_summary ast_parse code
    = Ok [("functions",
           VList (VStr <$> omap function_name (Ast.breadth_first tree)));
          ("has_loop", VBool (has_loop_of tree));
          ("imports", VList (VStr <$> imports));
          ("lines",
           VList (VStr <$> filter (fun ln => blank ln = false)
                             (splitlines code)))]
    /\ (omap function_name (Ast.breadth_first tree)
        ≡ₚ omap function_name (Ast.document_order tree))
    /\ (has_loop_of tree = true <->
        exists n, Ast.occurs_in n tree /\ is_loop n = true)
    /\ NoDup imports
    /\ ("" ∉ imports)
    /\ (forall m, m ∈ imports -> m ∈ Ast.imported_modules tree)
    /\ (forall n m, Ast.occurs_in n tree -> m <> "" ->
         first_name n = Some m \/ import_from_module n = Some m ->
         m ∈ imports).
Proof.
  intros Hparse Hwf. unfold extract_summary. rewrite Hparse.
  rewrite (imports_of_well_formed tree Hwf). cbn [res_bind].
  unfold functions_of. rewrite <- nonblank_lines_blank, <- walk_breadth_first.
  eexists. split; [reflexivity|]. unfold list_set.
  assert (Hin : forall m,
    m ∈ remove_dups
          (filter (fun i => negb (String.eqb i "") = true)
             (omap first_name (Ast.walk tree)
              ++ omap import_from_module (Ast.walk tree)))
    <-> m <> "" /\ exists n, Ast.occurs_in n tree
                   /\ (first_name n = Some m \/ import_from_module n = Some m)).
  { intros m. rewrite elem_of_remove_dups, list_elem_of_filter, elem_of_app,
      !list_elem_of_omap, negb_true_iff, String.eqb_neq.
    setoid_rewrite elem_of_walk.
    split.
    - intros [Hm [(n & Hn & Hf)|(n & Hn & Hf)]]; eauto 6.
    - intros (Hm & n & Hn & [Hf|Hf]); eauto 6. }
  split_and!.
  - apply omap_Permutation, walk_permutation.
  - apply has_loop_occurs.
  - apply NoDup_remove_dups.
  - intros [H _]%Hin. done.
  - intros m (_ & n & Hn & [Hm|Hm])%Hin;
      [by eapply first_name_imported | by eapply from_module_imported].
  - intros n m Hn Hm Hnm. apply Hin. eauto.
Qed.

End InspectorFacts.

(** Input that is not Python: [ast.parse] raises [SyntaxError]. *)
Lemma extract_summary_never_raises_witness :
  let ast_parse := fun _ : string => Raise SyntaxError in
  parse_well_formed (ast_parse "def (") = true
  /\ extract_summary ast_parse "def ("
     = Ok [("error", VStr "not python or parse error");
           ("raw_code", VStr "def (")].
Proof.
  cbv zeta.
  assert (H : parse_well_formed ((fun _ : string => Raise SyntaxError) "def (")
              = true) by reflexivity.
  split; [exact H|].
  destruct (extract_summary_never_raises (fun _ => Raise SyntaxError) "def (" H)
    as (summary & -> & Hsummary).
  by destruct (Hsummary SyntaxError eq_refl) as (-> & _).
Defined.

(** The module [nested_code]: function [b] is defined inside [a], before
    [c], and the import statement names [os] and [sys]. *)
Lemma extract_summary_parsed_witness :
  let ast_parse := fun _ : string => Ok nested_tree in
  (ast_parse nested_code = Ok nested_tree
   /\ Ast.well_formed nested_tree = true)
  /\ exists imports,
       extract_summary ast_parse nested_code
       = Ok [("functions",
              VList (VStr <$> omap function_name (Ast.breadth_first nested_tree)));
             ("has_loop", VBool (has_loop_of nested_tree));
             ("imports", VList (VStr <$> imports));
             ("lines",
              VList (VStr <$> filter (fun ln => blank ln = false)
                                (splitlines nested_code)))]
       /\ NoDup imports.
Proof.
  cbv zeta.
  assert (H1 : (fun _ : string => Ok nested_tree) nested_code = Ok nested_tree)
    by reflexivity.
  assert (H2 : Ast.well_formed nested_tree = true) by reflexivity.
  split; [by split|].
  destruct (extract_summary_parsed (fun _ => Ok nested_tree)
              nested_code nested_tree H1 H2)
    as (imports & Hsummary & _ & _ & Hnodup & _).
  exists imports. by split.
Defined.

(** On [nested_code] the functions are listed as [a], [c], [b], which is
    not their order in the document, and module [sys] is imported but not
    listed. *)
Lemma extract_summary_not_document_order :
  extract_summary (fun _ => Ok nested_tree) nested_code
  = Ok [("functions", VList [VStr "a"; VStr "c"; VStr "b"]);
        ("has_loop", VBool false);
        ("imports", VList [VStr "os"]);
        ("lines",
         VList [VStr "def a():"; VStr "    def b(): pass";
                VStr "def c(): pass"; VStr "import os, sys"])]
  /\ omap function_name (Ast.document_order nested_tree) = ["a"; "b"; "c"]
  /\ Ast.imported_modules nested_tree = ["os"; "sys"].
Proof. split_and!; vm_compute; reflexivity. Qed.

(** ** [CellAgentBuilder] *)

Section BuilderFacts.

Variable real_text : spec_float -> option string.
Variable ast_parse : string -> res Ast.node.
Variable json_loads : string -> res value.
Context {llm : LLMInterface} {visualizer : Visualizer}.

Lemma extract_summary_lines code inspect :
  extract_summary ast_parse code = Ok inspect ->
  exists ls, default (VList []) (dict_get "lines" inspect) = VList (VStr <$> ls).
Proof.
  unfold extract_summary. destruct (ast_parse code) as [tree|e].
  - destruct (imports_of tree) as [imports|e]; [|done].
    intros [= <-]. eexists. reflexivity.
  - intros [= <-]. by exists [].
Qed.

Lemma join_values_strs sep ls :
  join_values sep (VStr <$> ls) = Ok (join sep ls).
Proof.
  unfold join_values.
  assert (H : res_map (fun v => match v with VStr s => Ok s | _ => Raise TypeError end)
                (VStr <$> ls) = Ok ls).
  { induction ls as [|l ls IH]; [done|]. cbn [fmap list_fmap res_map res_bind].
    by rewrite IH. }
  by rewrite H.
Qed.

Ltac step H := erewrite bind_Ok by (unfold lift; rewrite H; reflexivity).

(** C7, amended: whatever text the generator returns for the quiz prompt,
    [build_for_cell] does not fail on decoding it.  When [json.loads]
    raises on the text, the quiz of the manifest is the single default
    question; when [json.loads] returns a value, the quiz is that value,
    whatever its shape.  Either way the manifest returned and the payload
    stored have a [quiz] field.  (The collaborators are taken not to fail
    and the id drawn for the manifest to be free.) *)
Theorem build_for_cell_quiz cell_index code title w quiz_json :
  parse_well_formed (ast_parse code) = true ->
  always_answers llm ->
  always_renders visualizer ->
  generate quiz_prompt = Ok quiz_json ->
  sql_integer cell_index = Ok cell_index ->
  key_taken ca_id (Some (next_id (tick_random (tick_random w))))
    (cell_agents w) = false ->
  exists manifest w' d,
    build_for_cell real_text ast_parse json_loads cell_index code title w
    = (Ok manifest, w')
    /\ objects w' !! manifest = Some d
    /\ get_manifest real_text (VStr (next_id (tick_random (tick_random w)))) w'
       = (Ok (VDict d), w')
    /\ dict_get "quiz" d
       = Some (match json_loads quiz_json with
               | Ok quiz => quiz
               | Raise _ => default_quiz
               end).
Proof.
  intros Hparse Hllm [Hdiagram Hanim] Hquiz Hindex Hfree.
  destruct (extract_summary_Ok ast_parse code Hparse) as (inspect & Hinspect).
  destruct (extract_summary_lines code inspect Hinspect) as (ls & Hls).
  destruct (Hllm (summary_prompt code)) as (summary & Hsummary).
  destruct (Hllm (line_prompt (join "\n" (take 20 ls)))) as (line_by_line & Hline).
  destruct (Hllm (vis_prompt code)) as (vis & Hvis).
  destruct (Hdiagram (next_id w) vis) as (diagram & Hd).
  destruct (Hanim (next_id (tick_random w)) frames) as (anim & Ha).
  unfold build_for_cell.
  step Hinspect. step Hsummary. rewrite Hls. cbn [slice_to].
  erewrite bind_Ok by reflexivity.
  rewrite <- fmap_take. cbn [join_method]. rewrite join_values_strs.
  erewrite bind_Ok by reflexivity.
  step Hline. step Hvis.
  rewrite (bind_Ok _ _ _ _ _ (gen_id_next w)). step Hd.
  rewrite (bind_Ok _ _ _ _ _ (gen_id_next (tick_random w))). step Ha.
  step Hquiz.
  set (quiz := match json_loads quiz_json with
               | Ok quiz => quiz
               | Raise _ => default_quiz
               end).
  erewrite (bind_Ok _ _ _ quiz) by (unfold lift, try_except, quiz;
                                    by destruct (json_loads quiz_json)).
  erewrite bind_Ok by reflexivity.
  erewrite bind_Ok by reflexivity.
  set (l := fresh _). set (m0 := [("name", _); _; _; _; _; _; _; _; _; _]).
  set (w5 := set_objects _ _).
  set (id := next_id (tick_random (tick_random w))) in *.
  assert (Hl : objects w5 !! l = Some m0) by apply lookup_insert_eq.
  assert (Hc : chosen_id m0 w5 = VStr id) by reflexivity.
  assert (Hs : stamped m0 w5 = dict_set "id" (VStr id) m0)
    by (unfold stamped; by rewrite Hc).
  set (row := CellAgent (Some id) cell_index (dict_set "id" (VStr id) m0)
                (clock w5 (clock_count w5))).
  set (w6 := set_cell_agents (cell_agents w ++ [row]) (before_insert l m0 w5)).
  assert (Hreg : register real_text cell_index l w5 = (Ok (VStr id), w6)).
  { rewrite (register_unfold _ _ _ m0 w5 Hl), Hc, Hs. cbn [sql_text].
    rewrite Hindex. change (cell_agents w5) with (cell_agents w).
    by rewrite Hfree. }
  rewrite (bind_Ok _ _ _ _ _ Hreg).
  assert (Hl6 : objects w6 !! l = Some (dict_set "id" (VStr id) m0)).
  { unfold w6, before_insert. rewrite Hs. cbn [objects set_cell_agents].
    destruct (truthy _); apply lookup_insert_eq. }
  erewrite bind_Ok by (by apply load_Some).
  erewrite bind_Ok by reflexivity. unfold ret.
  rewrite dict_set_twice.
  eexists l, _, (dict_set "id" (VStr id) m0). split_and!; [reflexivity| | |].
  - apply lookup_insert_eq.
  - apply (get_manifest_present real_text _ id row).
    cbn [cell_agents set_objects]. unfold w6. cbn [cell_agents set_cell_agents].
    by apply select_by_id_last.
  - by rewrite dict_get_set_ne.
Qed.

End BuilderFacts.

(** The generator answers the quiz prompt with text that is not JSON. *)
Lemma build_for_cell_quiz_witness :
  let llm := constant_llm "not json" in
  (parse_well_formed (parse_fails "x = 1") = true
   /\ always_answers llm
   /\ always_renders demo_visualizer
   /\ generate quiz_prompt = Ok "not json"
   /\ sql_integer 3 = Ok 3
   /\ key_taken ca_id (Some (next_id (tick_random (tick_random demo_world))))
        (cell_agents demo_world) = false)
  /\ exists manifest w' d,
       build_for_cell no_real_text parse_fails demo_json_loads
         (llm := llm) (visualizer := demo_visualizer) 3 "x = 1" None demo_world
       = (Ok manifest, w')
       /\ objects w' !! manifest = Some d
       /\ dict_get "quiz" d = Some default_quiz.
Proof.
  cbv zeta.
  assert (H1 : parse_well_formed (parse_fails "x = 1") = true) by reflexivity.
  assert (H2 : always_answers (constant_llm "not json"))
    by (intros prompt; by eexists).
  assert (H3 : always_renders demo_visualizer)
    by (split; intros; by eexists).
  assert (H4 : generate (LLMInterface := constant_llm "not json") quiz_prompt
               = Ok "not json") by reflexivity.
  assert (H5 : sql_integer 3 = Ok 3) by reflexivity.
  assert (H6 : key_taken ca_id
                 (Some (next_id (tick_random (tick_random demo_world))))
                 (cell_agents demo_world) = false) by reflexivity.
  split; [by split_and!|].
  destruct (build_for_cell_quiz no_real_text parse_fails demo_json_loads
              (llm := constant_llm "not json") (visualizer := demo_visualizer)
              3 "x = 1" None demo_world "not json" H1 H2 H3 H4 H5 H6)
    as (manifest & w' & d & Hbuild & Hd & _ & Hquiz).
  exists manifest, w', d. by split_and!.
Defined.

(** The generator answers the quiz prompt with [42]: the text decodes, to
    an int, which is not a sequence of questions; the manifest keeps the
    int as its quiz and the default question is not substituted. *)
Lemma build_for_cell_keeps_wrong_shape :
  let built :=
    build_for_cell no_real_text parse_fails demo_json_loads
      (llm := constant_llm "42") (visualizer := demo_visualizer)
      3 "x = 1" None demo_world in
  demo_json_loads "42" = Ok (VInt 42)
  /\ question_sequence (VInt 42) = false
  /\ fst built = Ok 0%nat
  /\ (dict_get "quiz" <$> objects (snd built) !! 0%nat) = Some (Some (VInt 42))
  /\ VInt 42 <> default_quiz.
Proof. cbv zeta. split_and!; [vm_compute; reflexivity..|done]. Qed.

(** ** Any use of the module *)

Section ModuleFacts.

Variable real_text : spec_float -> option string.
Variable repr : value -> string.
Variable ast_parse : string -> res Ast.node.
Variable json_loads : string -> res value.
Context {llm : LLMInterface} {visualizer : Visualizer}.

Lemma grows_refl w : grows real_text w w.
Proof. by apply grows_same. Qed.

Lemma grows_trans w1 w2 w3 :
  grows real_text w1 w2 -> grows real_text w2 w3 -> grows real_text w1 w3.
Proof.
  intros H12 H23. induction H23 as [w2 w3 Hc Ha|w2 w w3 row _ IH Hc Ha Hk Hp
                                   |w2 w w3 row _ IH Hc Ha Hk].
  - revert w3 Hc Ha.
    induction H12 as [w1 w2 Hc' Ha'|w1 w w2 row H IH Hc' Ha' Hk Hp
                     |w1 w w2 row H IH Hc' Ha' Hk]; intros w3 Hc Ha.
    + apply grows_same; congruence.
    + eapply grows_cell_agent; [exact H| | |exact Hk|exact Hp]; congruence.
    + eapply grows_attempt; [exact H| | |exact Hk]; congruence.
  - eapply grows_cell_agent; [by apply IH|done..].
  - eapply grows_attempt; [by apply IH|done..].
Qed.

(** A computation whose parts only let the tables grow only lets them
    grow. *)
Lemma grows_bind {A B} (c : M A) (k : A -> M B) w :
  grows real_text w (snd (c w)) ->
  (forall a w1, grows real_text w1 (snd (k a w1))) ->
  grows real_text w (snd (bind c k w)).
Proof.
  intros Hc Hk. unfold bind. destruct (c w) as [[a|e] w1]; simpl in *; [|done].
  eapply grows_trans; [exact Hc|apply Hk].
Qed.

Lemma grows_lift {A} (r : res A) w : grows real_text w (snd (lift r w)).
Proof. apply grows_refl. Qed.

Lemma grows_gen_id w : grows real_text w (snd (gen_id w)).
Proof. by apply grows_same. Qed.

Lemma grows_now_ts w : grows real_text w (snd (now_ts w)).
Proof. by apply grows_same. Qed.

Lemma grows_alloc d w : grows real_text w (snd (alloc d w)).
Proof. by apply grows_same. Qed.

Lemma grows_load l w : grows real_text w (snd (load l w)).
Proof. unfold load. destruct (objects w !! l); by apply grows_same. Qed.

Lemma grows_store l d w : grows real_text w (snd (store l d w)).
Proof. by apply grows_same. Qed.

Lemma before_insert_tables manifest d w :
  cell_agents (before_insert manifest d w) = cell_agents w
  /\ attempts (before_insert manifest d w) = attempts w.
Proof. unfold before_insert. by destruct (truthy _). Qed.

Lemma grows_register cell_index manifest w :
  grows real_text w (snd (register real_text cell_index manifest w)).
Proof.
  destruct (objects w !! manifest) as [d|] eqn:Hd.
  - rewrite (register_unfold _ _ _ d) by done.
    destruct (before_insert_tables manifest d w) as [Hc Ha].
    destruct (sql_text _ _) as [id|e] eqn:Hid; [|by apply grows_same].
    destruct (sql_integer _) as [index|e]; [|by apply grows_same].
    destruct (key_taken _ _ _) eqn:Hk; [by apply grows_same|].
    eapply (grows_cell_agent _ w w _
              (CellAgent id index (stamped d w) (clock w (clock_count w))));
      [apply grows_refl| | |exact Hk|].
    + cbn [snd cell_agents set_cell_agents]. reflexivity.
    + cbn [snd]. exact Ha.
    + exists (chosen_id d w). cbn [ca_manifest ca_id]. unfold stamped.
      split_and!; [apply dict_get_set_eq|apply chosen_id_truthy|exact Hid].
  - unfold register. erewrite bind_Raise; [apply grows_refl|].
    unfold load. by rewrite Hd.
Qed.

Lemma grows_get_manifest cell_id w :
  grows real_text w (snd (get_manifest real_text cell_id w)).
Proof. rewrite get_manifest_world. apply grows_refl. Qed.

Lemma grows_store_attempt cell_id result w :
  grows real_text w (snd (store_attempt real_text cell_id result w)).
Proof.
  rewrite store_attempt_unfold. cbv zeta.
  destruct (sql_text _ _) as [cell|e]; [|by apply grows_same].
  destruct (key_taken _ _ _) eqn:Hk; [by apply grows_same|].
  eapply (grows_attempt _ w w _
            (Attempt (Some (next_id w)) cell (clock w (clock_count w)) result));
    [apply grows_refl|done|done|exact Hk].
Qed.

Ltac grows_steps :=
  repeat first
    [ apply grows_lift | apply grows_gen_id | apply grows_now_ts
    | apply grows_alloc | apply grows_load | apply grows_store
    | apply grows_register | apply grows_get_manifest
    | apply grows_store_attempt | apply grows_refl
    | apply grows_bind; [|intros ? ?] ].

Lemma grows_perform op w :
  grows real_text w
    (perform real_text repr ast_parse json_loads op w).
Proof.
  destruct op; cbn [perform].
  - apply grows_register.
  - apply grows_get_manifest.
  - apply grows_store_attempt.
  - unfold build_for_cell. grows_steps.
  - unfold explain. grows_steps.
    destruct (negb (truthy _)); [apply grows_refl|].
    destruct (String.eqb _ _); [apply grows_lift|].
    destruct (String.eqb _ _); apply grows_lift.
  - unfold get_visuals, ret. grows_steps.
  - unfold ask_question. grows_steps.
  - unfold run_quiz, ret. grows_steps.
  - apply grows_alloc.
  - grows_steps.
Qed.

Lemma grows_run ops : forall w,
  grows real_text w
    (run_operations real_text repr ast_parse json_loads ops w).
Proof.
  induction ops as [|op ops IH]; intros w; [apply grows_refl|].
  eapply grows_trans; [apply grows_perform|apply IH].
Qed.

Lemma key_taken_elem {R} (key_of : R -> option string) s table :
  key_taken key_of (Some s) table = false <-> s ∉ omap key_of table.
Proof.
  simpl. induction table as [|r table IH].
  - split; [intros _; apply not_elem_of_nil|done].
  - cbn [existsb omap list_omap]. rewrite orb_false_iff, IH.
    destruct (key_of r) as [s'|].
    + rewrite not_elem_of_cons, String.eqb_neq. done.
    + split; [by intros [_ ?]|done].
Qed.

Lemma keys_distinct_snoc {R} (key_of : R -> option string) table row :
  keys_distinct key_of table ->
  key_taken key_of (key_of row) table = false ->
  keys_distinct key_of (table ++ [row]).
Proof.
  unfold keys_distinct. intros Hnodup Hfree. rewrite omap_app.
  cbn [omap list_omap]. destruct (key_of row) as [s|]; [|by rewrite app_nil_r].
  apply NoDup_app. split_and!; [done| |apply NoDup_singleton].
  intros x Hx ->%list_elem_of_singleton. by apply key_taken_elem in Hfree.
Qed.

(** X1: whatever operations are performed, with whatever arguments and
    whether they return or raise, no row of [cell_agents] or [attempts] is
    changed or removed: the tables before are a prefix of the tables
    after. *)
Theorem tables_append_only ops w :
  let w' := run_operations real_text repr ast_parse json_loads ops w in
  cell_agents w `prefix_of` cell_agents w'
  /\ attempts w `prefix_of` attempts w'.
Proof.
  cbv zeta. induction (grows_run ops w)
    as [w w' Hc Ha|w w1 w' row _ [IHc IHa] Hc Ha _ _
       |w w1 w' row _ [IHc IHa] Hc Ha _].
  - by rewrite Hc, Ha.
  - rewrite Hc, Ha. split; [by apply prefix_app_r|done].
  - rewrite Hc, Ha. split; [done|by apply prefix_app_r].
Qed.

(** X2: the ids of each table stay pairwise distinct under any sequence of
    operations: a second manifest or attempt is never stored under a key
    that is in use. *)
Theorem keys_stay_distinct ops w :
  keys_distinct ca_id (cell_agents w) ->
  keys_distinct at_id (attempts w) ->
  let w' := run_operations real_text repr ast_parse json_loads ops w in
  keys_distinct ca_id (cell_agents w')
  /\ keys_distinct at_id (attempts w').
Proof.
  intros Hc0 Ha0. cbv zeta. induction (grows_run ops w)
    as [w w' Hc Ha|w w1 w' row _ IH Hc Ha Hk _
       |w w1 w' row _ IH Hc Ha Hk].
  - by rewrite Hc, Ha.
  - destruct (IH Hc0 Ha0) as [IHc IHa]. rewrite Hc, Ha.
    split; [by apply keys_distinct_snoc|done].
  - destruct (IH Hc0 Ha0) as [IHc IHa]. rewrite Hc, Ha.
    split; [done|by apply keys_distinct_snoc].
Qed.

(** X3: every stored payload carries under [id] a truthy id that is stored
    as the key of its row; any sequence of operations keeps it so. *)
Theorem payloads_carry_their_key ops w :
  Forall (payload_has_key real_text) (cell_agents w) ->
  Forall (payload_has_key real_text)
    (cell_agents (run_operations real_text repr ast_parse json_loads ops w)).
Proof.
  intros H0. induction (grows_run ops w)
    as [w w' Hc Ha|w w1 w' row _ IH Hc Ha _ Hp
       |w w1 w' row _ IH Hc Ha _].
  - by rewrite Hc.
  - rewrite Hc. apply Forall_app. split; [by apply IH|]. by constructor.
  - rewrite Hc. by apply IH.
Qed.

End ModuleFacts.

(** Operations on a database with one manifest: a second one is
    registered, an attempt is stored for an id without manifest, a cell is
    built and the quiz of the first manifest is run. *)
Lemma keys_stay_distinct_witness :
  let ops := [OpNewDict [("name", VStr "second")];
              OpRegister 2 1%nat;
              OpStoreAttempt (VStr "nowhere") (VDict []);
              OpBuildForCell 3 "x = 1" None;
              OpRunQuiz (VStr "cell") [answer_entry 0 "x"]] in
  let w' := run_operations no_real_text no_repr parse_fails demo_json_loads
              (llm := constant_llm "42") (visualizer := demo_visualizer)
              ops quiz_world in
  (keys_distinct ca_id (cell_agents quiz_world)
   /\ keys_distinct at_id (attempts quiz_world))
  /\ keys_distinct ca_id (cell_agents w')
  /\ keys_distinct at_id (attempts w')
  /\ length (cell_agents w') = 3%nat
  /\ length (attempts w') = 2%nat.
Proof.
  cbv zeta.
  assert (H1 : keys_distinct ca_id (cell_agents quiz_world))
    by (unfold keys_distinct; apply (bool_decide_unpack _); vm_compute; exact I).
  assert (H2 : keys_distinct at_id (attempts quiz_world))
    by (unfold keys_distinct; apply (bool_decide_unpack _); vm_compute; exact I).
  split; [by split|].
  destruct (keys_stay_distinct no_real_text no_repr parse_fails demo_json_loads
              (llm := constant_llm "42") (visualizer := demo_visualizer)
              [OpNewDict [("name", VStr "second")];
               OpRegister 2 1%nat;
               OpStoreAttempt (VStr "nowhere") (VDict []);
               OpBuildForCell 3 "x = 1" None;
               OpRunQuiz (VStr "cell") [answer_entry 0 "x"]]
              quiz_world H1 H2) as [Hc Ha].
  split_and!; [exact Hc|exact Ha|vm_compute; reflexivity..].
Defined.

Lemma payloads_carry_their_key_witness :
  let ops := [OpNewDict [("name", VStr "second")];
              OpRegister 2 1%nat;
              OpSetItem 1%nat "id" (VStr "changed");
              OpBuildForCell 3 "x = 1" None] in
  Forall (payload_has_key no_real_text) (cell_agents quiz_world)
  /\ Forall (payload_has_key no_real_text)
       (cell_agents
          (run_operations no_real_text no_repr parse_fails demo_json_loads
             (llm := constant_llm "42") (visualizer := demo_visualizer)
             ops quiz_world)).
Proof.
  cbv zeta.
  assert (H : Forall (payload_has_key no_real_text) (cell_agents quiz_world)).
  { repeat constructor. exists (VStr "cell"). by vm_compute. }
  split; [exact H|].
  exact (payloads_carry_their_key no_real_text no_repr parse_fails
           demo_json_loads (llm := constant_llm "42")
           (visualizer := demo_visualizer) _ quiz_world H).
Defined.

(** ** [gen_id], [Registry] and [CellAgentRuntime], continued *)

Section RegistryRuntimeFacts.

Variable real_text : spec_float -> option string.
Variable repr : value -> string.
Context {llm : LLMInterface}.

Lemma hex_digit_is_hex d :
  0 <= d < 16 -> is_hex_digit (hex_digit d) = true.
Proof.
  intros Hd. assert (Hn : (Z.to_nat d < 16)%nat) by lia.
  unfold hex_digit. generalize dependent (Z.to_nat d). clear.
  intros n Hn. do 16 (destruct n as [|n]; [reflexivity|]). lia.
Qed.

Lemma all_hex_hex_go k : forall i acc,
  all_hex acc = true -> all_hex (hex_go k i acc) = true.
Proof.
  induction k as [|k IH]; intros i acc Hacc; [done|].
  simpl. apply IH. unfold all_hex in *. simpl.
  rewrite Hacc, andb_true_r. apply hex_digit_is_hex.
  by apply Z.mod_pos_bound.
Qed.

Lemma all_hex_str_take n : forall s,
  all_hex s = true -> all_hex (str_take n s) = true.
Proof.
  induction n as [|n IH]; intros [|c s]; try done.
  unfold all_hex in *. simpl. intros [Hc Hs]%andb_true_iff.
  by rewrite Hc, IH.
Qed.

(** X4: [gen_id] returns eight characters, each a digit or a letter from
    [a] to [f]; it draws one random number and touches nothing else. *)
Theorem gen_id_eight_hex_digits w :
  exists id,
    gen_id w = (Ok id, tick_random w)
    /\ String.length id = 8%nat
    /\ forallb is_hex_digit (String.list_ascii_of_string id) = true.
Proof.
  exists (next_id w). split_and!; [apply gen_id_next|apply next_id_length|].
  assert (Hnext : next_id w
                  = str_take 8
                      (uuid_str (uuid4_int (random_source w (random_count w)))))
    by reflexivity.
  rewrite Hnext. unfold uuid_str. set (h := hex_go 32 _ "").
  assert (Hlen : String.length h = 32%nat) by apply hex_go_length.
  assert (Hhex : all_hex h = true) by by apply all_hex_hex_go.
  clearbody h. unfold str_slice at 1. simpl str_drop. simpl Nat.sub.
  rewrite str_take_app by (apply str_take_full_length; lia).
  by apply all_hex_str_take.
Qed.

Lemma dict_set_same k v d : dict_get k d = Some v -> dict_set k v d = d.
Proof.
  induction d as [|[k' v'] d IH]; simpl; [done|].
  destruct (String.eqb k k') eqn:Hk; [by intros [= ->]|].
  intros H. by rewrite IH.
Qed.

(** X5: when the dict passed to [register] carries a truthy id, [register]
    takes that id: no id is generated, the caller's dict and every other
    object are left as they are, and the id returned, if the call returns,
    is the one carried. *)
Theorem register_keeps_carried_id cell_index manifest d cid w :
  objects w !! manifest = Some d ->
  dict_get "id" d = Some cid ->
  truthy cid = true ->
  let r := fst (register real_text cell_index manifest w) in
  let w' := snd (register real_text cell_index manifest w) in
  random_count w' = random_count w
  /\ objects w' = objects w
  /\ forall returned, r = Ok returned -> returned = cid.
Proof.
  intros Hd Hid Hcid. cbv zeta. rewrite (register_unfold _ _ _ d) by done.
  assert (Hc : chosen_id d w = cid).
  { unfold chosen_id. rewrite Hid. simpl. by rewrite Hcid. }
  assert (Hw : objects (before_insert manifest d w) = objects w
               /\ random_count (before_insert manifest d w) = random_count w).
  { unfold before_insert, stamped. rewrite Hc, Hid. simpl. rewrite Hcid.
    simpl. rewrite (dict_set_same _ _ _ Hid). split; [|done].
    by apply insert_id. }
  destruct Hw as [Hobj Hrand]. rewrite Hc.
  destruct (sql_text _ _) as [id|e]; [|done].
  destruct (sql_integer _) as [index|e]; [|done].
  destruct (key_taken _ _ _); [done|]. simpl.
  split_and!; [done..|]. by intros returned [= <-].
Qed.

Lemma snd_bind_same {A B} (c : M A) (k : A -> M B) w :
  snd (c w) = w -> (forall a, snd (k a w) = w) -> snd (bind c k w) = w.
Proof.
  intros Hc Hk. unfold bind. destruct (c w) as [[a|e] w1]; simpl in *;
    subst w1; [apply Hk|done].
Qed.

(** X6: the operations that read never write: [get_manifest], [explain],
    [get_visuals] and [ask_question] leave the tables, the objects and the
    random and clock sources exactly as they were, on every input and
    whether they return or raise. *)
Theorem reads_leave_world_unchanged cell_id depth user_question w :
  snd (get_manifest real_text cell_id w) = w
  /\ snd (explain real_text cell_id depth w) = w
  /\ snd (get_visuals real_text cell_id w) = w
  /\ snd (ask_question real_text repr cell_id user_question w) = w.
Proof.
  pose proof (get_manifest_world real_text cell_id w) as Hget.
  split_and!; [exact Hget|..].
  - unfold explain. apply snd_bind_same; [exact Hget|]. intros manifest.
    destruct (negb (truthy manifest)); [done|].
    destruct (String.eqb depth "summary"); [done|].
    by destruct (String.eqb depth "line").
  - unfold get_visuals. apply snd_bind_same; [exact Hget|]. intros m.
    apply snd_bind_same; [done|]. intros diagram.
    by apply snd_bind_same.
  - unfold ask_question. apply snd_bind_same; [exact Hget|]. intros m.
    apply snd_bind_same; [done|]. intros code_sample.
    by apply snd_bind_same.
Qed.

Lemma get_manifest_cases cell_id w m w1 :
  get_manifest real_text cell_id w = (Ok m, w1) ->
  m = VNone
  \/ exists key row,
       sql_text real_text cell_id = Ok (Some key)
       /\ select_by_id ca_id (Some key) (cell_agents w) = Some row
       /\ m = VDict (ca_manifest row).
Proof.
  unfold get_manifest, bind, lift.
  destruct (sql_text real_text cell_id) as [[key|]|e]; [| |done].
  - destruct (select_by_id ca_id (Some key) (cell_agents w)) as [row|] eqn:Hrow.
    + intros [= <- _]. right. by exists key, row.
    + intros [= <- _]. by left.
  - intros [= <- _]. by left.
Qed.

(** X7: [run_quiz] only returns for an id that has a manifest, and the
    attempt it stores refers to that manifest: the runtime keeps the
    reference from attempts to manifests intact, which [store_attempt]
    alone does not check. *)
Theorem run_quiz_attempt_has_manifest cell_id user_answers w summary :
  fst (run_quiz real_text cell_id user_answers w) = Ok summary ->
  exists key row a,
    sql_text real_text cell_id = Ok (Some key)
    /\ select_by_id ca_id (Some key) (cell_agents w) = Some row
    /\ attempts (snd (run_quiz real_text cell_id user_answers w))
       = attempts w ++ [a]
    /\ at_cell_id a = Some key.
Proof.
  rewrite run_quiz_unfold.
  destruct (get_manifest real_text cell_id w) as [[m|e] w1] eqn:Hget; [|done].
  destruct (get_manifest_cases _ _ _ _ Hget)
    as [->|(key & row & Hkey & Hrow & ->)]; [done|].
  destruct (get_method _ _ _) as [quiz|e]; [|done].
  destruct (res_map (grade quiz) user_answers) as [results|e]; [|done].
  cbv zeta. rewrite store_attempt_unfold. cbv zeta. rewrite Hkey.
  destruct (key_taken _ _ _); [done|]. intros _.
  eexists key, row, _. by split_and!.
Qed.

(** X8: a result of [run_quiz] holds a score between [0] and the total,
    the total is the number of answers, and there is one detail per
    answer. *)
Theorem run_quiz_score_bounds cell_id user_answers w :
  match fst (run_quiz real_text cell_id user_answers w) with
  | Ok summary =>
      exists score details,
        summary = VDict [("score", VInt score);
                         ("total", VInt (Z.of_nat (length user_answers)));
                         ("details", VList details)]
        /\ 0 <= score <= Z.of_nat (length user_answers)
        /\ length details = length user_answers
  | Raise _ => True
  end.
Proof.
  rewrite run_quiz_unfold.
  destruct (get_manifest real_text cell_id w) as [[m|e] w1]; [|done].
  destruct (get_method _ _ _) as [quiz|e]; [|done].
  destruct (res_map (grade quiz) user_answers) as [results|e] eqn:Hres; [|done].
  apply res_map_length in Hres. cbv zeta.
  destruct (store_attempt _ _ _ _) as [[aid|e] w2]; [|done]. cbn [fst].
  eexists _, results. rewrite Hres. split_and!; [reflexivity|lia| |done].
  rewrite <- Hres. apply inj_le, length_filter.
Qed.

(** X9: with no answers at all, [run_quiz] on a stored manifest returns a
    score of [0] out of [0] and still stores an attempt, whatever the
    manifest holds as its quiz. *)
Theorem run_quiz_no_answers w s row :
  select_by_id ca_id (Some s) (cell_agents w) = Some row ->
  key_taken at_id (Some (next_id w)) (attempts w) = false ->
  exists w' a,
    run_quiz real_text (VStr s) [] w
    = (Ok (VDict [("score", VInt 0); ("total", VInt 0); ("details", VList [])]),
       w')
    /\ attempts w' = attempts w ++ [a]
    /\ at_cell_id a = Some s.
Proof.
  intros Hrow Hfree.
  rewrite run_quiz_unfold, (get_manifest_present _ _ _ row Hrow).
  cbn [get_method]. destruct (dict_get "quiz" (ca_manifest row)) as [quiz|];
    cbn [res_map]; cbv zeta; rewrite store_attempt_unfold; cbv zeta;
    cbn [sql_text]; rewrite Hfree; eexists _, _; by split_and!.
Qed.

(** X10: an index between [-len(quiz)] and [-1] is no error either: it is
    counted from the end of the quiz, so the answer is graded against the
    hint of question [len(quiz) + q_index]. *)
Theorem grade_negative_index qs ans i a :
  forallb hinted qs = true ->
  getitem ans (VStr "q_index") = Ok (VInt i) ->
  getitem ans (VStr "answer") = Ok (VStr a) ->
  - Z.of_nat (length qs) <= i < 0 ->
  let hint := expected_hint_of qs (i + Z.of_nat (length qs)) in
  grade (VList qs) ans
  = Ok (VDict [("index", VInt i);
               ("user_answer", VStr a);
               ("correct",
                VBool (if String.eqb hint "" then true
                       else str_in hint (lower a)))]).
Proof.
  intros Hqs Hi Ha Hrange. cbv zeta. unfold grade. rewrite Hi, Ha.
  cbn [res_bind py_len py_lt_int].
  rewrite (proj2 (Z.ltb_lt i (Z.of_nat (length qs)))) by lia.
  cbn [getitem as_index]. unfold seq_index.
  rewrite (proj2 (Z.ltb_lt i 0)) by lia.
  rewrite (proj2 (Z.leb_le 0 (i + Z.of_nat (length qs)))) by lia.
  rewrite (proj2 (Z.ltb_lt (i + Z.of_nat (length qs)) (Z.of_nat (length qs))))
    by lia.
  cbn [andb]. unfold expected_hint_of.
  destruct (qs !! Z.to_nat (i + Z.of_nat (length qs))) as [q|] eqn:Hq;
    [|apply lookup_ge_None in Hq; lia].
  cbn [res_bind]. rewrite forallb_forall in Hqs.
  assert (Hq' : hinted q = true).
  { apply Hqs, list_elem_of_In. eapply list_elem_of_lookup_2. exact Hq. }
  destruct q as [| | | | | |qd]; try done. cbn [get_method hinted] in *.
  destruct (dict_get "answer_hint" qd) as [[| | | |h| |]|]; try done;
    cbn [res_bind lower_method lower String.eqb negb]; try done.
  by destruct (String.eqb (lower h) "").
Qed.

Lemma res_map_past_end qs answers :
  forallb (past_end (length qs)) answers = true ->
  exists results,
    res_map (grade (VList qs)) answers = Ok results
    /\ length (filter (fun r => is_correct r = true) results) = length answers.
Proof.
  induction answers as [|ans answers IH]; [by exists []|].
  cbn [forallb]. intros [Hans Hrest]%andb_true_iff.
  destruct (IH Hrest) as (results & Hmap & Hcount).
  unfold past_end in Hans.
  destruct (getitem ans (VStr "q_index")) as [[| |i| | | |]|] eqn:Hi; try done.
  destruct (getitem ans (VStr "answer")) as [user_ans|] eqn:Ha; [|done].
  apply Z.leb_le in Hans.
  eexists. cbn [res_map].
  rewrite (grade_index_beyond_end qs ans i user_ans Hi Ha Hans), Hmap.
  cbn [res_bind]. split; [reflexivity|].
  rewrite filter_cons_True by done. simpl. by rewrite Hcount.
Qed.

(** X11: answers whose indices are all at or past the end of the quiz
    are all correct, whatever they say: the score is the number of
    answers. *)
Theorem run_quiz_past_end_all_correct w s row qs user_answers :
  select_by_id ca_id (Some s) (cell_agents w) = Some row ->
  dict_get "quiz" (ca_manifest row) = Some (VList qs) ->
  forallb (past_end (length qs)) user_answers = true ->
  key_taken at_id (Some (next_id w)) (attempts w) = false ->
  exists w' details,
    run_quiz real_text (VStr s) user_answers w
    = (Ok (VDict [("score", VInt (Z.of_nat (length user_answers)));
                  ("total", VInt (Z.of_nat (length user_answers)));
                  ("details", VList details)]), w').
Proof.
  intros Hrow Hquiz Hanswers Hfree.
  destruct (res_map_past_end qs user_answers Hanswers)
    as (results & Hmap & Hcount).
  rewrite run_quiz_unfold, (get_manifest_present _ _ _ row Hrow).
  cbn [get_method]. rewrite Hquiz, Hmap. cbv zeta.
  rewrite store_attempt_unfold. cbv zeta. cbn [sql_text]. rewrite Hfree.
  rewrite Hcount, (res_map_length _ _ _ Hmap). eauto.
Qed.

Lemma lower_char_twice c : lower_char (lower_char c) = lower_char c.
Proof. by destruct c as [[] [] [] [] [] [] [] []]. Qed.

Lemma lower_twice s : lower (lower s) = lower s.
Proof.
  induction s as [|c s IH]; [done|]. simpl. by rewrite lower_char_twice, IH.
Qed.

(** X12: grading does not look at the case of the answer: an answer and
    its lowercased form get the same mark. *)
Theorem grade_ignores_case qs i a :
  forallb hinted qs = true ->
  0 <= i < Z.of_nat (length qs) ->
  exists correct,
    grade (VList qs) (answer_entry i a)
    = Ok (VDict [("index", VInt i);
                 ("user_answer", VStr a);
                 ("correct", VBool correct)])
    /\ grade (VList qs) (answer_entry i (lower a))
       = Ok (VDict [("index", VInt i);
                    ("user_answer", VStr (lower a));
                    ("correct", VBool correct)]).
Proof.
  intros Hqs Hi.
  assert (Hok : forall b, answer_ok (length qs) (answer_entry i b) = true).
  { intros b. unfold answer_ok, answer_entry. cbn [getitem dict_get String.eqb].
    simpl. apply andb_true_iff. split; [apply Z.leb_le|apply Z.ltb_lt]; lia. }
  destruct (grade_answer qs _ Hqs (Hok a)) as (i1 & a1 & Hi1 & Ha1 & ->).
  destruct (grade_answer qs _ Hqs (Hok (lower a))) as (i2 & a2 & Hi2 & Ha2 & ->).
  injection Hi1 as <-. injection Ha1 as <-.
  injection Hi2 as <-. injection Ha2 as <-.
  rewrite lower_twice. eauto.
Qed.

(** X13: a stored manifest without [summary]: [explain] with depth
    [summary] raises [KeyError], while with a depth other than [summary]
    and [line] it returns [None]; the named depths index the manifest, the
    fallback uses [get]. *)
Theorem explain_missing_summary w s row :
  select_by_id ca_id (Some s) (cell_agents w) = Some row ->
  ca_manifest row <> [] ->
  dict_get "summary" (ca_manifest row) = None ->
  explain real_text (VStr s) "summary" w = (Raise KeyError, w)
  /\ forall depth, depth <> "summary" -> depth <> "line" ->
       explain real_text (VStr s) depth w = (Ok VNone, w).
Proof.
  intros Hrow Hne Hsummary.
  assert (Ht : truthy (VDict (ca_manifest row)) = true)
    by (destruct (ca_manifest row); done).
  split; [|intros depth H1%String.eqb_neq H2%String.eqb_neq]; unfold explain;
    rewrite (bind_Ok _ _ _ _ _ (get_manifest_present _ _ _ row Hrow)), Ht;
    cbn [negb].
  - change (String.eqb "summary" "summary") with true. cbv iota.
    unfold lift. cbn [getitem]. by rewrite Hsummary.
  - rewrite H1, H2. unfold lift, get_method. by rewrite Hsummary.
Qed.

End RegistryRuntimeFacts.

(** The demo manifest carries the id [cell]: registering it draws no id
    and leaves the dict as it is. *)
Lemma register_keeps_carried_id_witness :
  let w := snd (alloc demo_manifest demo_world) in
  (objects w !! 0%nat = Some demo_manifest
   /\ dict_get "id" demo_manifest = Some (VStr "cell")
   /\ truthy (VStr "cell") = true)
  /\ random_count (snd (register no_real_text 1 0%nat w)) = random_count w
  /\ objects (snd (register no_real_text 1 0%nat w)) = objects w
  /\ forall returned,
       fst (register no_real_text 1 0%nat w) = Ok returned ->
       returned = VStr "cell".
Proof.
  cbv zeta.
  assert (H1 : objects (snd (alloc demo_manifest demo_world)) !! 0%nat
               = Some demo_manifest) by reflexivity.
  assert (H2 : dict_get "id" demo_manifest = Some (VStr "cell")) by reflexivity.
  assert (H3 : truthy (VStr "cell") = true) by reflexivity.
  split; [by split_and!|].
  exact (register_keeps_carried_id no_real_text 1 0%nat demo_manifest
           (VStr "cell") (snd (alloc demo_manifest demo_world)) H1 H2 H3).
Defined.

(** One answer to the second question of the demo quiz. *)
Lemma run_quiz_attempt_has_manifest_witness :
  let summary :=
    VDict [("score", VInt 1); ("total", VInt 1);
           ("details",
            VList [VDict [("index", VInt 1); ("user_answer", VStr "yes");
                          ("correct", VBool true)]])] in
  fst (run_quiz no_real_text (VStr "cell") [answer_entry 1 "yes"] quiz_world)
  = Ok summary
  /\ exists key row a,
       sql_text no_real_text (VStr "cell") = Ok (Some key)
       /\ select_by_id ca_id (Some key) (cell_agents quiz_world) = Some row
       /\ attempts (snd (run_quiz no_real_text (VStr "cell")
                           [answer_entry 1 "yes"] quiz_world))
          = attempts quiz_world ++ [a]
       /\ at_cell_id a = Some key.
Proof.
  cbv zeta.
  assert (H : fst (run_quiz no_real_text (VStr "cell") [answer_entry 1 "yes"]
                     quiz_world)
              = Ok (VDict [("score", VInt 1); ("total", VInt 1);
                           ("details",
                            VList [VDict [("index", VInt 1);
                                          ("user_answer", VStr "yes");
                                          ("correct", VBool true)]])]))
    by (vm_compute; reflexivity).
  split; [exact H|].
  exact (run_quiz_attempt_has_manifest no_real_text (VStr "cell")
           [answer_entry 1 "yes"] quiz_world _ H).
Defined.

(** The demo quiz, taken without answering. *)
Lemma run_quiz_no_answers_witness :
  let row := CellAgent (Some "cell") 1 demo_manifest (S754_zero false) in
  (select_by_id ca_id (Some "cell") (cell_agents quiz_world) = Some row
   /\ key_taken at_id (Some (next_id quiz_world)) (attempts quiz_world) = false)
  /\ exists w' a,
       run_quiz no_real_text (VStr "cell") [] quiz_world
       = (Ok (VDict [("score", VInt 0); ("total", VInt 0);
                     ("details", VList [])]), w')
       /\ attempts w' = attempts quiz_world ++ [a]
       /\ at_cell_id a = Some "cell".
Proof.
  cbv zeta.
  assert (H1 : select_by_id ca_id (Some "cell") (cell_agents quiz_world)
               = Some (CellAgent (Some "cell") 1 demo_manifest (S754_zero false)))
    by reflexivity.
  assert (H2 : key_taken at_id (Some (next_id quiz_world)) (attempts quiz_world)
               = false) by reflexivity.
  split; [by split|].
  exact (run_quiz_no_answers no_real_text quiz_world "cell" _ H1 H2).
Defined.

(** Index [-1] on the demo quiz is its last question, whose hint is
    [Yes]. *)
Lemma grade_negative_index_witness :
  (forallb hinted demo_quiz = true
   /\ getitem (answer_entry (-1) "Yes") (VStr "q_index") = Ok (VInt (-1))
   /\ getitem (answer_entry (-1) "Yes") (VStr "answer") = Ok (VStr "Yes")
   /\ - Z.of_nat (length demo_quiz) <= -1 < 0)
  /\ grade (VList demo_quiz) (answer_entry (-1) "Yes")
     = Ok (VDict [("index", VInt (-1));
                  ("user_answer", VStr "Yes");
                  ("correct", VBool true)]).
Proof.
  assert (H1 : forallb hinted demo_quiz = true) by reflexivity.
  assert (H2 : getitem (answer_entry (-1) "Yes") (VStr "q_index")
               = Ok (VInt (-1))) by reflexivity.
  assert (H3 : getitem (answer_entry (-1) "Yes") (VStr "answer")
               = Ok (VStr "Yes")) by reflexivity.
  assert (H4 : - Z.of_nat (length demo_quiz) <= -1 < 0) by (simpl; lia).
  split; [by split_and!|].
  exact (grade_negative_index demo_quiz (answer_entry (-1) "Yes") (-1) "Yes"
           H1 H2 H3 H4).
Defined.

(** Two answers to questions the demo quiz does not have. *)
Lemma run_quiz_past_end_all_correct_witness :
  let row := CellAgent (Some "cell") 1 demo_manifest (S754_zero false) in
  let user_answers := [answer_entry 2 "anything"; answer_entry 7 ""] in
  (select_by_id ca_id (Some "cell") (cell_agents quiz_world) = Some row
   /\ dict_get "quiz" (ca_manifest row) = Some (VList demo_quiz)
   /\ forallb (past_end (length demo_quiz)) user_answers = true
   /\ key_taken at_id (Some (next_id quiz_world)) (attempts quiz_world) = false)
  /\ exists w' details,
       run_quiz no_real_text (VStr "cell") user_answers quiz_world
       = (Ok (VDict [("score", VInt 2); ("total", VInt 2);
                     ("details", VList details)]), w').
Proof.
  cbv zeta.
  set (row := CellAgent (Some "cell") 1 demo_manifest (S754_zero false)).
  set (user_answers := [answer_entry 2 "anything"; answer_entry 7 ""]).
  assert (H1 : select_by_id ca_id (Some "cell") (cell_agents quiz_world)
               = Some row) by reflexivity.
  assert (H2 : dict_get "quiz" (ca_manifest row) = Some (VList demo_quiz))
    by reflexivity.
  assert (H3 : forallb (past_end (length demo_quiz)) user_answers = true)
    by reflexivity.
  assert (H4 : key_taken at_id (Some (next_id quiz_world)) (attempts quiz_world)
               = false) by reflexivity.
  split; [by split_and!|].
  exact (run_quiz_past_end_all_correct no_real_text quiz_world "cell" row
           demo_quiz user_answers H1 H2 H3 H4).
Defined.

(** [YES] and [yes] as answers to the second question of the demo quiz. *)
Lemma grade_ignores_case_witness :
  (forallb hinted demo_quiz = true /\ 0 <= 1 < Z.of_nat (length demo_quiz))
  /\ exists correct,
       grade (VList demo_quiz) (answer_entry 1 "YES")
       = Ok (VDict [("index", VInt 1);
                    ("user_answer", VStr "YES");
                    ("correct", VBool correct)])
       /\ grade (VList demo_quiz) (answer_entry 1 (lower "YES"))
          = Ok (VDict [("index", VInt 1);
                       ("user_answer", VStr (lower "YES"));
                       ("correct", VBool correct)]).
Proof.
  assert (H1 : forallb hinted demo_quiz = true) by reflexivity.
  assert (H2 : 0 <= 1 < Z.of_nat (length demo_quiz)) by (simpl; lia).
  split; [by split|].
  exact (grade_ignores_case demo_quiz 1 "YES" H1 H2).
Defined.

(** The demo manifest has an id and a quiz, and no summary. *)
Lemma explain_missing_summary_witness :
  let row := CellAgent (Some "cell") 1 demo_manifest (S754_zero false) in
  (select_by_id ca_id (Some "cell") (cell_agents quiz_world) = Some row
   /\ ca_manifest row <> []
   /\ dict_get "summary" (ca_manifest row) = None)
  /\ explain no_real_text (VStr "cell") "summary" quiz_world
     = (Raise KeyError, quiz_world)
  /\ forall depth, depth <> "summary" -> depth <> "line" ->
       explain no_real_text (VStr "cell") depth quiz_world
       = (Ok VNone, quiz_world).
Proof.
  cbv zeta.
  set (row := CellAgent (Some "cell") 1 demo_manifest (S754_zero false)).
  assert (H1 : select_by_id ca_id (Some "cell") (cell_agents quiz_world)
               = Some row) by reflexivity.
  assert (H2 : ca_manifest row <> []) by discriminate.
  assert (H3 : dict_get "summary" (ca_manifest row) = None) by reflexivity.
  split; [by split_and!|].
  exact (explain_missing_summary no_real_text quiz_world "cell" row H1 H2 H3).
Defined.

(** ** [CellAgentBuilder], continued *)

Section BuildFacts.

Variable real_text : spec_float -> option string.
Variable repr : value -> string.
Variable ast_parse : string -> res Ast.node.
Variable json_loads : string -> res value.
Context {llm : LLMInterface} {visualizer : Visualizer}.

Ltac run H := erewrite bind_Ok by (unfold lift; rewrite H; reflexivity).

Lemma extract_summary_inspected_lines code inspect :
  extract_summary ast_parse code = Ok inspect ->
  default (VList []) (dict_get "lines" inspect)
  = VList (VStr <$> inspected_lines ast_parse code).
Proof.
  unfold extract_summary, inspected_lines.
  destruct (ast_parse code) as [tree|e].
  - destruct (imports_of tree) as [imports|e]; [|done]. by intros [= <-].
  - by intros [= <-].
Qed.

(** A call of [build_for_cell] that goes through, step by step: what each
    collaborator was asked, the manifest assembled from the answers, and
    the world afterwards. *)
Lemma build_for_cell_result cell_index code title w :
  parse_well_formed (ast_parse code) = true ->
  always_answers llm ->
  always_renders visualizer ->
  sql_integer cell_index = Ok cell_index ->
  key_taken ca_id (Some (next_id (tick_random (tick_random w))))
    (cell_agents w) = false ->
  exists inspect summary line_by_line vis diagram anim quiz_json w',
    extract_summary ast_parse code = Ok inspect
    /\ generate (summary_prompt code) = Ok summary
    /\ generate (line_prompt
                   (join "\n" (take 20 (inspected_lines ast_parse code))))
       = Ok line_by_line
    /\ generate (vis_prompt code) = Ok vis
    /\ make_diagram (next_id w) vis = Ok diagram
    /\ make_animation (next_id (tick_random w)) frames = Ok anim
    /\ generate quiz_prompt = Ok quiz_json
    /\ let id := next_id (tick_random (tick_random w)) in
       let d := built_manifest (cell_name title cell_index) cell_index code
                  inspect summary line_by_line diagram anim
                  (match json_loads quiz_json with
                   | Ok quiz => quiz
                   | Raise _ => default_quiz
                   end)
                  (clock w (clock_count w)) id in
       let l := fresh (dom (objects w)) in
       build_for_cell real_text ast_parse json_loads cell_index code title w
       = (Ok l, w')
       /\ objects w' = <[l := d]> (objects w)
       /\ cell_agents w'
          = cell_agents w
            ++ [CellAgent (Some id) cell_index d (clock w (S (clock_count w)))]
       /\ attempts w' = attempts w
       /\ random_count w' = S (S (S (random_count w)))
       /\ get_manifest real_text (VStr id) w' = (Ok (VDict d), w').
Proof.
  intros Hparse Hllm [Hdiagram Hanim] Hindex Hfree.
  destruct (extract_summary_Ok ast_parse code Hparse) as (inspect & Hinspect).
  pose proof (extract_summary_inspected_lines code inspect Hinspect) as Hls.
  set (ls := inspected_lines ast_parse code) in *.
  destruct (Hllm (summary_prompt code)) as (summary & Hsummary).
  destruct (Hllm (line_prompt (join "\n" (take 20 ls))))
    as (line_by_line & Hline).
  destruct (Hllm (vis_prompt code)) as (vis & Hvis).
  destruct (Hdiagram (next_id w) vis) as (diagram & Hd).
  destruct (Hanim (next_id (tick_random w)) frames) as (anim & Ha).
  destruct (Hllm quiz_prompt) as (quiz_json & Hquiz).
  exists inspect, summary, line_by_line, vis, diagram, anim, quiz_json.
  unfold build_for_cell.
  run Hinspect. run Hsummary. rewrite Hls. cbn [slice_to].
  erewrite bind_Ok by reflexivity.
  rewrite <- fmap_take. cbn [join_method]. rewrite join_values_strs.
  erewrite bind_Ok by reflexivity.
  run Hline. run Hvis.
  rewrite (bind_Ok _ _ _ _ _ (gen_id_next w)). run Hd.
  rewrite (bind_Ok _ _ _ _ _ (gen_id_next (tick_random w))). run Ha.
  run Hquiz.
  set (quiz := match json_loads quiz_json with
               | Ok quiz => quiz
               | Raise _ => default_quiz
               end).
  erewrite (bind_Ok _ _ _ quiz) by (unfold lift, try_except, quiz;
                                    by destruct (json_loads quiz_json)).
  erewrite bind_Ok by reflexivity.
  erewrite bind_Ok by reflexivity.
  set (l := fresh _). set (m0 := [("name", _); _; _; _; _; _; _; _; _; _]).
  set (w5 := set_objects _ _).
  set (id := next_id (tick_random (tick_random w))) in *.
  assert (Hl : objects w5 !! l = Some m0) by apply lookup_insert_eq.
  assert (Hc : chosen_id m0 w5 = VStr id) by reflexivity.
  assert (Hs : stamped m0 w5 = dict_set "id" (VStr id) m0)
    by (unfold stamped; by rewrite Hc).
  set (row := CellAgent (Some id) cell_index (dict_set "id" (VStr id) m0)
                (clock w5 (clock_count w5))).
  set (w6 := set_cell_agents (cell_agents w ++ [row]) (before_insert l m0 w5)).
  assert (Hreg : register real_text cell_index l w5 = (Ok (VStr id), w6)).
  { rewrite (register_unfold _ _ _ m0 w5 Hl), Hc, Hs. cbn [sql_text].
    rewrite Hindex. change (cell_agents w5) with (cell_agents w).
    by rewrite Hfree. }
  rewrite (bind_Ok _ _ _ _ _ Hreg).
  assert (Hobj6 : objects w6
                  = <[l := dict_set "id" (VStr id) m0]> (objects w5)).
  { unfold w6, before_insert. rewrite Hs. cbn [objects set_cell_agents].
    by destruct (truthy _). }
  erewrite bind_Ok by (apply load_Some; rewrite Hobj6; apply lookup_insert_eq).
  erewrite bind_Ok by reflexivity. unfold ret.
  rewrite dict_set_twice.
  eexists. cbv zeta. split_and!; try done.
  - cbn [objects set_objects]. rewrite Hobj6. unfold w5.
    cbn [objects set_objects]. by rewrite !insert_insert_eq.
  - apply (get_manifest_present real_text _ id row).
    cbn [cell_agents set_objects]. unfold w6. cbn [cell_agents set_cell_agents].
    by apply select_by_id_last.
Qed.

(** X14: Build, then explain: after a call of [build_for_cell] that goes
    through, [explain] on the id of the new manifest returns, at depth
    [line], the text the generator gave when asked to explain the first 20
    non-blank lines of the code (no line at all when the code does not
    parse), and at depth [summary] and every other depth the text it gave
    for the summary prompt of the code.  No such call changes anything. *)
Theorem build_then_explain cell_index code title w :
  parse_well_formed (ast_parse code) = true ->
  always_answers llm ->
  always_renders visualizer ->
  sql_integer cell_index = Ok cell_index ->
  key_taken ca_id (Some (next_id (tick_random (tick_random w))))
    (cell_agents w) = false ->
  exists manifest w' d summary line_by_line,
    build_for_cell real_text ast_parse json_loads cell_index code title w
    = (Ok manifest, w')
    /\ objects w' !! manifest = Some d
    /\ generate (summary_prompt code) = Ok summary
    /\ generate (line_prompt
                   (join "\n" (take 20 (inspected_lines ast_parse code))))
       = Ok line_by_line
    /\ forall cid depth,
         dict_get "id" d = Some cid ->
         explain real_text cid depth w'
         = (Ok (VStr (if String.eqb depth "line" then line_by_line
                      else summary)), w').
Proof.
  intros Hparse Hllm Hvis Hindex Hfree.
  destruct (build_for_cell_result cell_index code title w
              Hparse Hllm Hvis Hindex Hfree)
    as (inspect & summary & line_by_line & vis & diagram & anim
        & quiz_json & w' & _ & Hsummary & Hline & _ & _ & _ & _
        & Hbuild & Hobj & _ & _ & _ & Hget).
  eexists _, w', _, summary, line_by_line.
  split_and!; [exact Hbuild | by rewrite Hobj, lookup_insert_eq
              | exact Hsummary | exact Hline |].
  intros cid depth [= <-]. unfold explain.
  rewrite (bind_Ok _ _ _ _ _ Hget). cbn [truthy built_manifest negb].
  destruct (String.eqb_spec depth "summary") as [->|Hs]; [done|].
  by destruct (String.eqb depth "line").
Qed.

(** X15: Build, then look at the visuals: after a call of [build_for_cell]
    that goes through, [get_visuals] on the id of the new manifest returns
    the two paths the visualizer gave: the diagram made for the first id
    drawn, from the generator's answer to the visualization prompt, and the
    animation made for the second id drawn, from the three frame texts.
    Neither of them is the id under which the manifest is registered, which
    is the third one drawn. *)
Theorem build_then_get_visuals cell_index code title w :
  parse_well_formed (ast_parse code) = true ->
  always_answers llm ->
  always_renders visualizer ->
  sql_integer cell_index = Ok cell_index ->
  key_taken ca_id (Some (next_id (tick_random (tick_random w))))
    (cell_agents w) = false ->
  exists manifest w' d vis diagram anim,
    build_for_cell real_text ast_parse json_loads cell_index code title w
    = (Ok manifest, w')
    /\ objects w' !! manifest = Some d
    /\ generate (vis_prompt code) = Ok vis
    /\ make_diagram (next_id w) vis = Ok diagram
    /\ make_animation (next_id (tick_random w)) frames = Ok anim
    /\ dict_get "id" d = Some (VStr (next_id (tick_random (tick_random w))))
    /\ get_visuals real_text (VStr (next_id (tick_random (tick_random w)))) w'
       = (Ok (VDict [("diagram", VStr diagram); ("animation", VStr anim)]), w').
Proof.
  intros Hparse Hllm Hvis Hindex Hfree.
  destruct (build_for_cell_result cell_index code title w
              Hparse Hllm Hvis Hindex Hfree)
    as (inspect & summary & line_by_line & vis & diagram & anim
        & quiz_json & w' & _ & _ & _ & Hv & Hd & Ha & _
        & Hbuild & Hobj & _ & _ & _ & Hget).
  eexists _, w', _, vis, diagram, anim.
  split_and!; [exact Hbuild | by rewrite Hobj, lookup_insert_eq
              | exact Hv | exact Hd | exact Ha | reflexivity |].
  unfold get_visuals. by rewrite (bind_Ok _ _ _ _ _ Hget).
Qed.

(** X16: Build, then ask: after a call of [build_for_cell] that goes
    through, [ask_question] on the id of the new manifest hands the
    generator the question followed by the first 2000 characters of the
    code the cell was built from, and returns what the generator returns,
    an exception included; it changes nothing. *)
Theorem build_then_ask_question cell_index code title w :
  parse_well_formed (ast_parse code) = true ->
  always_answers llm ->
  always_renders visualizer ->
  sql_integer cell_index = Ok cell_index ->
  key_taken ca_id (Some (next_id (tick_random (tick_random w))))
    (cell_agents w) = false ->
  exists manifest w' d,
    build_for_cell real_text ast_parse json_loads cell_index code title w
    = (Ok manifest, w')
    /\ objects w' !! manifest = Some d
    /\ forall cid user_question,
         dict_get "id" d = Some cid ->
         ask_question real_text repr cid user_question w'
         = (generate (question_prompt user_question (str_take 2000 code)), w').
Proof.
  intros Hparse Hllm Hvis Hindex Hfree.
  destruct (build_for_cell_result cell_index code title w
              Hparse Hllm Hvis Hindex Hfree)
    as (inspect & summary & line_by_line & vis & diagram & anim
        & quiz_json & w' & _ & _ & _ & _ & _ & _ & _
        & Hbuild & Hobj & _ & _ & _ & Hget).
  eexists _, w', _.
  split_and!; [exact Hbuild | by rewrite Hobj, lookup_insert_eq |].
  intros cid user_question [= <-]. unfold ask_question.
  rewrite (bind_Ok _ _ _ _ _ Hget).
  erewrite bind_Ok by reflexivity. erewrite bind_Ok by reflexivity.
  unfold lift, question_prompt. cbn [format_value].
  by destruct (generate _).
Qed.

(** X17: What [build_for_cell] leaves behind: a call that goes through
    allocates one new dict, the manifest it returns, and changes no other
    object; it appends exactly one row to [cell_agents], for the given cell
    index and keyed by the third id drawn, whose payload is the returned
    manifest, id included, so that [get_manifest] gives back the dict the
    caller holds; it stores no attempt; and it draws three ids, two of
    which only name the files of the visuals. *)
Theorem build_for_cell_registers_what_it_returns cell_index code title w :
  parse_well_formed (ast_parse code) = true ->
  always_answers llm ->
  always_renders visualizer ->
  sql_integer cell_index = Ok cell_index ->
  key_taken ca_id (Some (next_id (tick_random (tick_random w))))
    (cell_agents w) = false ->
  exists manifest w' d created_at,
    let id := next_id (tick_random (tick_random w)) in
    build_for_cell real_text ast_parse json_loads cell_index code title w
    = (Ok manifest, w')
    /\ objects w !! manifest = None
    /\ objects w' = <[manifest := d]> (objects w)
    /\ dict_get "id" d = Some (VStr id)
    /\ cell_agents w'
       = cell_agents w ++ [CellAgent (Some id) cell_index d created_at]
    /\ get_manifest real_text (VStr id) w' = (Ok (VDict d), w')
    /\ attempts w' = attempts w
    /\ random_count w' = S (S (S (random_count w))).
Proof.
  intros Hparse Hllm Hvis Hindex Hfree.
  destruct (build_for_cell_result cell_index code title w
              Hparse Hllm Hvis Hindex Hfree)
    as (inspect & summary & line_by_line & vis & diagram & anim
        & quiz_json & w' & _ & _ & _ & _ & _ & _ & _
        & Hbuild & Hobj & Hrows & Hatt & Hrand & Hget).
  eexists _, w', _, _. cbv zeta.
  split_and!; [exact Hbuild | | exact Hobj | reflexivity | exact Hrows
              | exact Hget | exact Hatt | exact Hrand].
  apply not_elem_of_dom, is_fresh.
Qed.

(** X18: Building from code that does not parse: when [ast.parse] raises on
    the code, [build_for_cell] still goes through; the manifest's
    [inspection] is the error dict with the first 200 characters of the
    code, which has no [lines], so the generator is asked for a line-by-line
    explanation of nothing, and the code itself is kept whole under
    [code_sample]. *)
Theorem build_for_cell_unparseable cell_index code title w e :
  ast_parse code = Raise e ->
  always_answers llm ->
  always_renders visualizer ->
  sql_integer cell_index = Ok cell_index ->
  key_taken ca_id (Some (next_id (tick_random (tick_random w))))
    (cell_agents w) = false ->
  exists manifest w' d line_by_line,
    build_for_cell real_text ast_parse json_loads cell_index code title w
    = (Ok manifest, w')
    /\ objects w' !! manifest = Some d
    /\ dict_get "inspection" d
       = Some (VDict [("error", VStr "not python or parse error");
                      ("raw_code", VStr (str_take 200 code))])
    /\ generate (line_prompt "") = Ok line_by_line
    /\ dict_get "line_by_line" d = Some (VStr line_by_line)
    /\ dict_get "code_sample" d = Some (VStr code).
Proof.
  intros Hraise Hllm Hvis Hindex Hfree.
  assert (Hparse : parse_well_formed (ast_parse code) = true)
    by (by rewrite Hraise).
  destruct (build_for_cell_result cell_index code title w
              Hparse Hllm Hvis Hindex Hfree)
    as (inspect & summary & line_by_line & vis & diagram & anim
        & quiz_json & w' & Hinspect & _ & Hline & _ & _ & _ & _
        & Hbuild & Hobj & _ & _ & _ & _).
  unfold extract_summary in Hinspect. rewrite Hraise in Hinspect.
  injection Hinspect as <-.
  unfold inspected_lines in Hline. rewrite Hraise in Hline.
  eexists _, w', _, line_by_line.
  split_and!; [exact Hbuild | by rewrite Hobj, lookup_insert_eq
              | reflexivity | exact Hline | reflexivity | reflexivity].
Qed.

(** X19: The name of a built cell: the manifest of a call of
    [build_for_cell] that goes through is named by the title, and by
    [CellAgent_<cell index>] both when no title is given and when the title
    is the empty string. *)
Theorem build_for_cell_name cell_index code title w :
  parse_well_formed (ast_parse code) = true ->
  always_answers llm ->
  always_renders visualizer ->
  sql_integer cell_index = Ok cell_index ->
  key_taken ca_id (Some (next_id (tick_random (tick_random w))))
    (cell_agents w) = false ->
  exists manifest w' d,
    build_for_cell real_text ast_parse json_loads cell_index code title w
    = (Ok manifest, w')
    /\ objects w' !! manifest = Some d
    /\ dict_get "name" d
       = Some (VStr (if bool_decide (title = None \/ title = Some "")
                     then "CellAgent_" +:+ pretty cell_index
                     else default "" title)).
Proof.
  intros Hparse Hllm Hvis Hindex Hfree.
  destruct (build_for_cell_result cell_index code title w
              Hparse Hllm Hvis Hindex Hfree)
    as (inspect & summary & line_by_line & vis & diagram & anim
        & quiz_json & w' & _ & _ & _ & _ & _ & _ & _
        & Hbuild & Hobj & _).
  eexists _, w', _.
  split_and!; [exact Hbuild | by rewrite Hobj, lookup_insert_eq |].
  cbn [built_manifest dict_get]. change (String.eqb "name" "name") with true.
  cbv iota. do 2 f_equal. unfold cell_name.
  destruct title as [t|].
  - destruct (String.eqb_spec t "") as [->|Hne].
    + by rewrite bool_decide_eq_true_2 by (by right).
    + rewrite bool_decide_eq_false_2; [done|]. intros [?|[= ?]]; done.
  - by rewrite bool_decide_eq_true_2 by (by left).
Qed.

Lemma bind_lift {A B} (r : res A) (k : A -> M B) w :
  bind (lift r) k w = match r with Ok a => k a w | Raise e => (Raise e, w) end.
Proof. unfold bind, lift. by destruct r. Qed.

(** X20: [build_for_cell] registers all or nothing: whatever the parser,
    the generator, the visualizer and the decoder do, a call that returns
    has appended exactly one row to [cell_agents], whose payload is the
    manifest returned, and a call that raises, at any step, has appended
    none; neither stores an attempt. *)
Theorem build_for_cell_all_or_nothing cell_index code title w :
  let r := build_for_cell real_text ast_parse json_loads cell_index code title w in
  match fst r with
  | Ok manifest =>
      exists row, cell_agents (snd r) = cell_agents w ++ [row]
                  /\ objects (snd r) !! manifest = Some (ca_manifest row)
  | Raise _ => cell_agents (snd r) = cell_agents w
  end
  /\ attempts (snd r) = attempts w.
Proof.
  cbv zeta. unfold build_for_cell.
  rewrite bind_lift. destruct (extract_summary _ _) as [inspect|e]; [|done].
  rewrite bind_lift. destruct (generate _) as [summary|e]; [|done].
  rewrite bind_lift. destruct (slice_to _ _) as [lines20|e]; [|done].
  rewrite bind_lift. destruct (join_method _ _) as [joined|e]; [|done].
  rewrite bind_lift. destruct (generate _) as [line_by_line|e]; [|done].
  rewrite bind_lift. destruct (generate _) as [vis|e]; [|done].
  rewrite (bind_Ok _ _ _ _ _ (gen_id_next w)).
  rewrite bind_lift. destruct (make_diagram _ _) as [diagram|e]; [|done].
  rewrite (bind_Ok _ _ _ _ _ (gen_id_next (tick_random w))).
  rewrite bind_lift. destruct (make_animation _ _) as [anim|e]; [|done].
  rewrite bind_lift. destruct (generate _) as [quiz_json|e]; [|done].
  rewrite bind_lift.
  set (quiz := match json_loads quiz_json with
               | Ok quiz => quiz
               | Raise _ => default_quiz
               end).
  assert (Hquiz : try_except (json_loads quiz_json) (fun _ => Ok default_quiz)
                  = Ok quiz)
    by (unfold try_except, quiz; by destruct (json_loads quiz_json)).
  rewrite Hquiz.
  erewrite bind_Ok by reflexivity.
  erewrite bind_Ok by reflexivity.
  set (l := fresh _). set (m0 := [("name", _); _; _; _; _; _; _; _; _; _]).
  set (w5 := set_objects _ _).
  assert (Hl : objects w5 !! l = Some m0) by apply lookup_insert_eq.
  destruct (before_insert_tables l m0 w5) as [Hc Ha].
  assert (Hl' : objects (before_insert l m0 w5) !! l = Some (stamped m0 w5)).
  { unfold before_insert. destruct (truthy _); apply lookup_insert_eq. }
  pose proof (register_unfold real_text cell_index l m0 w5 Hl) as Hreg.
  destruct (sql_text _ _) as [id|e];
    [|by rewrite (bind_Raise _ _ _ _ _ Hreg)].
  destruct (sql_integer _) as [index|e];
    [|by rewrite (bind_Raise _ _ _ _ _ Hreg)].
  destruct (key_taken _ _ _);
    [by rewrite (bind_Raise _ _ _ _ _ Hreg)|].
  rewrite (bind_Ok _ _ _ _ _ Hreg).
  erewrite bind_Ok by (apply load_Some; exact Hl').
  erewrite bind_Ok by reflexivity. unfold ret.
  cbn [fst snd cell_agents attempts objects set_objects set_cell_agents].
  split; [|exact Ha].
  eexists. split; [reflexivity|]. cbn [ca_manifest].
  by rewrite lookup_insert_eq.
Qed.

End BuildFacts.

(** The module [nested_code], built into a cell in an empty database, with
    a generator that answers [42] to every prompt. *)
Lemma build_then_explain_witness :
  let ast_parse := fun _ : string => Ok nested_tree in
  let llm := constant_llm "42" in
  (parse_well_formed (ast_parse nested_code) = true
   /\ always_answers llm
   /\ always_renders demo_visualizer
   /\ sql_integer 3 = Ok 3
   /\ key_taken ca_id (Some (next_id (tick_random (tick_random demo_world))))
        (cell_agents demo_world) = false)
  /\ exists manifest w' d summary line_by_line,
       build_for_cell no_real_text ast_parse demo_json_loads
         (llm := llm) (visualizer := demo_visualizer)
         3 nested_code (Some "Nested") demo_world
       = (Ok manifest, w')
       /\ objects w' !! manifest = Some d
       /\ generate (summary_prompt nested_code) = Ok summary
       /\ generate (line_prompt
                      (join "\n" (take 20 (inspected_lines ast_parse nested_code))))
          = Ok line_by_line
       /\ forall cid depth,
            dict_get "id" d = Some cid ->
            explain no_real_text cid depth w'
            = (Ok (VStr (if String.eqb depth "line" then line_by_line
                         else summary)), w').
Proof.
  cbv zeta.
  assert (H1 : parse_well_formed ((fun _ : string => Ok nested_tree) nested_code)
               = true) by reflexivity.
  assert (H2 : always_answers (constant_llm "42"))
    by (intros prompt; by eexists).
  assert (H3 : always_renders demo_visualizer)
    by (split; intros; by eexists).
  assert (H4 : sql_integer 3 = Ok 3) by reflexivity.
  assert (H5 : key_taken ca_id
                 (Some (next_id (tick_random (tick_random demo_world))))
                 (cell_agents demo_world) = false) by reflexivity.
  split; [by split_and!|].
  exact (build_then_explain no_real_text (fun _ => Ok nested_tree)
           demo_json_loads (llm := constant_llm "42")
           (visualizer := demo_visualizer)
           3 nested_code (Some "Nested") demo_world H1 H2 H3 H4 H5).
Defined.

Lemma build_then_get_visuals_witness :
  let ast_parse := fun _ : string => Ok nested_tree in
  let llm := constant_llm "42" in
  (parse_well_formed (ast_parse nested_code) = true
   /\ always_answers llm
   /\ always_renders demo_visualizer
   /\ sql_integer 3 = Ok 3
   /\ key_taken ca_id (Some (next_id (tick_random (tick_random demo_world))))
        (cell_agents demo_world) = false)
  /\ exists manifest w' d vis diagram anim,
       build_for_cell no_real_text ast_parse demo_json_loads
         (llm := llm) (visualizer := demo_visualizer)
         3 nested_code (Some "Nested") demo_world
       = (Ok manifest, w')
       /\ objects w' !! manifest = Some d
       /\ generate (vis_prompt nested_code) = Ok vis
       /\ make_diagram (Visualizer := demo_visualizer)
            (next_id demo_world) vis = Ok diagram
       /\ make_animation (Visualizer := demo_visualizer)
            (next_id (tick_random demo_world)) frames = Ok anim
       /\ dict_get "id" d
          = Some (VStr (next_id (tick_random (tick_random demo_world))))
       /\ get_visuals no_real_text
            (VStr (next_id (tick_random (tick_random demo_world)))) w'
          = (Ok (VDict [("diagram", VStr diagram); ("animation", VStr anim)]),
             w').
Proof.
  cbv zeta.
  assert (H1 : parse_well_formed ((fun _ : string => Ok nested_tree) nested_code)
               = true) by reflexivity.
  assert (H2 : always_answers (constant_llm "42"))
    by (intros prompt; by eexists).
  assert (H3 : always_renders demo_visualizer)
    by (split; intros; by eexists).
  assert (H4 : sql_integer 3 = Ok 3) by reflexivity.
  assert (H5 : key_taken ca_id
                 (Some (next_id (tick_random (tick_random demo_world))))
                 (cell_agents demo_world) = false) by reflexivity.
  split; [by split_and!|].
  exact (build_then_get_visuals no_real_text (fun _ => Ok nested_tree)
           demo_json_loads (llm := constant_llm "42")
           (visualizer := demo_visualizer)
           3 nested_code (Some "Nested") demo_world H1 H2 H3 H4 H5).
Defined.

Lemma build_then_ask_question_witness :
  let ast_parse := fun _ : string => Ok nested_tree in
  let llm := constant_llm "42" in
  (parse_well_formed (ast_parse nested_code) = true
   /\ always_answers llm
   /\ always_renders demo_visualizer
   /\ sql_integer 3 = Ok 3
   /\ key_taken ca_id (Some (next_id (tick_random (tick_random demo_world))))
        (cell_agents demo_world) = false)
  /\ exists manifest w' d,
       build_for_cell no_real_text ast_parse demo_json_loads
         (llm := llm) (visualizer := demo_visualizer)
         3 nested_code (Some "Nested") demo_world
       = (Ok manifest, w')
       /\ objects w' !! manifest = Some d
       /\ forall cid user_question,
            dict_get "id" d = Some cid ->
            ask_question no_real_text no_repr cid user_question w'
            = (generate (question_prompt user_question
                           (str_take 2000 nested_code)), w').
Proof.
  cbv zeta.
  assert (H1 : parse_well_formed ((fun _ : string => Ok nested_tree) nested_code)
               = true) by reflexivity.
  assert (H2 : always_answers (constant_llm "42"))
    by (intros prompt; by eexists).
  assert (H3 : always_renders demo_visualizer)
    by (split; intros; by eexists).
  assert (H4 : sql_integer 3 = Ok 3) by reflexivity.
  assert (H5 : key_taken ca_id
                 (Some (next_id (tick_random (tick_random demo_world))))
                 (cell_agents demo_world) = false) by reflexivity.
  split; [by split_and!|].
  exact (build_then_ask_question no_real_text no_repr (fun _ => Ok nested_tree)
           demo_json_loads (llm := constant_llm "42")
           (visualizer := demo_visualizer)
           3 nested_code (Some "Nested") demo_world H1 H2 H3 H4 H5).
Defined.

Lemma build_for_cell_registers_what_it_returns_witness :
  let ast_parse := fun _ : string => Ok nested_tree in
  let llm := constant_llm "42" in
  (parse_well_formed (ast_parse nested_code) = true
   /\ always_answers llm
   /\ always_renders demo_visualizer
   /\ sql_integer 3 = Ok 3
   /\ key_taken ca_id (Some (next_id (tick_random (tick_random demo_world))))
        (cell_agents demo_world) = false)
  /\ exists manifest w' d created_at,
       let id := next_id (tick_random (tick_random demo_world)) in
       build_for_cell no_real_text ast_parse demo_json_loads
         (llm := llm) (visualizer := demo_visualizer)
         3 nested_code (Some "Nested") demo_world
       = (Ok manifest, w')
       /\ objects demo_world !! manifest = None
       /\ objects w' = <[manifest := d]> (objects demo_world)
       /\ dict_get "id" d = Some (VStr id)
       /\ cell_agents w'
          = cell_agents demo_world ++ [CellAgent (Some id) 3 d created_at]
       /\ get_manifest no_real_text (VStr id) w' = (Ok (VDict d), w')
       /\ attempts w' = attempts demo_world
       /\ random_count w' = S (S (S (random_count demo_world))).
Proof.
  cbv zeta.
  assert (H1 : parse_well_formed ((fun _ : string => Ok nested_tree) nested_code)
               = true) by reflexivity.
  assert (H2 : always_answers (constant_llm "42"))
    by (intros prompt; by eexists).
  assert (H3 : always_renders demo_visualizer)
    by (split; intros; by eexists).
  assert (H4 : sql_integer 3 = Ok 3) by reflexivity.
  assert (H5 : key_taken ca_id
                 (Some (next_id (tick_random (tick_random demo_world))))
                 (cell_agents demo_world) = false) by reflexivity.
  split; [by split_and!|].
  exact (build_for_cell_registers_what_it_returns no_real_text
           (fun _ => Ok nested_tree)
           demo_json_loads (llm := constant_llm "42")
           (visualizer := demo_visualizer)
           3 nested_code (Some "Nested") demo_world H1 H2 H3 H4 H5).
Defined.

(** Text that is not Python, built into a cell. *)
Lemma build_for_cell_unparseable_witness :
  let llm := constant_llm "42" in
  (parse_fails "x = (" = Raise SyntaxError
   /\ always_answers llm
   /\ always_renders demo_visualizer
   /\ sql_integer 3 = Ok 3
   /\ key_taken ca_id (Some (next_id (tick_random (tick_random demo_world))))
        (cell_agents demo_world) = false)
  /\ exists manifest w' d line_by_line,
       build_for_cell no_real_text parse_fails demo_json_loads
         (llm := llm) (visualizer := demo_visualizer)
         3 "x = (" None demo_world
       = (Ok manifest, w')
       /\ objects w' !! manifest = Some d
       /\ dict_get "inspection" d
          = Some (VDict [("error", VStr "not python or parse error");
                         ("raw_code", VStr (str_take 200 "x = ("))])
       /\ generate (line_prompt "") = Ok line_by_line
       /\ dict_get "line_by_line" d = Some (VStr line_by_line)
       /\ dict_get "code_sample" d = Some (VStr "x = (").
Proof.
  cbv zeta.
  assert (H1 : parse_fails "x = (" = Raise SyntaxError) by reflexivity.
  assert (H2 : always_answers (constant_llm "42"))
    by (intros prompt; by eexists).
  assert (H3 : always_renders demo_visualizer)
    by (split; intros; by eexists).
  assert (H4 : sql_integer 3 = Ok 3) by reflexivity.
  assert (H5 : key_taken ca_id
                 (Some (next_id (tick_random (tick_random demo_world))))
                 (cell_agents demo_world) = false) by reflexivity.
  split; [by split_and!|].
  exact (build_for_cell_unparseable no_real_text parse_fails
           demo_json_loads (llm := constant_llm "42")
           (visualizer := demo_visualizer)
           3 "x = (" None demo_world SyntaxError H1 H2 H3 H4 H5).
Defined.

(** A cell built with the empty string as its title. *)
Lemma build_for_cell_name_witness :
  let ast_parse := fun _ : string => Ok nested_tree in
  let llm := constant_llm "42" in
  (parse_well_formed (ast_parse nested_code) = true
   /\ always_answers llm
   /\ always_renders demo_visualizer
   /\ sql_integer 3 = Ok 3
   /\ key_taken ca_id (Some (next_id (tick_random (tick_random demo_world))))
        (cell_agents demo_world) = false)
  /\ exists manifest w' d,
       build_for_cell no_real_text ast_parse demo_json_loads
         (llm := llm) (visualizer := demo_visualizer)
         3 nested_code (Some EmptyString) demo_world
       = (Ok manifest, w')
       /\ objects w' !! manifest = Some d
       /\ dict_get "name" d = Some (VStr "CellAgent_3").
Proof.
  cbv zeta.
  assert (H1 : parse_well_formed ((fun _ : string => Ok nested_tree) nested_code)
               = true) by reflexivity.
  assert (H2 : always_answers (constant_llm "42"))
    by (intros prompt; by eexists).
  assert (H3 : always_renders demo_visualizer)
    by (split; intros; by eexists).
  assert (H4 : sql_integer 3 = Ok 3) by reflexivity.
  assert (H5 : key_taken ca_id
                 (Some (next_id (tick_random (tick_random demo_world))))
                 (cell_agents demo_world) = false) by reflexivity.
  split; [by split_and!|].
  exact (build_for_cell_name no_real_text (fun _ => Ok nested_tree)
           demo_json_loads (llm := constant_llm "42")
           (visualizer := demo_visualizer)
           3 nested_code (Some EmptyString) demo_world H1 H2 H3 H4 H5).
Defined.

(** ** [MockLLM] *)

Section MockLLMFacts.

Variable real_text : spec_float -> option string.
Variable repr : value -> string.
Variable ast_parse : string -> res Ast.node.
Variable json_loads : string -> res value.
Context {visualizer : Visualizer}.

Lemma app_assoc_str a b c : (a +:+ b) +:+ c = a +:+ (b +:+ c).
Proof. induction a as [|x a IH]; [done|]. rewrite !app_String. by f_equal. Qed.

Lemma app_empty_r s : s +:+ "" = s.
Proof. induction s as [|x s IH]; [done|]. rewrite app_String. by f_equal. Qed.

Lemma lower_app a b : lower (a +:+ b) = lower a +:+ lower b.
Proof.
  induction a as [|x a IH]; [done|]. rewrite app_String. cbn [lower].
  rewrite app_String. by f_equal.
Qed.

Lemma str_in_middle sub before s after :
  str_in sub s = true -> str_in sub (before +:+ s +:+ after) = true.
Proof.
  rewrite !str_in_substring. intros (b & a & ->).
  exists (before +:+ b), (a +:+ after). by rewrite !app_assoc_str.
Qed.

Lemma spaceless_rev_app s acc :
  spaceless s = true -> spaceless acc = true ->
  spaceless (String.rev_app s acc) = true.
Proof.
  revert acc. induction s as [|c s IH]; intros acc Hs Hacc; [done|].
  cbn [spaceless] in Hs. apply andb_true_iff in Hs as [Hc Hs].
  cbn [String.rev_app]. apply IH; [done|]. cbn [spaceless]. by rewrite Hc.
Qed.

Lemma rev_app_nonempty s acc :
  s <> "" \/ acc <> "" -> String.rev_app s acc <> "".
Proof.
  revert acc. induction s as [|c s IH]; intros acc H.
  - by destruct H.
  - cbn [String.rev_app]. apply IH. by right.
Qed.

(** The words of [split] are not empty and hold no white space. *)
Lemma split_go_words cur s :
  spaceless cur = true ->
  Forall (fun t => spaceless t = true /\ t <> "") (split_go cur s).
Proof.
  revert cur. induction s as [|c s IH]; intros cur Hcur; cbn [split_go].
  - destruct cur as [|x cur]; [constructor|].
    constructor; [|constructor]. split.
    + by apply spaceless_rev_app.
    + apply rev_app_nonempty. by left.
  - destruct (isspace c) eqn:Hc.
    + destruct cur as [|x cur]; [by apply IH|].
      constructor; [|by apply IH]. split.
      * by apply spaceless_rev_app.
      * apply rev_app_nonempty. by left.
    + apply IH. cbn [spaceless]. by rewrite Hc.
Qed.

Lemma single_spaced_word t rest b :
  spaceless t = true -> t <> "" ->
  single_spaced b (t +:+ rest) = single_spaced false rest.
Proof.
  revert b. induction t as [|c t IH]; intros b Ht Hne; [done|].
  cbn [spaceless] in Ht. apply andb_true_iff in Ht as [Hc Ht].
  apply negb_true_iff in Hc. rewrite app_String. cbn [single_spaced].
  rewrite Hc. destruct t as [|c' t]; [done|]. by apply IH.
Qed.

Lemma single_spaced_join words :
  Forall (fun t => spaceless t = true /\ t <> "") words ->
  single_spaced true (join " " words) = true.
Proof.
  induction 1 as [|t words [Ht Hne] Hwords IH]; [done|].
  destruct words as [|t' words].
  - cbn [join]. rewrite <- (app_empty_r t). by rewrite single_spaced_word.
  - change (join " " (t :: t' :: words))
      with (t +:+ " " +:+ join " " (t' :: words)).
    rewrite single_spaced_word by done. exact IH.
Qed.

Lemma single_spaced_take n s b :
  single_spaced b s = true -> single_spaced b (str_take n s) = true.
Proof.
  revert s b. induction n as [|n IH]; intros [|c s] b H; try done.
  cbn [str_take single_spaced] in *. destruct (isspace c).
  - apply andb_true_iff in H as [H1 H2]. rewrite H1. by apply IH.
  - by apply IH.
Qed.

Lemma mock_generate_summary prompt :
  str_in "summary:" (lower prompt) || str_in "summarize" (lower prompt) = true ->
  exists s,
    mock_generate repr prompt = Ok ("Quick summary: " +:+ s)
    /\ (String.length s <= 200)%nat
    /\ single_spaced true s = true.
Proof.
  intros H. unfold mock_generate. rewrite H. eexists. split; [reflexivity|].
  split; [apply str_take_length|].
  apply single_spaced_take, single_spaced_join, split_go_words. done.
Qed.

Lemma mock_always_answers : always_answers (MockLLM repr).
Proof.
  intros prompt. cbn [generate MockLLM]. unfold mock_generate.
  repeat (destruct (_ || _); [by eexists|]). by eexists.
Qed.

(** X21: The summary of [MockLLM]: a prompt that contains [summary:] or
    [summarize], in any case, is answered by [Quick summary: ] followed by
    at most 200 characters, the start of the prompt with every run of white
    space, line breaks included, turned into a single space and none left
    at its ends; the other key words of the prompt are not looked at. *)
Theorem mock_llm_summary prompt :
  str_in "summary:" (lower prompt) || str_in "summarize" (lower prompt) = true ->
  let s := str_take 200 (join " " (split (strip prompt))) in
  generate (LLMInterface := MockLLM repr) prompt
  = Ok ("Quick summary: " +:+ s)
  /\ (String.length s <= 200)%nat
  /\ single_spaced true s = true.
Proof.
  intros H. cbv zeta. cbn [generate MockLLM]. unfold mock_generate. rewrite H.
  split; [reflexivity|]. split; [apply str_take_length|].
  apply single_spaced_take, single_spaced_join, split_go_words. done.
Qed.

(** X22: [MockLLM] looks for its key words in the whole prompt, the user's
    code included: for code that mentions [summarize] or [summary:], in any
    case, every prompt built around the code is answered by a summary; in
    particular the visualization prompt of [build_for_cell] gets a
    [Quick summary: ] where drawing instructions are expected. *)
Theorem mock_llm_keyword_in_code code :
  str_in "summary:" (lower code) || str_in "summarize" (lower code) = true ->
  (forall before after, exists s,
     generate (LLMInterface := MockLLM repr) (before +:+ code +:+ after)
     = Ok ("Quick summary: " +:+ s))
  /\ exists s,
       generate (LLMInterface := MockLLM repr) (vis_prompt code)
       = Ok ("Quick summary: " +:+ s).
Proof.
  intros H.
  assert (Hall : forall before after, exists s,
            mock_generate repr (before +:+ code +:+ after)
            = Ok ("Quick summary: " +:+ s)).
  { intros before after.
    destruct (mock_generate_summary (before +:+ code +:+ after))
      as (s & Hs & _); [|by exists s].
    rewrite !lower_app. apply orb_true_iff.
    apply orb_true_iff in H as [H|H]; [left|right]; by apply str_in_middle. }
  split; [exact Hall|]. apply Hall.
Qed.

Lemma enumerate_lookup {A} (l : list A) start i :
  enumerate start l !! i = (fun a => (start + Z.of_nat i, a)) <$> l !! i.
Proof.
  revert start i. induction l as [|a l IH]; intros start [|i]; try done.
  - cbn. do 2 f_equal. lia.
  - cbn [enumerate lookup list_lookup]. rewrite IH.
    destruct (l !! i); [|done]. cbn. do 2 f_equal. lia.
Qed.

Lemma enumerate_length {A} (l : list A) start :
  length (enumerate start l) = length l.
Proof. revert start. induction l as [|a l IH]; intros start; cbn; by f_equal. Qed.

(** X23: The line-by-line answer of [MockLLM]: a prompt with [explain line]
    or [line-by-line] and without the key words of a summary is answered
    with one entry for each of its first ten non-blank lines, no more;
    entry [i], counted from 1, starts with [Line i: ] and shows at most the
    first 80 characters of the line, stripped. *)
Theorem mock_llm_line_by_line prompt :
  str_in "summary:" (lower prompt) || str_in "summarize" (lower prompt) = false ->
  str_in "explain line" (lower prompt) || str_in "line-by-line" (lower prompt)
  = true ->
  exists out,
    generate (LLMInterface := MockLLM repr) prompt = Ok (join "\n" out)
    /\ length out = (10 `min` length (nonblank_lines prompt))%nat
    /\ forall i entry,
         out !! i = Some entry ->
         exists ln shown,
           nonblank_lines prompt !! i = Some ln
           /\ shown = str_take 80 (strip ln)
           /\ (String.length shown <= 80)%nat
           /\ entry = "Line " +:+ pretty (Z.of_nat i + 1) +:+ ": " +:+ shown
                      +:+ " -> Explanation: This line ...".
Proof.
  intros H1 H2. cbn [generate MockLLM]. unfold mock_generate.
  rewrite H1, H2. eexists. split; [reflexivity|]. split.
  - rewrite length_fmap, enumerate_length, length_take, length_fmap.
    reflexivity.
  - intros i entry. rewrite list_lookup_fmap, enumerate_lookup.
    fold (nonblank_lines prompt).
    destruct (decide (i < 10)%nat) as [Hi|Hi];
      [|rewrite lookup_take_ge by lia; done].
    rewrite lookup_take_lt, list_lookup_fmap by done.
    destruct (nonblank_lines prompt !! i) as [ln|]; [|done].
    cbn. intros [= <-]. exists ln, (str_take 80 (strip ln)).
    split_and!; [done|done|apply str_take_length|].
    unfold mock_line. cbn [fst snd]. do 2 f_equal.
    replace (1 + Z.of_nat i) with (Z.of_nat i + 1) by lia. done.
Qed.

(** X24: Building with [MockLLM]: whatever the code, a cell built with the
    mock generator gets a summary that starts with [Quick summary: ] and
    goes on with at most 200 single-spaced characters, because the summary
    prompt itself says [Summary:]; and the quiz prompt, which does not
    contain the code, always yields the same text, so that with a decoder
    that reads this text back the quiz of every cell is the mock quiz of
    two questions, never the default question. *)
Theorem build_for_cell_with_mock_llm cell_index code title w :
  parse_well_formed (ast_parse code) = true ->
  always_renders visualizer ->
  sql_integer cell_index = Ok cell_index ->
  key_taken ca_id (Some (next_id (tick_random (tick_random w))))
    (cell_agents w) = false ->
  json_loads (json_dumps repr (VList mock_quiz)) = Ok (VList mock_quiz) ->
  exists manifest w' d s,
    build_for_cell real_text ast_parse json_loads (llm := MockLLM repr)
      cell_index code title w
    = (Ok manifest, w')
    /\ objects w' !! manifest = Some d
    /\ dict_get "summary" d = Some (VStr ("Quick summary: " +:+ s))
    /\ (String.length s <= 200)%nat
    /\ single_spaced true s = true
    /\ dict_get "quiz" d = Some (VList mock_quiz).
Proof.
  intros Hparse Hvis Hindex Hfree Hdecode.
  destruct (build_for_cell_result real_text ast_parse json_loads
              (llm := MockLLM repr) cell_index code title w
              Hparse mock_always_answers Hvis Hindex Hfree)
    as (inspect & summary & line_by_line & vis & diagram & anim
        & quiz_json & w' & _ & Hsummary & _ & _ & _ & _ & Hquiz
        & Hbuild & Hobj & _).
  destruct (mock_generate_summary (summary_prompt code))
    as (s & Hs & Hlen & Hspaced); [reflexivity|].
  cbn [generate MockLLM] in Hsummary, Hquiz.
  rewrite Hs in Hsummary. injection Hsummary as <-.
  assert (Hq : mock_generate repr quiz_prompt
               = Ok (json_dumps repr (VList mock_quiz)))
    by (vm_compute; reflexivity).
  assert (Hj : quiz_json = json_dumps repr (VList mock_quiz)) by congruence.
  rewrite Hj, Hdecode in Hobj.
  eexists _, w', _, s.
  split_and!; [exact Hbuild | by rewrite Hobj, lookup_insert_eq
              | reflexivity | exact Hlen | exact Hspaced | reflexivity].
Qed.

End MockLLMFacts.

(** A prompt of two lines that asks to summarize. *)
Lemma mock_llm_summary_witness :
  let prompt := "Please   summarize
  this code " in
  str_in "summary:" (lower prompt) || str_in "summarize" (lower prompt) = true
  /\ generate (LLMInterface := MockLLM no_repr) prompt
     = Ok ("Quick summary: "
           +:+ str_take 200 (join " " (split (strip prompt))))
  /\ (String.length (str_take 200 (join " " (split (strip prompt)))) <= 200)%nat
  /\ single_spaced true (str_take 200 (join " " (split (strip prompt)))) = true.
Proof.
  cbv zeta.
  set (prompt := "Please   summarize
  this code ").
  assert (H : str_in "summary:" (lower prompt)
              || str_in "summarize" (lower prompt) = true) by reflexivity.
  split; [exact H|].
  exact (mock_llm_summary no_repr prompt H).
Defined.

(** Code that defines a function called [summarize]. *)
Lemma mock_llm_keyword_in_code_witness :
  let code := "def summarize(x): pass" in
  str_in "summary:" (lower code) || str_in "summarize" (lower code) = true
  /\ (forall before after, exists s,
        generate (LLMInterface := MockLLM no_repr) (before +:+ code +:+ after)
        = Ok ("Quick summary: " +:+ s))
  /\ exists s,
       generate (LLMInterface := MockLLM no_repr) (vis_prompt code)
       = Ok ("Quick summary: " +:+ s).
Proof.
  cbv zeta.
  assert (H : str_in "summary:" (lower "def summarize(x): pass")
              || str_in "summarize" (lower "def summarize(x): pass") = true)
    by reflexivity.
  split; [exact H|].
  exact (mock_llm_keyword_in_code no_repr "def summarize(x): pass" H).
Defined.

(** A prompt of three lines, one of them blank. *)
Lemma mock_llm_line_by_line_witness :
  let prompt := "Explain line

  x = 1" in
  (str_in "summary:" (lower prompt) || str_in "summarize" (lower prompt) = false
   /\ str_in "explain line" (lower prompt)
      || str_in "line-by-line" (lower prompt) = true)
  /\ exists out,
       generate (LLMInterface := MockLLM no_repr) prompt = Ok (join "\n" out)
       /\ length out = (10 `min` length (nonblank_lines prompt))%nat
       /\ forall i entry,
            out !! i = Some entry ->
            exists ln shown,
              nonblank_lines prompt !! i = Some ln
              /\ shown = str_take 80 (strip ln)
              /\ (String.length shown <= 80)%nat
              /\ entry = "Line " +:+ pretty (Z.of_nat i + 1) +:+ ": " +:+ shown
                         +:+ " -> Explanation: This line ...".
Proof.
  cbv zeta.
  set (prompt := "Explain line

  x = 1").
  assert (H1 : str_in "summary:" (lower prompt)
               || str_in "summarize" (lower prompt) = false) by reflexivity.
  assert (H2 : str_in "explain line" (lower prompt)
               || str_in "line-by-line" (lower prompt) = true) by reflexivity.
  split; [by split|].
  exact (mock_llm_line_by_line no_repr prompt H1 H2).
Defined.

(** The module [nested_code], built with the mock generator. *)
Lemma build_for_cell_with_mock_llm_witness :
  let ast_parse := fun _ : string => Ok nested_tree in
  (parse_well_formed (ast_parse nested_code) = true
   /\ always_renders demo_visualizer
   /\ sql_integer 3 = Ok 3
   /\ key_taken ca_id (Some (next_id (tick_random (tick_random demo_world))))
        (cell_agents demo_world) = false
   /\ mock_json_loads (json_dumps no_repr (VList mock_quiz))
      = Ok (VList mock_quiz))
  /\ exists manifest w' d s,
       build_for_cell no_real_text ast_parse mock_json_loads
         (llm := MockLLM no_repr) (visualizer := demo_visualizer)
         3 nested_code None demo_world
       = (Ok manifest, w')
       /\ objects w' !! manifest = Some d
       /\ dict_get "summary" d = Some (VStr ("Quick summary: " +:+ s))
       /\ (String.length s <= 200)%nat
       /\ single_spaced true s = true
       /\ dict_get "quiz" d = Some (VList mock_quiz).
Proof.
  cbv zeta.
  assert (H1 : parse_well_formed ((fun _ : string => Ok nested_tree) nested_code)
               = true) by reflexivity.
  assert (H2 : always_renders demo_visualizer)
    by (split; intros; by eexists).
  assert (H3 : sql_integer 3 = Ok 3) by reflexivity.
  assert (H4 : key_taken ca_id
                 (Some (next_id (tick_random (tick_random demo_world))))
                 (cell_agents demo_world) = false) by reflexivity.
  assert (H5 : mock_json_loads (json_dumps no_repr (VList mock_quiz))
               = Ok (VList mock_quiz)) by (vm_compute; reflexivity).
  split; [by split_and!|].
  exact (build_for_cell_with_mock_llm no_real_text no_repr
           (fun _ => Ok nested_tree) mock_json_loads
           (visualizer := demo_visualizer)
           3 nested_code None demo_world H1 H2 H3 H4 H5).
Defined.

(** ** [GeminiAdapter] *)

Section GeminiFacts.

Lemma length_app_str a b :
  String.length (a +:+ b) = (String.length a + String.length b)%nat.
Proof. induction a as [|x a IH]; [done|]. rewrite app_String. cbn. by f_equal. Qed.

Lemma app_cancel_r a b c : a +:+ c = b +:+ c -> a = b.
Proof.
  revert b. induction a as [|x a IH]; intros [|y b] H.
  - done.
  - apply (f_equal String.length) in H. rewrite !length_app_str in H.
    cbn in H. lia.
  - apply (f_equal String.length) in H. rewrite !length_app_str in H.
    cbn in H. lia.
  - rewrite !app_String in H. injection H as -> H. f_equal. by apply IH.
Qed.

(** X25: Constructing a [GeminiAdapter]: the explicit key is used when it
    is not empty, otherwise the key found in the environment; an adapter
    that exists never holds an empty key; and the constructor raises
    [ValueError] exactly when neither of the two gives a non-empty key. *)
Theorem gemini_init_key key model_name env :
  match gemini_init key model_name env with
  | Ok g =>
      api_key g <> "" /\ model g = model_name
      /\ (key = Some (api_key g)
          \/ (key = None \/ key = Some "") /\ env = Some (api_key g))
  | Raise e =>
      (key = None \/ key = Some "") /\ (env = None \/ env = Some "")
      /\ exists msg, e = ValueError msg
  end.
Proof.
  unfold gemini_init.
  destruct key as [k|]; [destruct (String.eqb_spec k "") as [->|Hk]|].
  - destruct env as [e|]; [destruct (String.eqb_spec e "") as [->|He]|];
      cbn [api_key model]; split_and?; eauto.
  - apply String.eqb_neq in Hk as Hk'. rewrite Hk'. cbn [api_key model].
    split_and?; eauto.
  - destruct env as [e|]; [destruct (String.eqb_spec e "") as [->|He]|];
      cbn [api_key model]; split_and?; eauto.
Qed.

(** X26: The skeleton never raises, and its reply shows the model and the
    first 100 characters of the prompt and nothing else of it: two prompts
    get the same reply exactly when they agree on their first 100
    characters. *)
Theorem gemini_generate_first_100 g p1 p2 :
  (exists reply, generate (LLMInterface := gemini_llm g) p1 = Ok reply)
  /\ (generate (LLMInterface := gemini_llm g) p1
      = generate (LLMInterface := gemini_llm g) p2
      <-> str_take 100 p1 = str_take 100 p2).
Proof.
  cbn [generate gemini_llm]. unfold gemini_generate.
  split; [by eexists|]. split.
  - intros [= H]. do 3 apply String.app_inj in H.
    by apply app_cancel_r in H.
  - by intros ->.
Qed.

End GeminiFacts.

(** ** [CellAgentRuntime], continued *)

Section GradeFacts.

Variable real_text : spec_float -> option string.

Lemma str_in_refl s : str_in s s = true.
Proof. apply str_in_substring. exists "", "". by rewrite app_empty_r. Qed.

Lemma answer_entry_ok (qs : list value) i a :
  0 <= i < Z.of_nat (length qs) ->
  answer_ok (length qs) (answer_entry i a) = true.
Proof.
  intros Hi. unfold answer_ok, answer_entry. cbn.
  apply andb_true_iff. split; [apply Z.leb_le|apply Z.ltb_lt]; lia.
Qed.

Lemma grade_entry qs i a :
  forallb hinted qs = true ->
  0 <= i < Z.of_nat (length qs) ->
  grade (VList qs) (answer_entry i a)
  = Ok (VDict [("index", VInt i);
               ("user_answer", VStr a);
               ("correct",
                VBool (if String.eqb (expected_hint_of qs i) "" then true
                       else str_in (expected_hint_of qs i) (lower a)))]).
Proof.
  intros Hqs Hi.
  destruct (grade_answer qs (answer_entry i a) Hqs (answer_entry_ok qs i a Hi))
    as (i' & a' & [= <-] & [= <-] & Hg).
  exact Hg.
Qed.


Lemma res_map_all_correct qs answers :
  forallb hinted qs = true ->
  Forall (fun ans => exists i a,
            ans = answer_entry i a
            /\ 0 <= i < Z.of_nat (length qs)
            /\ str_in (expected_hint_of qs i) (lower a) = true) answers ->
  exists results,
    res_map (grade (VList qs)) answers = Ok results
    /\ length (filter (fun r => is_correct r = true) results) = length answers.
Proof.
  intros Hqs. induction 1 as [|ans answers (i & a & -> & Hi & Hin) _ IH];
    [by exists []|].
  destruct IH as (results & Hmap & Hcount).
  eexists. cbn [res_map]. rewrite (grade_entry qs i a Hqs Hi), Hmap, Hin.
  cbn [res_bind]. split; [reflexivity|].
  rewrite filter_cons_True; [simpl; by rewrite Hcount|].
  by destruct (String.eqb _ _).
Qed.

(** X28: The hints are accepted answers: on a stored manifest whose quiz
    is a list of questions, answering every question with its own hint
    (with the empty string where there is none) gives the full score. *)
Theorem run_quiz_hints_score_full w s row qs :
  select_by_id ca_id (Some s) (cell_agents w) = Some row ->
  dict_get "quiz" (ca_manifest row) = Some (VList qs) ->
  forallb hinted qs = true ->
  key_taken at_id (Some (next_id w)) (attempts w) = false ->
  exists w' details,
    run_quiz real_text (VStr s) (hint_answers qs) w
    = (Ok (VDict [("score", VInt (Z.of_nat (length qs)));
                  ("total", VInt (Z.of_nat (length qs)));
                  ("details", VList details)]), w').
Proof.
  intros Hrow Hquiz Hqs Hfree.
  assert (Hanswers :
            Forall (fun ans => exists i a,
                      ans = answer_entry i a
                      /\ 0 <= i < Z.of_nat (length qs)
                      /\ str_in (expected_hint_of qs i) (lower a) = true)
                   (hint_answers qs)).
  { apply Forall_lookup_2. intros n ans. unfold hint_answers.
    rewrite list_lookup_imap.
    destruct (qs !! n) as [q|] eqn:Hq; [|done]. intros [= <-].
    apply lookup_lt_Some in Hq as Hn.
    exists (Z.of_nat n), (hint_of q). split_and!; [done|lia|lia|].
    unfold expected_hint_of. rewrite Nat2Z.id, Hq.
    destruct q as [| | | | | |qd]; try done. cbn [hint_of].
    destruct (dict_get "answer_hint" qd) as [[| | | |h| |]|]; try done.
    apply str_in_refl. }
  destruct (res_map_all_correct qs _ Hqs Hanswers)
    as (results & Hmap & Hcount).
  pose proof (res_map_length _ _ _ Hmap) as Hlen.
  assert (Hn : length (hint_answers qs) = length qs)
    by (unfold hint_answers; apply length_imap).
  rewrite run_quiz_unfold, (get_manifest_present _ _ _ row Hrow).
  cbn [get_method]. rewrite Hquiz. cbn [default]. rewrite Hmap. cbv zeta.
  rewrite store_attempt_unfold. cbv zeta. cbn [sql_text]. rewrite Hfree.
  rewrite Hcount, Hlen, Hn. by eexists _, _.
Qed.

End GradeFacts.


(** The demo quiz, answered with its hints. *)
Lemma run_quiz_hints_score_full_witness :
  let row := CellAgent (Some "cell") 1 demo_manifest (S754_zero false) in
  (select_by_id ca_id (Some "cell") (cell_agents quiz_world) = Some row
   /\ dict_get "quiz" (ca_manifest row) = Some (VList demo_quiz)
   /\ forallb hinted demo_quiz = true
   /\ key_taken at_id (Some (next_id quiz_world)) (attempts quiz_world) = false)
  /\ exists w' details,
       run_quiz no_real_text (VStr "cell") (hint_answers demo_quiz) quiz_world
       = (Ok (VDict [("score", VInt 2); ("total", VInt 2);
                     ("details", VList details)]), w').
Proof.
  cbv zeta.
  set (row := CellAgent (Some "cell") 1 demo_manifest (S754_zero false)).
  assert (H1 : select_by_id ca_id (Some "cell") (cell_agents quiz_world)
               = Some row) by reflexivity.
  assert (H2 : dict_get "quiz" (ca_manifest row) = Some (VList demo_quiz))
    by reflexivity.
  assert (H3 : forallb hinted demo_quiz = true) by reflexivity.
  assert (H4 : key_taken at_id (Some (next_id quiz_world)) (attempts quiz_world)
               = false) by reflexivity.
  split; [by split_and!|].
  exact (run_quiz_hints_score_full no_real_text quiz_world "cell" row
           demo_quiz H1 H2 H3 H4).
Defined.
